(** * voice-wake-linux: the wake-detection-to-response state machine

    A shallow embedding of [scripts/voice_wake.py].  Every call that leaves
    the process (sub-process, file system, microphone, recogniser, clock)
    takes its outcome from a "world" argument and leaves an [event] in the
    trace, so that a method of [VoiceWakeService] becomes a function from
    the worlds it meets to a trace, a final [service] object and a result
    or a raised exception. *)

From Stdlib Require Import List Ascii String ZArith NArith Bool Lia.
From Stdlib Require Import Floats.SpecFloat.
From ExtLib Require Import Structures.Monad.
Import ListNotations.
Import MonadNotation.
Local Open Scope monad_scope.
Local Open Scope Z_scope.

Set Implicit Arguments.

(** ** Python strings

    A [str] is a sequence of code points. *)

Definition pystr := list N.

Definition py (s : string) : pystr :=
  map N_of_ascii (list_ascii_of_string s).

(** [a == b] *)
Fixpoint pystr_eqb (a b : pystr) : bool :=
  match a, b with
  | [], [] => true
  | x :: a', y :: b' => (x =? y)%N && pystr_eqb a' b'
  | _, _ => false
  end.

(** [str.isspace] on one code point (CPython's [_PyUnicode_IsWhitespace]). *)
Definition isspace (c : N) : bool :=
  (((9 <=? c) && (c <=? 13)) || ((28 <=? c) && (c <=? 32))
   || (c =? 133) || (c =? 160) || (c =? 5760)
   || ((8192 <=? c) && (c <=? 8202))
   || (c =? 8232) || (c =? 8233) || (c =? 8239) || (c =? 8287)
   || (c =? 12288))%N.

Fixpoint lstrip (s : pystr) : pystr :=
  match s with
  | c :: t => if isspace c then lstrip t else s
  | [] => []
  end.

Definition rstrip (s : pystr) : pystr := rev (lstrip (rev s)).

(** [s.strip()] *)
Definition strip (s : pystr) : pystr := lstrip (rstrip s).

(** [s.startswith(p)] *)
Fixpoint startswith (p s : pystr) : bool :=
  match p, s with
  | [], _ => true
  | a :: p', b :: s' => (a =? b)%N && startswith p' s'
  | _ :: _, [] => false
  end.

(** The text after the first occurrence of [sep] in [s], when there is one. *)
Fixpoint after_first (sep s : pystr) : option pystr :=
  if startswith sep s then Some (skipn (List.length sep) s)
  else match s with
       | [] => None
       | _ :: t => after_first sep t
       end.

(** The text before the first occurrence of [sep] in [s] (all of [s] when
    there is none). *)
Fixpoint before_first (sep s : pystr) : pystr :=
  if startswith sep s then []
  else match s with
       | [] => []
       | c :: t => c :: before_first sep t
       end.

(** [sep in s] for two strings *)
Definition contains (sep s : pystr) : bool :=
  match after_first sep s with Some _ => true | None => false end.

(** [s.split(sep)[1]], [None] standing for the IndexError *)
Definition split_1 (sep s : pystr) : option pystr :=
  match after_first sep s with
  | Some rest => Some (before_first sep rest)
  | None => None
  end.

(** ** Python floats: IEEE 754 binary64 *)

Definition float := spec_float.

Definition prec := 53.
Definition emax := 1024.

(** [a > b] *)
Definition float_gt (a b : float) : bool := SFltb b a.
(** [a == b] *)
Definition float_eq (a b : float) : bool := SFeqb a b.
(** [a - b] *)
Definition float_sub (a b : float) : float := SFsub prec emax a b.

(** The double nearest to 0.3, [0x3FD3333333333333]. *)
Definition float_0_3 : float := S754_finite false 5404319552844595 (-54).
(** 3, as the comparison [... > 3] sees it. *)
Definition float_3 : float := S754_finite false 6755399441055744 (-51).
(** 0, the first value of [last_run]. *)
Definition float_0 : float := S754_zero false.

(** ** The scores of the detector

    [predict] of openwakeword gives a number for each model: a
    numpy.float32, taken from the output of the network, or the Python
    float 0.0 of the first frames.  How [confidence > threshold] compares
    a numpy.float32 with the Python float of the configuration is the
    business of the NumPy that made the number: NumPy 2 rounds the Python
    float to float32 and compares there; NumPy 1 widens the float32, which
    is exact, and compares in binary64. *)

(** The float32 nearest to a double, ties to even. *)
Definition to_float32 (x : float) : float :=
  match x with
  | S754_finite s m e => binary_round 24 128 s m e
  | _ => x
  end.

Inductive score :=
| PyFloat (x : float)           (* a Python float *)
| Float32 (x : float)           (* a numpy.float32 of NumPy 2 *)
| Float32Legacy (x : float).    (* a numpy.float32 of NumPy 1 *)

(** The number, as [{confidence:.2f}] formats it. *)
Definition score_value (c : score) : float :=
  match c with PyFloat x | Float32 x | Float32Legacy x => x end.

(** What the Python float [threshold] is compared as. *)
Definition compared_as (c : score) (threshold : float) : float :=
  match c with
  | PyFloat _ | Float32Legacy _ => threshold
  | Float32 _ => to_float32 threshold
  end.

(** [c > threshold] *)
Definition score_gt (c : score) (threshold : float) : bool :=
  float_gt (score_value c) (compared_as c threshold).

(** [c == threshold] *)
Definition score_eq (c : score) (threshold : float) : bool :=
  float_eq (score_value c) (compared_as c threshold).

(** ** Exceptions *)

(** The classes of [Exception] the program names in an [except] clause or
    that the modelled operations raise; [OtherError] stands for every other
    subclass of [Exception]. *)
Inductive exn_kind :=
| TimeoutExpired        (* subprocess.TimeoutExpired *)
| CalledProcessError    (* subprocess.CalledProcessError *)
| FileNotFoundError
| JSONDecodeError       (* json.JSONDecodeError *)
| UnknownValueError     (* sr.UnknownValueError *)
| RequestError          (* sr.RequestError *)
| TypeError
| KeyError
| IndexError
| AttributeError
| OtherError.

Definition exn_kind_eqb (a b : exn_kind) : bool :=
  match a, b with
  | TimeoutExpired, TimeoutExpired | CalledProcessError, CalledProcessError
  | FileNotFoundError, FileNotFoundError | JSONDecodeError, JSONDecodeError
  | UnknownValueError, UnknownValueError | RequestError, RequestError
  | TypeError, TypeError | KeyError, KeyError | IndexError, IndexError
  | AttributeError, AttributeError | OtherError, OtherError => true
  | _, _ => false
  end.

(** What is raised: an [Exception] with its text, or the [SystemExit] of
    [sys.exit], which [except Exception] lets through. *)
Inductive exn :=
| Exc (k : exn_kind) (text : pystr)
| SystemExit (code : Z).

(** [except Exception] *)
Definition is_Exception (e : exn) : bool :=
  match e with Exc _ _ => true | SystemExit _ => false end.

(** [except K] for one of the named classes *)
Definition is_kind (k : exn_kind) (e : exn) : bool :=
  match e with Exc k' _ => exn_kind_eqb k k' | SystemExit _ => false end.

(** a bare [except:] *)
Definition is_anything (e : exn) : bool := true.

(** The outcome of a call that leaves the process: what it returns, or the
    [Exception] it raises. *)
Inductive outcome (A : Type) :=
| Returns (a : A)
| Throws (k : exn_kind) (text : pystr).
Arguments Throws {A} k text.

(** ** JSON values, as [json.loads] builds them *)

#[warnings="-register-all"]
Inductive json :=
| JNull
| JBool (b : bool)
| JInt (z : Z)
| JFloat (f : float)
| JStr (s : pystr)
| JList (l : list json)
| JDict (d : list (pystr * json)).

(** ** The trace *)

Inductive level := DEBUG | INFO | WARNING | ERROR.

(** A value interpolated into a log message. *)
Inductive arg :=
| AStr (s : pystr)
| AFloat (f : float)
| AInt (z : Z)
| AExn (e : exn)
| AJson (v : json).

Inductive event :=
| Log (lvl : level) (fmt : string) (args : list arg)
    (* logger.<lvl>(f"...") : the text with [{}] for each interpolated value *)
| Run (argv : list pystr) (timeout : Z)       (* subprocess.run(argv, timeout=...) *)
| TempFile (suffix : pystr)                   (* tempfile.NamedTemporaryFile(suffix=..., delete=False) *)
| WriteWav (path : pystr)                     (* wave.open(...).writeframes(...) *)
| Loads (text : pystr)                        (* json.loads(text) *)
| Exists (path : pystr)                       (* os.path.exists(path) *)
| Unlink (path : pystr)                       (* os.unlink(path) *)
| Listen (duration : Z)                       (* self.recognizer.record(source, duration=...) *)
| Recognize                                   (* self.recognizer.recognize_google(audio) *)
| LoadModel                                   (* Model() *)
| NewMicrophone                               (* sr.Recognizer(); sr.Microphone(...) *)
| AdjustNoise                                 (* with self.microphone: adjust_for_ambient_noise(source, duration=1) *)
| NewPyAudio                                  (* pyaudio.PyAudio() *)
| ListDevices                                 (* get_device_count() and get_device_info_by_index(i) for each i *)
| OpenStream                                  (* self.pyaudio_instance.open(...) *)
| EnterMicrophone                             (* with self.microphone as source *)
| ReadFrame (chunk : Z)                       (* self.audio_stream.read(chunk, exception_on_overflow=False) *)
| Predict                                     (* self.wake_word_model.predict(audio_array) *)
| Clock                                       (* time.time() *)
| Spawn                                       (* threading.Thread(target=self.record_and_transcribe, daemon=True).start() *)
| Sleep                                       (* time.sleep(0.1) *)
| CloseStream                                 (* audio_stream.stop_stream(); audio_stream.close() *)
| Terminate.                                  (* pyaudio_instance.terminate() *)

(** ** The service object and the monad of its methods *)

(** The fields of [VoiceWakeService]; a handle is [true] when it is set and
    [false] when it is [None]. *)
Record service := {
  wake_word_model : bool;
  microphone : bool;
  running : bool;
  recording : bool;
  audio_stream : bool;
  pyaudio_instance : bool;
}.

Inductive res (A : Type) :=
| Ok (a : A)
| Raise (e : exn).
Arguments Raise {A} e.

(** A method body: from the object to the events it leaves, the object
    afterwards, and the value returned or the exception raised.  What was
    assigned before a [raise] stays assigned. *)
Definition M (A : Type) : Type := service -> list event * service * res A.

Definition M_ret {A} (a : A) : M A := fun s => ([], s, Ok a).

Definition M_bind {A B} (c : M A) (f : A -> M B) : M B :=
  fun s =>
    match c s with
    | (t1, s1, Ok a) => let '(t2, s2, r) := f a s1 in (t1 ++ t2, s2, r)
    | (t1, s1, Raise e) => (t1, s1, Raise e)
    end.

#[export] Instance Monad_M : Monad M := {| ret := @M_ret; bind := @M_bind |}.

Definition raise {A} (e : exn) : M A := fun s => ([], s, Raise e).

Definition emit (ev : event) : M unit := fun s => ([ev], s, Ok tt).

Definition log (lvl : level) (fmt : string) (args : list arg) : M unit :=
  emit (Log lvl fmt args).

(** A call that leaves the process: the event, then its outcome. *)
Definition call {A} (ev : event) (o : outcome A) : M A :=
  fun s => ([ev], s,
            match o with
            | Returns a => Ok a
            | Throws k text => Raise (Exc k text)
            end).

Definition get : M service := fun s => ([], s, Ok s).
Definition put (s' : service) : M unit := fun _ => ([], s', Ok tt).

(** One [except] clause: the classes it names and its body. *)
Definition clause (A : Type) : Type := (exn -> bool) * (exn -> M A).

Fixpoint first_clause {A} (cs : list (clause A)) (e : exn) : option (M A) :=
  match cs with
  | [] => None
  | (p, h) :: cs' => if p e then Some (h e) else first_clause cs' e
  end.

(** [try: c  except ...: ...] : the first clause that matches runs; with
    none the exception goes on. *)
Definition try_except {A} (c : M A) (cs : list (clause A)) : M A :=
  fun s =>
    match c s with
    | (t1, s1, Ok a) => (t1, s1, Ok a)
    | (t1, s1, Raise e) =>
        match first_clause cs e with
        | Some h => let '(t2, s2, r) := h s1 in (t1 ++ t2, s2, r)
        | None => (t1, s1, Raise e)
        end
    end.

(** [try: c  finally: f] : [f] runs on every way out of [c]; what [f]
    raises replaces the outcome of [c]. *)
Definition finally {A} (c : M A) (f : M unit) : M A :=
  fun s =>
    let '(t1, s1, r1) := c s in
    match f s1 with
    | (t2, s2, Ok _) => (t1 ++ t2, s2, r1)
    | (t2, s2, Raise e) => (t1 ++ t2, s2, Raise e)
    end.

(** The parts of a run. *)
Definition trace_of {A} (x : list event * service * res A) : list event := fst (fst x).
Definition service_of {A} (x : list event * service * res A) : service := snd (fst x).
Definition result_of {A} (x : list event * service * res A) : res A := snd x.

(** ** Configuration: the class [Config] *)

Class Config := {
  WAKE_WORD : pystr;
  DETECTION_THRESHOLD : float;
  OPENCLAW_CLI : pystr;
  SESSION_ID : pystr;
  CHUNK_SIZE : Z;
  ENABLE_TTS : bool;
  AUDIO_PLAYER : pystr;
  MP3_PLAYER : pystr;
}.

(** The values in the source. *)
Definition source_config : Config := {|
  WAKE_WORD := py "hey_jarvis";
  DETECTION_THRESHOLD := float_0_3;
  OPENCLAW_CLI := py "openclaw";
  SESSION_ID := py "voice:wake:main";
  CHUNK_SIZE := 1280;
  ENABLE_TTS := true;
  AUDIO_PLAYER := py "aplay";
  MP3_PLAYER := py "ffplay";
|}.

(** The cooldown between two triggers: the literal [3] of the poll loop,
    [WAKE_WORD_COOLDOWN] in [config.example.py]. *)
Definition WAKE_WORD_COOLDOWN : float := float_3.

(** ** subprocess.run *)

Record completed := {
  returncode : Z;
  stdout : pystr;
  stderr : pystr;
}.

(** [subprocess.run(argv, timeout=t)]; with [check=True] a non-zero exit
    status raises [CalledProcessError]. *)
Definition subprocess_run (argv : list pystr) (timeout : Z) (check : bool)
    (o : outcome completed) : M completed :=
  r <- call (Run argv timeout) o ;;
  if check && negb (returncode r =? 0)
  then raise (Exc CalledProcessError [])
  else ret r.

(** ** play_wake_feedback *)

Record feedback_world := {
  fb_tempfile : outcome pystr;     (* NamedTemporaryFile(mode='wb', suffix='.wav', delete=False): its name *)
  fb_wave : outcome unit;          (* writing the samples through wave.open *)
  fb_aplay : outcome completed;    (* the run of aplay *)
  fb_unlink : outcome unit;        (* os.unlink(temp_filename) *)
}.

Definition play_wake_feedback (w : feedback_world) : M unit :=
  try_except
    ((* the samples of the beep are computed first: numpy, no world *)
     temp_filename <- call (TempFile (py ".wav")) (fb_tempfile w) ;;
     call (WriteWav temp_filename) (fb_wave w) ;;
     finally
       (try_except
          (subprocess_run [py "aplay"; py "-q"; temp_filename] 2 true (fb_aplay w) ;;
           log DEBUG "✅ Audio feedback played successfully" [])
          [ (is_kind TimeoutExpired,
             fun _ => log WARNING "Audio feedback playback timed out" []);
            (is_kind CalledProcessError,
             fun e => log WARNING "Failed to play audio feedback: {}" [AExn e]);
            (is_kind FileNotFoundError,
             fun _ => log WARNING "aplay not found - audio feedback disabled" []) ])
       (try_except
          (call (Unlink temp_filename) (fb_unlink w))
          [ (is_anything, fun _ => ret tt) ]))
    [ (is_Exception,
       fun e => log WARNING "Failed to generate/play audio feedback: {}" [AExn e]) ].

(** ** Where a signal finds the main thread

    Python runs a signal handler in the main thread, between two
    bytecodes of whatever the thread is executing, and what the handler
    raises is raised there.  The main thread runs the poll loop, and in a
    turn over a frame it passes the points below; a computation [here p]
    stands at each of them.  A signal that arrives during a call (the
    read of a frame, the run of aplay, the sleep) is handled when the call
    returns: at the point after it.  *)
Inductive point :=
(* in the [try] of the turn *)
| AfterRead          (* the frame is read *)
| AfterPredict       (* the detector has answered *)
| AfterDetected      (* the detection is logged *)
| AfterClock         (* the clock is read for the cooldown *)
(* in play_wake_feedback *)
| InTone             (* in its [try], the samples computed *)
| AfterTempFile      (* the file of the tone is made *)
| AfterWave          (* and written *)
| BeforeAplay        (* in the [try] around aplay *)
| AfterAplay         (* aplay has returned with status 0 *)
| AfterPlayed        (* and the debug line is logged *)
| InClause           (* at the end of an [except] clause of that [try] *)
| BeforeUnlink       (* in the [try] of the [finally] *)
| AfterUnlink        (* the file is unlinked *)
| InPass             (* in the bare [except] of the [finally] *)
| AfterFinally       (* past the [finally] *)
| InToneExcept       (* at the end of the [except Exception] of the method *)
(* back in the [try] of the turn *)
| AfterFeedback      (* play_wake_feedback has returned *)
| AfterSpawn         (* the thread is started *)
| AfterStamp         (* the clock is read for [last_run] *)
(* in the [except Exception] of the turn *)
| InExcept           (* before the test of [self.running] *)
| AfterErrorLog      (* the error is logged *)
| InSleep.           (* in [time.sleep(0.1)] *)

Definition point_index (p : point) : nat :=
  match p with
  | AfterRead => 0 | AfterPredict => 1 | AfterDetected => 2 | AfterClock => 3
  | InTone => 4 | AfterTempFile => 5 | AfterWave => 6 | BeforeAplay => 7
  | AfterAplay => 8 | AfterPlayed => 9 | InClause => 10 | BeforeUnlink => 11
  | AfterUnlink => 12 | InPass => 13 | AfterFinally => 14 | InToneExcept => 15
  | AfterFeedback => 16 | AfterSpawn => 17 | AfterStamp => 18
  | InExcept => 19 | AfterErrorLog => 20 | InSleep => 21
  end.

Definition same_point (p q : point) : bool := Nat.eqb (point_index p) (point_index q).

(** Nothing arrives. *)
Definition quiet (p : point) : M unit := ret tt.

(** [play_wake_feedback] with the points of the main thread in it. *)
Definition play_wake_feedback_at (here : point -> M unit) (w : feedback_world) : M unit :=
  try_except
    (here InTone ;;
     temp_filename <- call (TempFile (py ".wav")) (fb_tempfile w) ;;
     here AfterTempFile ;;
     call (WriteWav temp_filename) (fb_wave w) ;;
     here AfterWave ;;
     finally
       (try_except
          (here BeforeAplay ;;
           subprocess_run [py "aplay"; py "-q"; temp_filename] 2 true (fb_aplay w) ;;
           here AfterAplay ;;
           log DEBUG "✅ Audio feedback played successfully" [] ;;
           here AfterPlayed)
          [ (is_kind TimeoutExpired,
             fun _ => log WARNING "Audio feedback playback timed out" [] ;;
                      here InClause);
            (is_kind CalledProcessError,
             fun e => log WARNING "Failed to play audio feedback: {}" [AExn e] ;;
                      here InClause);
            (is_kind FileNotFoundError,
             fun _ => log WARNING "aplay not found - audio feedback disabled" [] ;;
                      here InClause) ])
       (try_except
          (here BeforeUnlink ;;
           call (Unlink temp_filename) (fb_unlink w) ;;
           here AfterUnlink)
          [ (is_anything, fun _ => here InPass) ]) ;;
     here AfterFinally)
    [ (is_Exception,
       fun e => log WARNING "Failed to generate/play audio feedback: {}" [AExn e] ;;
                here InToneExcept) ].

(** ** Python's operations on a decoded JSON value *)

Fixpoint lookup {V : Type} (key : pystr) (d : list (pystr * V)) : option V :=
  match d with
  | [] => None
  | (k, v) :: d' => if pystr_eqb key k then Some v else lookup key d'
  end.

Definition type_error {A} : M A := raise (Exc TypeError []).

(** [bool(v)] *)
Definition truthy (v : json) : bool :=
  match v with
  | JNull => false
  | JBool b => b
  | JInt z => negb (z =? 0)
  | JFloat (S754_zero _) => false
  | JFloat _ => true
  | JStr s => match s with [] => false | _ => true end
  | JList l => match l with [] => false | _ => true end
  | JDict d => match d with [] => false | _ => true end
  end.

(** [key in v], [key] a str *)
Definition py_in (key : pystr) (v : json) : M bool :=
  match v with
  | JDict d => ret (match lookup key d with Some _ => true | None => false end)
  | JList l =>
      ret (existsb (fun x => match x with JStr s => pystr_eqb key s | _ => false end) l)
  | JStr s => ret (contains key s)
  | _ => type_error
  end.

(** [v[key]], [key] a str *)
Definition py_getitem (key : pystr) (v : json) : M json :=
  match v with
  | JDict d =>
      match lookup key d with
      | Some x => ret x
      | None => raise (Exc KeyError key)
      end
  | _ => type_error
  end.

(** [len(v)] *)
Definition py_len (v : json) : M Z :=
  match v with
  | JStr s => ret (Z.of_nat (List.length s))
  | JList l => ret (Z.of_nat (List.length l))
  | JDict d => ret (Z.of_nat (List.length d))
  | _ => type_error
  end.

(** [v[0]]; the keys of a decoded object are strings, so [0] is none of them *)
Definition py_getitem_0 (v : json) : M json :=
  match v with
  | JList (x :: _) => ret x
  | JList [] => raise (Exc IndexError [])
  | JStr (c :: _) => ret (JStr [c])
  | JStr [] => raise (Exc IndexError [])
  | JDict _ => raise (Exc KeyError [])
  | _ => type_error
  end.

(** [v.get(key, default)] *)
Definition py_get (key : pystr) (default : json) (v : json) : M json :=
  match v with
  | JDict d =>
      ret (match lookup key d with Some x => x | None => default end)
  | _ => raise (Exc AttributeError (py "get"))
  end.

(** ** send_to_openclaw *)

Record dispatch_world := {
  dw_run : outcome completed;     (* the run of the agent *)
  dw_loads : outcome json;        (* json.loads(result.stdout) *)
}.

Section Methods.
Context {cfg : Config}.

Definition send_to_openclaw (w : dispatch_world) (text : pystr) : M (option json) :=
  try_except
    (log INFO "Sending to OpenClaw: {}" [AStr text] ;;
     result <- subprocess_run
                 [OPENCLAW_CLI; py "agent"; py "--session-id"; SESSION_ID;
                  py "--message"; text; py "--json"] 120 false (dw_run w) ;;
     if negb (returncode result =? 0) then
       log ERROR "OpenClaw CLI failed: {}" [AStr (stderr result)] ;;
       ret None
     else
       try_except
         (let no_text : M (option json) :=
            log WARNING "No response text found in OpenClaw output" [] ;;
            ret None in
          response <- call (Loads (stdout result)) (dw_loads w) ;;
          has_result <- py_in (py "result") response ;;
          has_payloads <-
            (if has_result : bool then
               r <- py_getitem (py "result") response ;;
               py_in (py "payloads") r
             else ret false) ;;
          if has_payloads : bool then
            r <- py_getitem (py "result") response ;;
            payloads <- py_getitem (py "payloads") r ;;
            nonempty <-
              (if truthy payloads then n <- py_len payloads ;; ret (0 <? n)
               else ret false) ;;
            if nonempty : bool then
              first <- py_getitem_0 payloads ;;
              response_text <- py_get (py "text") (JStr []) first ;;
              if truthy response_text then
                log INFO "✅ OpenClaw response: {}" [AJson response_text] ;;
                ret (Some response_text)
              else no_text
            else no_text
          else no_text)
         [ (is_kind JSONDecodeError,
            fun e =>
              log ERROR "Failed to parse OpenClaw JSON response: {}" [AExn e] ;;
              ret None) ])
    [ (is_kind TimeoutExpired,
       fun _ => log ERROR "OpenClaw command timed out" [] ;; ret None);
      (is_Exception,
       fun e => log ERROR "Failed to send to OpenClaw: {}" [AExn e] ;; ret None) ].

(** ** text_to_speech *)

Record tts_world := {
  tts_openclaw : outcome completed;   (* the run of the agent's tts sub-command *)
  tts_tempfile : outcome pystr;       (* NamedTemporaryFile(suffix='.wav', delete=False): its name *)
  tts_espeak : outcome completed;     (* the run of espeak *)
}.

Definition text_to_speech (w : tts_world) (text : pystr) : M (option pystr) :=
  (* Try OpenClaw CLI TTS first; [Some] is the [return] inside the [try] *)
  returned <-
    try_except
      (result <- subprocess_run [OPENCLAW_CLI; py "tts"; py "--text"; text] 30 false
                   (tts_openclaw w) ;;
       if (returncode result =? 0) && contains (py "MEDIA:") (stdout result) then
         match split_1 (py "MEDIA:") (stdout result) with
         | Some rest =>
             let media_path := strip rest in
             log INFO "✅ TTS generated: {}" [AStr media_path] ;;
             ret (Some media_path)
         | None => raise (Exc IndexError [])
         end
       else
         log WARNING "OpenClaw TTS not available, using espeak fallback" [] ;;
         ret None)
      [ (is_kind FileNotFoundError,
         fun _ =>
           log WARNING "OpenClaw CLI not found, using espeak fallback" [] ;;
           ret None);
        (is_Exception,
         fun e =>
           log WARNING "OpenClaw TTS failed ({}), using espeak fallback" [AExn e] ;;
           ret None) ] ;;
  match returned with
  | Some media_path => ret (Some media_path)
  | None =>
      (* Fallback to espeak *)
      try_except
        (temp_file <- call (TempFile (py ".wav")) (tts_tempfile w) ;;
         subprocess_run [py "espeak"; py "-v"; py "en-us"; py "-w"; temp_file; text]
           30 true (tts_espeak w) ;;
         log INFO "✅ TTS generated (espeak): {}" [AStr temp_file] ;;
         ret (Some temp_file))
        [ (is_kind FileNotFoundError,
           fun _ =>
             log ERROR "espeak not found - cannot speak responses" [] ;;
             ret None);
          (is_Exception,
           fun e => log ERROR "Espeak TTS failed: {}" [AExn e] ;; ret None) ]
  end.

(** ** play_audio, play_mp3 *)

Definition play_audio (o : outcome completed) (audio_path : pystr) : M bool :=
  try_except
    (log INFO "🔊 Playing audio: {}" [AStr audio_path] ;;
     result <- subprocess_run [AUDIO_PLAYER; audio_path] 10 false o ;;
     if returncode result =? 0 then
       log INFO "✅ Audio playback completed" [] ;; ret true
     else
       log ERROR "Audio playback failed: {}" [AStr (stderr result)] ;; ret false)
    [ (is_kind TimeoutExpired,
       fun _ => log ERROR "Audio playback timed out" [] ;; ret false);
      (is_kind FileNotFoundError,
       fun _ => log ERROR "Audio player '{}' not found" [AStr AUDIO_PLAYER] ;; ret false);
      (is_Exception,
       fun e => log ERROR "Failed to play audio: {}" [AExn e] ;; ret false) ].

Definition play_mp3 (o : outcome completed) (mp3_path : pystr) : M bool :=
  try_except
    (log INFO "🎵 Playing MP3: {}" [AStr mp3_path] ;;
     result <- subprocess_run [MP3_PLAYER; py "-nodisp"; py "-autoexit"; mp3_path]
                 120 false o ;;
     if returncode result =? 0 then
       log INFO "✅ MP3 playback completed" [] ;; ret true
     else
       log ERROR "MP3 playback failed: {}" [AStr (stderr result)] ;; ret false)
    [ (is_kind TimeoutExpired,
       fun _ => log ERROR "MP3 playback timed out" [] ;; ret false);
      (is_kind FileNotFoundError,
       fun _ => log ERROR "MP3 player '{}' not found" [AStr MP3_PLAYER] ;; ret false);
      (is_Exception,
       fun e => log ERROR "Failed to play MP3: {}" [AExn e] ;; ret false) ].

(** ** speak_response *)

Record speak_world := {
  sp_mp3_exists : bool;              (* os.path.exists(mp3_path) *)
  sp_mp3 : outcome completed;        (* the run of the MP3 player *)
  sp_tts : tts_world;
  sp_audio_exists : bool;            (* os.path.exists(audio_path) *)
  sp_play : outcome completed;       (* the run of the audio player *)
  sp_unlink : outcome unit;          (* os.unlink(audio_path) *)
}.

(** The reply is what [send_to_openclaw] returned: a [str] for an agent
    that keeps to its format, any decoded value otherwise. *)
Definition speak_response (w : speak_world) (reply : json) : M unit :=
  if negb ENABLE_TTS then
    log INFO "Response (not spoken): {}" [AJson reply]
  else
    try_except
      (match reply with
       | JStr text =>
           (* Check if response is a MEDIA: path (MP3 file) *)
           if startswith (py "MEDIA:") text then
             let mp3_path := strip (skipn 6 text) in
             log INFO "🎵 Detected MP3 response: {}" [AStr mp3_path] ;;
             found <- call (Exists mp3_path) (Returns (sp_mp3_exists w)) ;;
             if found : bool then
               success <- play_mp3 (sp_mp3 w) mp3_path ;;
               if success : bool then
                 log INFO "✅ MP3 playback completed" []
               else
                 log WARNING "MP3 playback failed, falling back to TTS" [] ;;
                 log INFO "No text content to speak from MEDIA response" []
             else
               log WARNING "MP3 file not found: {}" [AStr mp3_path]
           else
             (* Regular text response - use TTS *)
             audio_path <- text_to_speech (sp_tts w) text ;;
             found <-
               match audio_path with
               | Some (_ :: _ as p) => call (Exists p) (Returns (sp_audio_exists w))
               | _ => ret false
               end ;;
             match audio_path, found with
             | Some p, true =>
                 play_audio (sp_play w) p ;;
                 try_except
                   (if negb (startswith (py "/tmp/tts-") p)
                    then call (Unlink p) (sp_unlink w)
                    else ret tt)
                   [ (is_anything, fun _ => ret tt) ]
             | _, _ =>
                 log WARNING "Could not generate or find audio file" []
             end
       | _ =>
           (* [text.startswith] on a value that is no str *)
           raise (Exc AttributeError (py "startswith"))
       end)
      [ (is_Exception,
         fun e => log ERROR "Failed to speak response: {}" [AExn e]) ].

(** ** Assignments to the fields of [self] *)

Definition with_recording (b : bool) (s : service) : service :=
  {| wake_word_model := wake_word_model s; microphone := microphone s;
     running := running s; recording := b;
     audio_stream := audio_stream s; pyaudio_instance := pyaudio_instance s |}.

Definition with_running (b : bool) (s : service) : service :=
  {| wake_word_model := wake_word_model s; microphone := microphone s;
     running := b; recording := recording s;
     audio_stream := audio_stream s; pyaudio_instance := pyaudio_instance s |}.

Definition with_wake_word_model (b : bool) (s : service) : service :=
  {| wake_word_model := b; microphone := microphone s;
     running := running s; recording := recording s;
     audio_stream := audio_stream s; pyaudio_instance := pyaudio_instance s |}.

Definition with_microphone (b : bool) (s : service) : service :=
  {| wake_word_model := wake_word_model s; microphone := b;
     running := running s; recording := recording s;
     audio_stream := audio_stream s; pyaudio_instance := pyaudio_instance s |}.

Definition with_audio_stream (b : bool) (s : service) : service :=
  {| wake_word_model := wake_word_model s; microphone := microphone s;
     running := running s; recording := recording s;
     audio_stream := b; pyaudio_instance := pyaudio_instance s |}.

Definition with_pyaudio_instance (b : bool) (s : service) : service :=
  {| wake_word_model := wake_word_model s; microphone := microphone s;
     running := running s; recording := recording s;
     audio_stream := audio_stream s; pyaudio_instance := b |}.

Definition assign (f : service -> service) : M unit :=
  s <- get ;; put (f s).

(** [__init__] *)
Definition init : service :=
  {| wake_word_model := false; microphone := false; running := false;
     recording := false; audio_stream := false; pyaudio_instance := false |}.

(** ** record_and_transcribe *)

Record cycle_world := {
  cw_enter : outcome unit;          (* with self.microphone as source *)
  cw_listen : outcome unit;         (* self.recognizer.record(source, duration=10) *)
  cw_feedback : feedback_world;
  cw_recognize : outcome pystr;     (* self.recognizer.recognize_google(audio) *)
  cw_dispatch : dispatch_world;
  cw_speak : speak_world;
}.

(** The [try] block of [record_and_transcribe] with its [except]. *)
Definition record_and_transcribe_try (w : cycle_world) : M unit :=
  try_except
    (call EnterMicrophone (cw_enter w) ;;
     log INFO "Recording... You have 10 seconds to speak your command" [] ;;
     call (Listen 10) (cw_listen w) ;;
     log INFO "Recording finished!" [] ;;
     play_wake_feedback (cw_feedback w) ;;
     (* Try to transcribe *)
     log INFO "Transcribing..." [] ;;
     try_except
       (text <- call Recognize (cw_recognize w) ;;
        if match text with [] => false | _ => true end
           && match strip text with [] => false | _ => true end
        then
          log INFO "Transcribed: '{}'" [AStr text] ;;
          response_text <-
            send_to_openclaw (cw_dispatch w) (strip text ++ py ". Reply in voice mode.") ;;
          match response_text with
          | Some reply =>
              log INFO "✅ Command processed successfully" [] ;;
              speak_response (cw_speak w) reply
          | None => log WARNING "⚠️  No response from OpenClaw" []
          end
        else log INFO "No speech detected or transcription empty" [])
       [ (is_kind UnknownValueError,
          fun _ => log INFO "Could not understand audio" []);
         (is_kind RequestError,
          fun e => log ERROR "Speech recognition error: {}" [AExn e]) ])
    [ (is_Exception,
       fun e => log ERROR "Error during recording/transcription: {}" [AExn e]) ].

(** The [finally] of [record_and_transcribe]. *)
Definition record_and_transcribe_finally : M unit :=
  assign (with_recording false) ;;
  log INFO "Ready for next wake word..." [].

(** What [record_and_transcribe] does once past its guard. *)
Definition recording_cycle (w : cycle_world) : M unit :=
  finally (record_and_transcribe_try w) record_and_transcribe_finally.

Definition record_and_transcribe (w : cycle_world) : M unit :=
  s <- get ;;
  if recording s then ret tt
  else
    assign (with_recording true) ;;
    log INFO "🎙️  Wake word detected! Recording for 10 seconds..." [] ;;
    recording_cycle w.

(** ** The three initialisers *)

Record init_world := {
  iw_model : outcome (option pystr);         (* Model(): its [model_names] when it has the attribute *)
  iw_microphone : outcome unit;              (* sr.Recognizer(); sr.Microphone(...) *)
  iw_adjust : outcome unit;                  (* adjust_for_ambient_noise *)
  iw_pyaudio : outcome unit;                 (* pyaudio.PyAudio() *)
  iw_devices : outcome (list (pystr * Z));   (* get_device_count, get_device_info_by_index: name and maxInputChannels of each device *)
  iw_open : outcome unit;                    (* pyaudio_instance.open(...) *)
}.

Definition initialize_wake_word_detection (w : init_world) : M bool :=
  try_except
    (log INFO "Initializing OpenWakeWord model..." [] ;;
     names <- call LoadModel (iw_model w) ;;
     assign (with_wake_word_model true) ;;
     log INFO "✅ OpenWakeWord model initialized successfully" [] ;;
     try_except
       (match names with
        | Some l => log INFO "Available models: {}" [AStr l]
        | None => log INFO "Model initialized with default wake words" []
        end)
       [ (is_Exception,
          fun e => log WARNING "Could not retrieve model names: {}" [AExn e]) ] ;;
     ret true)
    [ (is_Exception,
       fun e => log ERROR "Failed to initialize OpenWakeWord: {}" [AExn e] ;; ret false) ].

Definition initialize_speech_recognition (w : init_world) : M bool :=
  try_except
    (call NewMicrophone (iw_microphone w) ;;
     assign (with_microphone true) ;;
     log INFO "Adjusting for ambient noise..." [] ;;
     call AdjustNoise (iw_adjust w) ;;
     log INFO "✅ Speech recognition initialized" [] ;;
     ret true)
    [ (is_Exception,
       fun e => log ERROR "Failed to initialize speech recognition: {}" [AExn e] ;;
                ret false) ].

Fixpoint log_devices (i : Z) (devices : list (pystr * Z)) : M unit :=
  match devices with
  | [] => ret tt
  | (name, channels) :: rest =>
      log INFO "  {}: {} (channels: {})" [AInt i; AStr name; AInt channels] ;;
      log_devices (i + 1) rest
  end.

Definition initialize_audio_stream (w : init_world) : M bool :=
  try_except
    (call NewPyAudio (iw_pyaudio w) ;;
     assign (with_pyaudio_instance true) ;;
     (* List audio devices for debugging *)
     log INFO "Available audio devices:" [] ;;
     devices <- call ListDevices (iw_devices w) ;;
     log_devices 0 devices ;;
     call OpenStream (iw_open w) ;;
     assign (with_audio_stream true) ;;
     log INFO "✅ Audio stream opened (device: {})" [AStr (py "default")] ;;
     ret true)
    [ (is_Exception,
       fun e => log ERROR "Failed to initialize audio stream: {}" [AExn e] ;;
                ret false) ].

(** ** stop and the signal handler *)

Record stop_world := {
  sw_close : outcome unit;        (* audio_stream.stop_stream(); audio_stream.close() *)
  sw_terminate : outcome unit;    (* pyaudio_instance.terminate() *)
}.

Definition stop (w : stop_world) : M unit :=
  log INFO "Stopping Voice Wake Service..." [] ;;
  assign (with_running false) ;;
  s <- get ;;
  (if audio_stream s then
     call CloseStream (sw_close w) ;;
     assign (with_audio_stream false)
   else ret tt) ;;
  s <- get ;;
  (if pyaudio_instance s then
     call Terminate (sw_terminate w) ;;
     assign (with_pyaudio_instance false)
   else ret tt) ;;
  s <- get ;;
  (if wake_word_model s then assign (with_wake_word_model false) else ret tt) ;;
  log INFO "✅ Voice Wake Service stopped successfully" [].

Definition _signal_handler (w : stop_world) (sig : Z) : M unit :=
  log INFO "Received signal {}, shutting down gracefully..." [AInt sig] ;;
  stop w ;;
  raise (SystemExit 0).

(** ** start: the poll loop *)

Record frame_world := {
  fw_read : outcome unit;                        (* self.audio_stream.read(...) *)
  fw_predict : outcome (list (pystr * score));   (* self.wake_word_model.predict(audio_array) *)
  fw_now : float;                                (* time.time() in the cooldown test *)
  fw_feedback : feedback_world;
  fw_stamp : float;                              (* time.time() assigned to last_run *)
}.

(** What one turn of the [while] loop meets: a frame to read, or SIGINT or
    SIGTERM delivered to the main thread, by where the thread is then.
    The handler of [Signal] runs at the start of the [try] block of the
    turn, before the read; that of [Interrupted] in the turn over a frame,
    at the given point, or, when the turn does not pass that point, at
    the test of the [while] that follows it; that of [SignalAtTest] at
    the test of the [while], with no turn before it. *)
Inductive tick :=
| Frame (w : frame_world)
| Signal (sig : Z) (w : stop_world)
| Interrupted (w : frame_world) (p : point) (sig : Z) (sw : stop_world)
| SignalAtTest (sig : Z) (sw : stop_world).

(** The [try] block of one turn; the value is [last_run] afterwards. *)
Definition poll_frame (w : frame_world) (last_run : float) : M float :=
  call (ReadFrame CHUNK_SIZE) (fw_read w) ;;
  predictions <- call Predict (fw_predict w) ;;
  (* Check if configured wake word detected *)
  match lookup WAKE_WORD predictions with
  | Some confidence =>
      if score_gt confidence DETECTION_THRESHOLD then
        log INFO "🎯 Wake word '{}' detected (confidence: {})"
          [AStr WAKE_WORD; AFloat (score_value confidence)] ;;
        now <- call Clock (Returns (fw_now w)) ;;
        if float_gt (float_sub now last_run) WAKE_WORD_COOLDOWN then
          play_wake_feedback (fw_feedback w) ;;
          emit Spawn ;;
          call Clock (Returns (fw_stamp w))
        else ret last_run
      else ret last_run
  | None => ret last_run
  end.

(** The [try] block with the points of the main thread in it. *)
Definition poll_frame_at (here : point -> M unit) (w : frame_world) (last_run : float)
    : M float :=
  call (ReadFrame CHUNK_SIZE) (fw_read w) ;;
  here AfterRead ;;
  predictions <- call Predict (fw_predict w) ;;
  here AfterPredict ;;
  match lookup WAKE_WORD predictions with
  | Some confidence =>
      if score_gt confidence DETECTION_THRESHOLD then
        log INFO "🎯 Wake word '{}' detected (confidence: {})"
          [AStr WAKE_WORD; AFloat (score_value confidence)] ;;
        here AfterDetected ;;
        now <- call Clock (Returns (fw_now w)) ;;
        here AfterClock ;;
        if float_gt (float_sub now last_run) WAKE_WORD_COOLDOWN then
          play_wake_feedback_at here (fw_feedback w) ;;
          here AfterFeedback ;;
          emit Spawn ;;
          here AfterSpawn ;;
          stamp <- call Clock (Returns (fw_stamp w)) ;;
          here AfterStamp ;;
          ret stamp
        else ret last_run
      else ret last_run
  | None => ret last_run
  end.

(** The [except Exception] of a turn. *)
Definition loop_except (last_run : float) : list (clause float) :=
  [ (is_Exception,
     fun e =>
       s <- get ;;
       (if running s then
          log ERROR "Error in main loop: {}" [AExn e] ;;
          emit Sleep
        else ret tt) ;;
       ret last_run) ].

(** The same with the points of the main thread in it. *)
Definition loop_except_at (here : point -> M unit) (last_run : float)
    : list (clause float) :=
  [ (is_Exception,
     fun e =>
       here InExcept ;;
       s <- get ;;
       (if running s then
          log ERROR "Error in main loop: {}" [AExn e] ;;
          here AfterErrorLog ;;
          emit Sleep ;;
          here InSleep
        else ret tt) ;;
       ret last_run) ].

(** The signal arrives when the main thread is at [target]: the handler
    runs there, and nowhere else. *)
Definition delivered (target : point) (sig : Z) (sw : stop_world) (p : point) : M unit :=
  if same_point target p then _signal_handler sw sig else ret tt.

(** One turn of the loop: the inner [try] and its [except Exception].  The
    handler clears [self.running] before anything else, so that after the
    turn of [Interrupted] the flag is still set exactly when the turn has
    not passed the point: the signal then comes at the test. *)
Definition poll_turn (t : tick) (last_run : float) : M float :=
  match t with
  | Frame w => try_except (poll_frame w last_run) (loop_except last_run)
  | Signal sig w =>
      try_except (_signal_handler w sig ;; ret last_run) (loop_except last_run)
  | Interrupted w p sig sw =>
      last_run' <- try_except (poll_frame_at (delivered p sig sw) w last_run)
                     (loop_except_at (delivered p sig sw) last_run) ;;
      s <- get ;;
      (if running s then _signal_handler sw sig else ret tt) ;;
      ret last_run'
  | SignalAtTest sig sw => _signal_handler sw sig ;; ret last_run
  end.

(** How the run of the loop over the given ticks ends: the [while] test
    found [self.running] false, or the ticks ran out with the loop still
    going. *)
Inductive polling :=
| LoopLeft
| StillPolling (last_run : float).

(** [while self.running: ...] over the turns the ticks describe. *)
Fixpoint poll_loop (ticks : list tick) (last_run : float) : M polling :=
  s <- get ;;
  if running s then
    match ticks with
    | [] => ret (StillPolling last_run)
    | t :: ticks' =>
        last_run' <- poll_turn t last_run ;;
        poll_loop ticks' last_run'
    end
  else ret LoopLeft.

(** [start]; [None] when the ticks ran out with the loop still going. *)
Definition start (iw : init_world) (ticks : list tick) : M (option bool) :=
  log INFO "🚀 Starting Voice Wake Service with TTS..." [] ;;
  ok <- initialize_wake_word_detection iw ;;
  if negb ok then
    log ERROR "Failed to initialize wake word detection" [] ;; ret (Some false)
  else
  ok <- initialize_speech_recognition iw ;;
  if negb ok then
    log ERROR "Failed to initialize speech recognition" [] ;; ret (Some false)
  else
  ok <- initialize_audio_stream iw ;;
  if negb ok then
    log ERROR "Failed to initialize audio stream" [] ;; ret (Some false)
  else
  log INFO "✅ All components initialized successfully" [] ;;
  log INFO "🎯 Say '{}' to wake up, then speak your command" [AStr WAKE_WORD] ;;
  log INFO "🔊 TTS is {}" [AStr (if ENABLE_TTS then py "enabled" else py "disabled")] ;;
  assign (with_running true) ;;
  try_except
    (p <- poll_loop ticks float_0 ;;
     match p with
     | LoopLeft => log INFO "Voice Wake Service stopped" [] ;; ret (Some true)
     | StillPolling _ => ret None
     end)
    [ (is_Exception,
       fun e => log ERROR "Fatal error in main loop: {}" [AExn e] ;; ret (Some false)) ].

(** ** The worker threads

    Each trigger starts a thread on [record_and_transcribe]; the threads
    share [self].  A worker takes three steps: the test of its guard ([if
    self.recording: return]), the assignment [self.recording = True], and
    the cycle to the end of its [finally].  The method takes no lock, and
    a thread may be suspended between any two statements: nothing orders
    the steps of one worker against those of another.  The cycle reads no
    field of [self] and assigns none before its [finally], so that it
    stands as one step, which the steps of the others may come before.
    The main thread assigns other fields of [self] in between, never
    [recording]. *)

Inductive worker :=
| Started (w : cycle_world)     (* the thread exists, its guard is still to run *)
| Tested (w : cycle_world)      (* past [if self.recording: return], the flag not yet assigned *)
| Cycling (w : cycle_world)     (* past [self.recording = True], inside the cycle *)
| Finished.

Definition advance (wk : worker) (s : service) : worker * service :=
  match wk with
  | Started w =>
      if recording s then (Finished, s)
      else (Tested w, s)
  | Tested w => (Cycling w, with_recording true s)
  | Cycling w => (Finished, service_of (recording_cycle w s))
  | Finished => (Finished, s)
  end.

Record system := {
  self : service;
  workers : list worker;
}.

Inductive action :=
| Trigger (w : cycle_world)     (* the poll loop starts a worker *)
| Schedule (i : nat)            (* worker [i] takes its next step *)
| MainThread (s' : service).    (* the main thread assigns fields other than [recording] *)

Fixpoint replace_nth {A} (i : nat) (x : A) (l : list A) : list A :=
  match l, i with
  | [], _ => []
  | _ :: t, O => x :: t
  | y :: t, S i' => y :: replace_nth i' x t
  end.

Definition step (sys : system) (a : action) : system :=
  match a with
  | Trigger w => {| self := self sys; workers := workers sys ++ [Started w] |}
  | Schedule i =>
      match nth_error (workers sys) i with
      | Some wk =>
          let '(wk', s') := advance wk (self sys) in
          {| self := s'; workers := replace_nth i wk' (workers sys) |}
      | None => sys
      end
  | MainThread s' =>
      {| self := with_recording (recording (self sys)) s'; workers := workers sys |}
  end.

Definition run_system (acts : list action) (sys : system) : system :=
  fold_left step acts sys.

Definition cycling (wk : worker) : bool :=
  match wk with Cycling _ => true | _ => false end.

Definition tested (wk : worker) : bool :=
  match wk with Tested _ => true | _ => false end.

(** A schedule that does not break a guard: a worker that runs takes its
    test and its assignment back to back, or its cycle. *)
Inductive turn :=
| Starts (w : cycle_world)      (* the poll loop starts a worker *)
| Runs (i : nat)                (* worker [i] runs its guard, both statements, or its cycle *)
| Assigns (s' : service).       (* the main thread assigns fields other than [recording] *)

Definition unbroken (t : turn) : list action :=
  match t with
  | Starts w => [Trigger w]
  | Runs i => [Schedule i; Schedule i]
  | Assigns s' => [MainThread s']
  end.


(** The number of workers inside a cycle. *)
Definition active_cycles (sys : system) : nat :=
  List.length (filter cycling (workers sys)).

End Methods.

(** ** Reading a trace *)

Definition is_run (ev : event) : bool :=
  match ev with Run _ _ => true | _ => false end.

Definition is_log_at (lvl : level) (ev : event) : bool :=
  match ev, lvl with
  | Log DEBUG _ _, DEBUG | Log INFO _ _, INFO
  | Log WARNING _ _, WARNING | Log ERROR _ _, ERROR => true
  | _, _ => false
  end.

Definition is_tempfile (ev : event) : bool :=
  match ev with TempFile _ => true | _ => false end.

(** The primary synthesis: the run of the agent's [tts] sub-command, the
    one run with four arguments whose second is [tts]. *)
Definition is_primary_synthesis (ev : event) : bool :=
  match ev with
  | Run [_; sub; _; _] _ => pystr_eqb sub (py "tts")
  | _ => false
  end.

(** The fallback synthesis: the run of espeak. *)
Definition is_fallback_synthesis (ev : event) : bool :=
  match ev with
  | Run [prog; _; _; _; _; _] _ => pystr_eqb prog (py "espeak")
  | _ => false
  end.

(** The primary path yields a media reference: exit status 0 and the
    marker in the output. *)
Definition primary_yields_media (o : outcome completed) : bool :=
  match o with
  | Returns r => (returncode r =? 0) && contains (py "MEDIA:") (stdout r)
  | Throws _ _ => false
  end.

Definition is_spawn (ev : event) : bool :=
  match ev with Spawn => true | _ => false end.

Definition is_read_frame (ev : event) : bool :=
  match ev with ReadFrame _ => true | _ => false end.

Definition is_frame (t : tick) : bool :=
  match t with Frame _ => true | _ => false end.

(** The run of the loop ended with the loop still going. *)
Definition still_polling (r : res polling) : bool :=
  match r with Ok (StillPolling _) => true | _ => false end.

Definition count (p : event -> bool) (t : list event) : nat :=
  List.length (filter p t).

Definition is_ok {A} (r : res A) : bool :=
  match r with Ok _ => true | Raise _ => false end.

(** What a run raises, if anything, is an [Exception]. *)
Definition ok_or_exception {A} (r : res A) : bool :=
  match r with Ok _ => true | Raise e => is_Exception e end.

(** A computation is tame for [P] when, from every object, each of its
    events satisfies [P], it leaves the object as it found it, and it
    raises nothing but an [Exception]. *)
Definition tame {A} (P : event -> bool) (c : M A) : Prop :=
  forall s,
    forallb P (trace_of (c s)) = true
    /\ service_of (c s) = s
    /\ ok_or_exception (result_of (c s)) = true.

(** A computation returns when no run of it raises. *)
Definition returns {A} (c : M A) : Prop :=
  forall s, is_ok (result_of (c s)) = true.

(** The message of a dispatch: the run of the agent's [agent] sub-command
    is the one run with seven arguments. *)
Definition dispatch_message (ev : event) : option pystr :=
  match ev with
  | Run [_; sub; _; _; _; message; _] _ =>
      if pystr_eqb sub (py "agent") then Some message else None
  | _ => None
  end.

(** The messages dispatched in a trace, in order. *)
Fixpoint dispatches (t : list event) : list pystr :=
  match t with
  | [] => []
  | ev :: t' =>
      match dispatch_message ev with
      | Some m => m :: dispatches t'
      | None => dispatches t'
      end
  end.

(** The events that are no dispatch and belong to the feedback tone, the
    decoding of a reply or the renderer: log lines, file operations,
    [json.loads] and the runs other than a dispatch. *)
Definition helper_event (ev : event) : bool :=
  match ev with
  | Log _ _ _ | TempFile _ | WriteWav _ | Loads _ | Exists _ | Unlink _ => true
  | Run _ _ => match dispatch_message ev with Some _ => false | None => true end
  | _ => false
  end.

Definition any_event (ev : event) : bool := true.

(** No synthesis: neither run of a synthesiser, no temporary file. *)
Definition no_synthesis (ev : event) : bool :=
  negb (is_primary_synthesis ev || is_fallback_synthesis ev || is_tempfile ev).

(** ** Example worlds *)

Definition exited (rc : Z) (out err : pystr) : outcome completed :=
  Returns {| returncode := rc; stdout := out; stderr := err |}.

(** The doubles nearest to 0.45 and 0.25, and 1700000000.0 as a time of
    day. *)
Definition float_0_45 : float := S754_finite false 8106479329266893 (-54).
Definition float_0_25 : float := S754_finite false 4503599627370496 (-54).
Definition float_1_7e9 : float := S754_finite false 7130316800000000 (-22).

(** The float32 nearest to 0.45, to 0.3 ([0x3E99999A], 0.300000011920929)
    and to 0.25. *)
Definition float32_0_45 : float := S754_finite false 15099494 (-25).
Definition float32_0_3 : float := S754_finite false 10066330 (-25).
Definition float32_0_25 : float := S754_finite false 8388608 (-25).

(** The tone is written, played and unlinked. *)
Definition tone_played : feedback_world :=
  {| fb_tempfile := Returns (py "/tmp/tmpa1.wav"); fb_wave := Returns tt;
     fb_aplay := exited 0 [] []; fb_unlink := Returns tt |}.

(** aplay does not end in its two seconds, and the file of the tone cannot
    be unlinked. *)
Definition tone_timed_out : feedback_world :=
  {| fb_tempfile := Returns (py "/tmp/tmpa1.wav"); fb_wave := Returns tt;
     fb_aplay := Throws TimeoutExpired (py "timed out after 2 seconds");
     fb_unlink := Throws OtherError (py "Permission denied") |}.

(** A frame in which the detector hears the wake word with confidence 0.45. *)
Definition frame_heard : frame_world :=
  {| fw_read := Returns tt;
     fw_predict := Returns [(py "alexa", Float32 float_0);
                            (py "hey_jarvis", Float32 float32_0_45)];
     fw_now := float_1_7e9; fw_feedback := tone_played; fw_stamp := float_1_7e9 |}.

(** A frame in which the detector is not sure: confidence 0.25. *)
Definition frame_faint : frame_world :=
  {| fw_read := Returns tt;
     fw_predict := Returns [(py "alexa", Float32 float_0);
                            (py "hey_jarvis", Float32 float32_0_25)];
     fw_now := float_1_7e9; fw_feedback := tone_played; fw_stamp := float_1_7e9 |}.

(** A frame that cannot be read. *)
Definition frame_lost : frame_world :=
  {| fw_read := Throws OtherError (py "Stream closed");
     fw_predict := Returns []; fw_now := float_1_7e9;
     fw_feedback := tone_played; fw_stamp := float_1_7e9 |}.

(** A world in which the three initialisers succeed. *)
Definition all_ready (names : option pystr) (devices : list (pystr * Z)) : init_world :=
  {| iw_model := Returns names; iw_microphone := Returns tt; iw_adjust := Returns tt;
     iw_pyaudio := Returns tt; iw_devices := Returns devices; iw_open := Returns tt |}.

(** The agent exits with status 0, prints [out], and [json.loads] answers
    [decoded]. *)
Definition agent_says (out : pystr) (decoded : outcome json) : dispatch_world :=
  {| dw_run := exited 0 out []; dw_loads := decoded |}.

(** A string between double quotes, as JSON writes it. *)
Definition quoted (s : string) : pystr := [34%N] ++ py s ++ [34%N].

(** The agent prints [{}]: an object without the field [result]. *)
Definition reply_without_result : dispatch_world :=
  agent_says (py "{}") (Returns (JDict [])).

(** The agent prints an object whose list of payloads is empty. *)
Definition reply_without_payload : dispatch_world :=
  agent_says
    (py "{" ++ quoted "result" ++ py ": {" ++ quoted "payloads" ++ py ": []}}")
    (Returns (JDict [(py "result", JDict [(py "payloads", JList [])])])).

(** The agent answers with one payload. *)
Definition sunny_output : pystr :=
  py "{" ++ quoted "result" ++ py ": {" ++ quoted "payloads" ++ py ": [{"
  ++ quoted "text" ++ py ": " ++ quoted "It is sunny." ++ py "}]}}".

Definition sunny : list (pystr * json) :=
  [(py "result",
    JDict [(py "payloads", JList [JDict [(py "text", JStr (py "It is sunny."))]])])].

Definition reply_sunny : dispatch_world :=
  agent_says sunny_output (Returns (JDict sunny)).

(** The agent has no tts sub-command to offer; espeak writes its file. *)
Definition espeak_speaks : tts_world :=
  {| tts_openclaw := exited 1 [] (py "unknown command");
     tts_tempfile := Returns (py "/tmp/tmpb2.wav");
     tts_espeak := exited 0 [] [] |}.

(** No file where the reply points; every player would play. *)
Definition file_missing : speak_world :=
  {| sp_mp3_exists := false; sp_mp3 := exited 0 [] [];
     sp_tts := espeak_speaks; sp_audio_exists := true;
     sp_play := exited 0 [] []; sp_unlink := Returns tt |}.

(** The file of the reply is there and the MP3 player plays it. *)
Definition file_present : speak_world :=
  {| sp_mp3_exists := true; sp_mp3 := exited 0 [] [];
     sp_tts := espeak_speaks; sp_audio_exists := true;
     sp_play := exited 0 [] []; sp_unlink := Returns tt |}.

(** The agent's tts sub-command times out; espeak writes its file, which
    is found and played. *)
Definition tts_times_out : speak_world :=
  {| sp_mp3_exists := false; sp_mp3 := exited 0 [] [];
     sp_tts := {| tts_openclaw := Throws TimeoutExpired (py "timed out after 30 seconds");
                  tts_tempfile := Returns (py "/tmp/tmpb2.wav");
                  tts_espeak := exited 0 [] [] |};
     sp_audio_exists := true; sp_play := exited 0 [] []; sp_unlink := Returns tt |}.

(** ** Traces the statements name *)

Definition is_run_or_unlink (ev : event) : bool :=
  match ev with Run _ _ | Unlink _ => true | _ => false end.

(** How every dispatch starts. *)
Definition dispatch_start {cfg : Config} (text : pystr) : list event :=
  [Log INFO "Sending to OpenClaw: {}" [AStr text];
   Run [OPENCLAW_CLI; py "agent"; py "--session-id"; SESSION_ID;
        py "--message"; text; py "--json"] 120].

(** What [play_wake_feedback] logs for the run of aplay before its
    [finally]: the line after a run that went through, or the line of the
    [except] clause that names what the run raised. *)
Definition aplay_logged (o : outcome completed) : list event :=
  match o with
  | Returns r =>
      if returncode r =? 0
      then [Log DEBUG "✅ Audio feedback played successfully" []]
      else [Log WARNING "Failed to play audio feedback: {}"
              [AExn (Exc CalledProcessError [])]]
  | Throws TimeoutExpired _ => [Log WARNING "Audio feedback playback timed out" []]
  | Throws CalledProcessError text =>
      [Log WARNING "Failed to play audio feedback: {}" [AExn (Exc CalledProcessError text)]]
  | Throws FileNotFoundError _ =>
      [Log WARNING "aplay not found - audio feedback disabled" []]
  | Throws _ _ => []
  end.

(** The line of the outer [except Exception], after the [finally], for
    what the run raised and no clause names. *)
Definition aplay_escaped (o : outcome completed) : list event :=
  match o with
  | Returns _ => []
  | Throws TimeoutExpired _ | Throws CalledProcessError _ | Throws FileNotFoundError _ => []
  | Throws k text =>
      [Log WARNING "Failed to generate/play audio feedback: {}" [AExn (Exc k text)]]
  end.

(** The events of [play_wake_feedback] once the tone is in the file [f]:
    aplay is run on it, then it is unlinked. *)
Definition tone_events (f : pystr) (o : outcome completed) : list event :=
  [TempFile (py ".wav"); WriteWav f; Run [py "aplay"; py "-q"; f] 2]
  ++ aplay_logged o ++ [Unlink f] ++ aplay_escaped o.

(** The trace of a turn of the loop that triggers. *)
Definition frame_trace {cfg : Config} (w : frame_world) (confidence : score)
    (s : service) : list event :=
  [ReadFrame CHUNK_SIZE; Predict;
   Log INFO "🎯 Wake word '{}' detected (confidence: {})"
     [AStr WAKE_WORD; AFloat (score_value confidence)];
   Clock]
  ++ trace_of (play_wake_feedback (fw_feedback w) s)
  ++ [Spawn; Clock].

(** The object when [start] enters its loop. *)
Definition ready (s : service) : service :=
  with_running true
    (with_audio_stream true
       (with_pyaudio_instance true (with_microphone true (with_wake_word_model true s)))).

(** ** Worlds and traces of a cycle *)

(** A world in which the recording succeeds and the recogniser answers
    [heard]. *)
Definition hears (fb : feedback_world) (heard : outcome pystr)
    (d : dispatch_world) (sp : speak_world) : cycle_world :=
  {| cw_enter := Returns tt; cw_listen := Returns tt; cw_feedback := fb;
     cw_recognize := heard; cw_dispatch := d; cw_speak := sp |}.

(** The trace of the [try] block in such a world, up to the call of the
    recogniser. *)
Definition up_to_recognize (fb : feedback_world) (s : service) : list event :=
  [EnterMicrophone;
   Log INFO "Recording... You have 10 seconds to speak your command" [];
   Listen 10;
   Log INFO "Recording finished!" []]
  ++ trace_of (play_wake_feedback fb s)
  ++ [Log INFO "Transcribing..." []; Recognize].

(** The system before the first trigger. *)
Definition idle : system := {| self := init; workers := [] |}.

(** A set flag has its cycle: some worker is inside one. *)
Definition flag_has_a_cycle (sys : system) : Prop :=
  recording (self sys) = true -> (1 <= active_cycles sys)%nat.

(** No worker stands between its test and its assignment. *)
Definition none_tested (sys : system) : Prop :=
  forallb (fun wk => negb (tested wk)) (workers sys) = true.

(** ** What the methods return, read off the answers of the world *)

Definition returned {A} (o : outcome A) : bool :=
  match o with Returns _ => true | Throws _ _ => false end.

(** The exit status 0 of a player. *)
Definition played (o : outcome completed) : bool :=
  match o with
  | Returns r => returncode r =? 0
  | Throws _ _ => false
  end.

(** The file espeak wrote. *)
Definition espeak_file (w : tts_world) : option pystr :=
  match tts_tempfile w, tts_espeak w with
  | Returns temp_file, Returns r => if returncode r =? 0 then Some temp_file else None
  | _, _ => None
  end.

(** The path [text_to_speech] returns: what follows the first [MEDIA:] in
    the output of the agent's [tts] sub-command up to the next one,
    trimmed, or else the file of espeak. *)
Definition synthesized (w : tts_world) : option pystr :=
  match tts_openclaw w with
  | Returns r =>
      match (if returncode r =? 0 then split_1 (py "MEDIA:") (stdout r) else None) with
      | Some rest => Some (strip rest)
      | None => espeak_file w
      end
  | Throws _ _ => espeak_file w
  end.

(** The reply in a decoded answer of the agent: the value at [text] of the
    first payload when the answer is an object whose [result] is an object
    whose [payloads] is a list that starts with an object, and the value
    is true. *)
Definition reply_in (response : json) : option json :=
  match response with
  | JDict d =>
      match lookup (py "result") d with
      | Some (JDict result) =>
          match lookup (py "payloads") result with
          | Some (JList (JDict first :: _)) =>
              match lookup (py "text") first with
              | Some response_text => if truthy response_text then Some response_text else None
              | None => None
              end
          | _ => None
          end
      | _ => None
      end
  | _ => None
  end.

(** The reply [send_to_openclaw] returns. *)
Definition reply_text (w : dispatch_world) : option json :=
  match dw_run w, dw_loads w with
  | Returns r, Returns response => if returncode r =? 0 then reply_in response else None
  | _, _ => None
  end.

(** The tone file exists and holds the tone. *)
Definition tone_written (w : feedback_world) : bool :=
  returned (fb_tempfile w) && returned (fb_wave w).

(** aplay played it. *)
Definition tone_heard (w : feedback_world) : bool :=
  tone_written w && played (fb_aplay w).

(** The three initialisers succeed. *)
Definition init_ok (w : init_world) : bool :=
  returned (iw_model w) && returned (iw_microphone w) && returned (iw_adjust w)
  && returned (iw_pyaudio w) && returned (iw_devices w) && returned (iw_open w).

(** [initialize_audio_stream] is called and [pyaudio.PyAudio()] returns. *)
Definition pyaudio_created (w : init_world) : bool :=
  returned (iw_model w) && returned (iw_microphone w) && returned (iw_adjust w)
  && returned (iw_pyaudio w).

(** The reply is a [str]. *)
Definition is_str (v : json) : bool :=
  match v with JStr _ => true | _ => false end.

(** ** More readings of a trace *)

Definition is_log (ev : event) : bool :=
  match ev with Log _ _ _ => true | _ => false end.

Definition is_unlink (ev : event) : bool :=
  match ev with Unlink _ => true | _ => false end.

(** The run of the audio player (the one run with two arguments) or an
    unlink. *)
Definition is_play_or_unlink (ev : event) : bool :=
  match ev with
  | Run [_; _] _ | Unlink _ => true
  | _ => false
  end.

Definition is_sleep (ev : event) : bool :=
  match ev with Sleep => true | _ => false end.

Definition is_new_microphone (ev : event) : bool :=
  match ev with NewMicrophone => true | _ => false end.

Definition is_new_pyaudio (ev : event) : bool :=
  match ev with NewPyAudio => true | _ => false end.

Definition is_close_stream (ev : event) : bool :=
  match ev with CloseStream => true | _ => false end.

Definition is_terminate (ev : event) : bool :=
  match ev with Terminate => true | _ => false end.

(** The events before the loop and in a turn over a frame: no clean-up. *)
Definition no_cleanup (ev : event) : bool :=
  negb (is_close_stream ev || is_terminate ev).

(** The events of the initialisers: no frame is read, nothing is cleaned
    up. *)
Definition init_event (ev : event) : bool :=
  negb (is_read_frame ev || is_close_stream ev || is_terminate ev).

(** ** The object after [stop] *)

(** The object once [stop] has gone through. *)
Definition released (s : service) : service :=
  {| wake_word_model := false; microphone := microphone s; running := false;
     recording := recording s; audio_stream := false; pyaudio_instance := false |}.

(** Every call of the clean-up returns. *)
Definition clean : stop_world := {| sw_close := Returns tt; sw_terminate := Returns tt |}.

(** No microphone: [sr.Microphone] raises. *)
Definition no_microphone : init_world :=
  {| iw_model := Returns None;
     iw_microphone := Throws OtherError (py "No Default Input Device Available");
     iw_adjust := Returns tt; iw_pyaudio := Returns tt; iw_devices := Returns [];
     iw_open := Returns tt |}.

(** ** Where the handler runs

    What the handler raises goes to the [except] clauses around the point
    where the main thread is.  *)

(** aplay fails in a way an [except] clause around it names. *)
Definition aplay_caught (o : outcome completed) : bool :=
  match o with
  | Returns r => negb (returncode r =? 0)
  | Throws k text =>
      is_kind TimeoutExpired (Exc k text) || is_kind CalledProcessError (Exc k text)
      || is_kind FileNotFoundError (Exc k text)
  end.

(** The run of [play_wake_feedback] passes the point. *)
Definition tone_passes (w : feedback_world) (p : point) : bool :=
  match p with
  | InTone => true
  | AfterTempFile => returned (fb_tempfile w)
  | AfterWave | BeforeAplay | BeforeUnlink => tone_written w
  | AfterAplay | AfterPlayed => tone_heard w
  | InClause => tone_written w && aplay_caught (fb_aplay w)
  | AfterUnlink => tone_written w && returned (fb_unlink w)
  | InPass => tone_written w && negb (returned (fb_unlink w))
  | AfterFinally => tone_written w && (played (fb_aplay w) || aplay_caught (fb_aplay w))
  | InToneExcept =>
      negb (tone_written w) || negb (played (fb_aplay w) || aplay_caught (fb_aplay w))
  | _ => false
  end.

(** What a run raises. *)
Definition raised {A} (r : res A) : option exn :=
  match r with Ok _ => None | Raise e => Some e end.

(** What leaves [play_wake_feedback] of an exception raised in it at the
    point: the bare [except] around [os.unlink] holds everything back, the
    [except Exception] of the method every [Exception] raised in its
    [try], and nothing holds back what is raised in that clause. *)
Definition leaves_tone (p : point) (e : exn) : option exn :=
  match p with
  | BeforeUnlink | AfterUnlink => None
  | InToneExcept => Some e
  | _ => if is_Exception e then None else Some e
  end.

(** A frame is read or a handle is released. *)
Definition reads_or_cleans (ev : event) : bool :=
  is_read_frame ev || is_close_stream ev || is_terminate ev.

Inductive region :=
| InsideTry        (* in the [try] of a turn *)
| InsideUnlink     (* in the [try] around [os.unlink] *)
| OutsideTry.      (* in the [except] clause of a turn, or at the test of the [while] *)

(** What leaves the turn of an exception raised in the region. *)
Definition leaves_turn (r : region) (e : exn) : option exn :=
  match r with
  | InsideUnlink => None
  | InsideTry => if is_Exception e then None else Some e
  | OutsideTry => Some e
  end.

(** What the handler raises: the [SystemExit] of [sys.exit(0)] after a
    [stop] that returns, or else what [stop] raised. *)
Definition raised_by_handler (r : res unit) : exn :=
  match r with Ok _ => SystemExit 0 | Raise e => e end.

(** The clean-up the handler of the tick meets. *)
Definition stop_world_of (t : tick) : stop_world :=
  match t with
  | Frame _ => clean
  | Signal _ sw | Interrupted _ _ _ sw | SignalAtTest _ sw => sw
  end.

(** The frames read in the turn of the tick. *)
Definition frames_read (t : tick) : nat :=
  match t with Frame _ | Interrupted _ _ _ _ => 1%nat | _ => 0%nat end.

(** Both calls of the clean-up return. *)
Definition cleaned (sw : stop_world) : bool :=
  returned (sw_close sw) && returned (sw_terminate sw).

(** How [start] is left after a signal in the loop, by where the handler
    ran and whether its clean-up went through. *)
Definition ending (r : region) (cleaned : bool) : res (option bool) :=
  match r, cleaned with
  | InsideUnlink, _ => Ok (Some true)
  | _, true => Raise (SystemExit 0)
  | InsideTry, false => Ok (Some true)
  | OutsideTry, false => Ok (Some false)
  end.

(** The stream cannot be closed. *)
Definition close_fails : stop_world :=
  {| sw_close := Throws OtherError (py "Stream not open"); sw_terminate := Returns tt |}.

(** ** The decision of a turn of the loop *)

Section Decisions.
Context {cfg : Config}.

(** The frame is read, the detector answers, its answer holds the
    configured wake word with a confidence above the threshold, and the
    cooldown has passed. *)
Definition triggers (w : frame_world) (last_run : float) : bool :=
  match fw_read w, fw_predict w with
  | Returns _, Returns predictions =>
      match lookup WAKE_WORD predictions with
      | Some confidence =>
          score_gt confidence DETECTION_THRESHOLD
          && float_gt (float_sub (fw_now w) last_run) WAKE_WORD_COOLDOWN
      | None => false
      end
  | _, _ => false
  end.

(** The read or the detector raises. *)
Definition frame_fails (w : frame_world) : bool :=
  negb (returned (fw_read w)) || negb (returned (fw_predict w)).

(** The frame is read and the detector's answer holds the configured wake
    word with a confidence above the threshold. *)
Definition detects (w : frame_world) : bool :=
  match fw_read w, fw_predict w with
  | Returns _, Returns predictions =>
      match lookup WAKE_WORD predictions with
      | Some confidence => score_gt confidence DETECTION_THRESHOLD
      | None => false
      end
  | _, _ => false
  end.

(** The turn over the frame passes the point. *)
Definition passes (w : frame_world) (last_run : float) (p : point) : bool :=
  match p with
  | AfterRead => returned (fw_read w)
  | AfterPredict => returned (fw_read w) && returned (fw_predict w)
  | AfterDetected | AfterClock => detects w
  | AfterFeedback | AfterSpawn | AfterStamp => triggers w last_run
  | InExcept | AfterErrorLog | InSleep => frame_fails w
  | _ => triggers w last_run && tone_passes (fw_feedback w) p
  end.

(** Where the handler of [Interrupted w p] runs. *)
Definition region_at (w : frame_world) (last_run : float) (p : point) : region :=
  if passes w last_run p then
    match p with
    | BeforeUnlink | AfterUnlink => InsideUnlink
    | InExcept | AfterErrorLog | InSleep => OutsideTry
    | _ => InsideTry
    end
  else OutsideTry.

(** Where the handler of the tick runs. *)
Definition region_of (t : tick) (last_run : float) : region :=
  match t with
  | Frame _ | Signal _ _ => InsideTry
  | Interrupted w p _ _ => region_at w last_run p
  | SignalAtTest _ _ => OutsideTry
  end.

(** [last_run] after the turns over the frames at the head of the ticks. *)
Fixpoint last_run_after (ticks : list tick) (last_run : float) : float :=
  match ticks with
  | Frame w :: ticks' =>
      last_run_after ticks' (if triggers w last_run then fw_stamp w else last_run)
  | _ => last_run
  end.

End Decisions.

(** ** main

    [setup_logging] creates the directory of the log file and opens the
    file before the first log line; its calls leave no event here, only
    their outcome.  [VoiceWakeService()] makes the object of [__init__];
    the handlers it installs are those of the signal ticks of the loop.  With
    the handler of SIGINT replaced, nothing in the program raises
    [KeyboardInterrupt], and no run here does. *)

(** [s * n] on strings. *)
Fixpoint times (s : string) (n : nat) : string :=
  match n with
  | O => EmptyString
  | S n' => (s ++ times s n')%string
  end.

Definition setup_logging (o : outcome unit) : M unit :=
  match o with
  | Returns _ => ret tt
  | Throws k text => raise (Exc k text)
  end.

Definition is_KeyboardInterrupt (e : exn) : bool := false.

Record main_world := {
  mw_logging : outcome unit;     (* log_path.parent.mkdir(...), logging.FileHandler(...) *)
  mw_init : init_world;
  mw_ticks : list tick;
  mw_stop : stop_world;          (* the clean-up of [service.stop()] in the [finally] *)
}.

(** How the process ends: its exit status, or [None] while the ticks ran
    out with the loop still going.  Python exits with status 1 on an
    exception that nothing catches. *)
Definition exit_status (r : res (option unit)) : option Z :=
  match r with
  | Ok None => None
  | Ok (Some _) => Some 0
  | Raise (SystemExit code) => Some code
  | Raise (Exc _ _) => Some 1
  end.

Section Main.
Context {cfg : Config}.

(** The [try] of [main] with its [except] clauses; [None] when [start]
    has not returned. *)
Definition main_try (w : main_world) : M (option unit) :=
  try_except
    (success <- start (mw_init w) (mw_ticks w) ;;
     match success with
     | None => ret None
     | Some true => ret (Some tt)
     | Some false =>
         log ERROR "Service failed to start properly" [] ;;
         raise (SystemExit 1)
     end)
    [ (is_KeyboardInterrupt,
       fun _ => log INFO "Received keyboard interrupt" [] ;; ret (Some tt));
      (is_Exception,
       fun e => log ERROR "Unexpected error: {}" [AExn e] ;; raise (SystemExit 1)) ].

(** [main]; the [finally] runs once the [try] is left, not while the loop
    is still going. *)
Definition main (w : main_world) : M (option unit) :=
  setup_logging (mw_logging w) ;;
  log INFO (times "=" 70) [] ;;
  log INFO "🎙️  Voice Wake Service with TTS for Linux" [] ;;
  log INFO (times "=" 70) [] ;;
  (* Create and start service *)
  put init ;;
  fun s =>
    match main_try w s with
    | (t, s', Ok None) => (t, s', Ok None)
    | _ => finally (main_try w) (stop (mw_stop w)) s
    end.

End Main.

(** The lines [main] logs before it makes the service. *)
Definition banner : list event :=
  [Log INFO (times "=" 70) [];
   Log INFO "🎙️  Voice Wake Service with TTS for Linux" [];
   Log INFO (times "=" 70) []].

(** * test_setup.py

    The script that tests the installation.  It prints its findings; what
    it asks of the system (the version of Python, [find_spec], the runs of
    [which], [arecord] and [aplay], the request to google.com) comes from
    a world of its own, as does [str.lower]. *)

Module TestSetup.

Inductive output :=
| Print (fmt : string) (args : list arg)     (* print(f"...") *)
| FindSpec (module_name : pystr)              (* importlib.util.find_spec(module_name) *)
| RunCommand (argv : list pystr)              (* subprocess.run(argv, capture_output=True, text=True) *)
| UrlOpen (url : pystr) (timeout : Z).        (* urllib.request.urlopen(url, timeout=...) *)

Record world := {
  version_info : Z * Z * Z;                   (* sys.version_info: major, minor, micro *)
  find_spec : pystr -> outcome bool;          (* the spec found is not None *)
  which : pystr -> outcome completed;         (* the run of which on a command *)
  arecord : outcome completed;                (* the run of arecord -l *)
  aplay : outcome completed;                  (* the run of aplay -l *)
  urlopen : outcome unit;
  lower : pystr -> pystr;                     (* str.lower *)
}.

(** A function of the script: what it prints and asks, and the value
    returned or the exception raised. *)
Definition T (A : Type) : Type := list output * res A.

Definition T_ret {A} (a : A) : T A := ([], Ok a).

Definition T_bind {A B} (c : T A) (f : A -> T B) : T B :=
  match c with
  | (t1, Ok a) => let '(t2, r) := f a in (t1 ++ t2, r)
  | (t1, Raise e) => (t1, Raise e)
  end.

#[global] Instance Monad_T : Monad T := {| ret := @T_ret; bind := @T_bind |}.

Definition print (fmt : string) (args : list arg) : T unit := ([Print fmt args], Ok tt).

Definition ask {A} (o : output) (a : outcome A) : T A :=
  ([o], match a with
        | Returns x => Ok x
        | Throws k text => Raise (Exc k text)
        end).

(** [try: c  except Exception as e: h e] *)
Definition try_except {A} (c : T A) (h : exn -> T A) : T A :=
  match c with
  | (t1, Ok a) => (t1, Ok a)
  | (t1, Raise e) =>
      if is_Exception e then let '(t2, r) := h e in (t1 ++ t2, r) else (t1, Raise e)
  end.

Definition nl : string := String (ascii_of_nat 10) EmptyString.

(** [s.split('\n')] *)
Fixpoint split_lines (s : pystr) : list pystr :=
  match s with
  | [] => [[]]
  | c :: rest =>
      if N.eqb c 10 then [] :: split_lines rest
      else match split_lines rest with
           | line :: lines => (c :: line) :: lines
           | [] => [[c]]
           end
  end.

Definition test_python_version (w : world) : T bool :=
  print "Testing Python version..." [] ;;
  let '(major, minor, micro) := version_info w in
  if (major =? 3) && (minor >=? 8) then
    print "✅ Python {}.{}.{} is compatible" [AInt major; AInt minor; AInt micro] ;;
    ret true
  else
    print "❌ Python {}.{}.{} is not compatible (requires Python 3.8+)"
      [AInt major; AInt minor; AInt micro] ;;
    ret false.

Definition test_python_module (w : world) (module_name : pystr) : T bool :=
  try_except
    (spec <- ask (FindSpec module_name) (find_spec w module_name) ;;
     if spec : bool then
       print "✅ {} is available" [AStr module_name] ;; ret true
     else
       print "❌ {} is not installed" [AStr module_name] ;; ret false)
    (fun e => print "❌ Error checking {}: {}" [AStr module_name; AExn e] ;; ret false).

Definition test_system_command (w : world) (command : pystr) : T bool :=
  try_except
    (result <- ask (RunCommand [py "which"; command]) (which w command) ;;
     if returncode result =? 0 then
       print "✅ {} is available at {}" [AStr command; AStr (strip (stdout result))] ;;
       ret true
     else
       print "❌ {} is not found in PATH" [AStr command] ;; ret false)
    (fun e => print "❌ Error checking {}: {}" [AStr command; AExn e] ;; ret false).

(** [for line in result.stdout.split('\n'): if 'card' in line.lower(): print(...)] *)
Fixpoint print_cards (w : world) (lines : list pystr) : T unit :=
  match lines with
  | [] => ret tt
  | line :: rest =>
      (if contains (py "card") (lower w line)
       then print "   {}" [AStr (strip line)]
       else ret tt) ;;
      print_cards w rest
  end.

(** One of the two [try] blocks of [test_audio_devices]: [Some false] when
    it returns [False], [None] when the function goes on. *)
Definition list_devices (w : world) (command : pystr) (o : outcome completed)
    (found missing failed error : string) : T (option bool) :=
  try_except
    (result <- ask (RunCommand [command; py "-l"]) o ;;
     if returncode result =? 0 then
       if contains (py "card") (lower w (stdout result)) then
         print found [] ;;
         print_cards w (split_lines (stdout result)) ;;
         ret None
       else
         print missing [] ;; ret (Some false)
     else
       print failed [] ;; ret (Some false))
    (fun e => print error [AExn e] ;; ret (Some false)).

Definition test_audio_devices (w : world) : T bool :=
  print (nl ++ "Testing audio devices...")%string [] ;;
  (* Test microphones *)
  early <- list_devices w (py "arecord") (arecord w)
                "✅ Microphone devices found:" "⚠️  No microphone devices found"
                "❌ Could not list microphone devices" "❌ Error testing microphones: {}" ;;
  match early with
  | Some value => ret value
  | None =>
      (* Test speakers *)
      early <- list_devices w (py "aplay") (aplay w)
                    "✅ Speaker devices found:" "⚠️  No speaker devices found"
                    "❌ Could not list speaker devices" "❌ Error testing speakers: {}" ;;
      match early with
      | Some value => ret value
      | None => ret true
      end
  end.

Definition test_internet_connection (w : world) : T bool :=
  print (nl ++ "Testing internet connection...")%string [] ;;
  try_except
    (ask (UrlOpen (py "https://www.google.com") 5) (urlopen w) ;;
     print "✅ Internet connection is available" [] ;;
     ret true)
    (fun e =>
       print "❌ Internet connection test failed: {}" [AExn e] ;;
       print "   Note: Internet is required for speech recognition" [] ;;
       ret false).

Definition required_modules : list pystr :=
  [py "numpy"; py "pyaudio"; py "speech_recognition"; py "openwakeword"].

Definition required_commands : list pystr := [py "aplay"; py "arecord"; py "espeak"].

Definition optional_commands : list pystr := [py "ffplay"; py "paplay"].

(** [total_tests += 1; if test: tests_passed += 1] on the two counters. *)
Definition counted (test : T bool) (counters : Z * Z) : T (Z * Z) :=
  let '(tests_passed, total_tests) := counters in
  let total_tests := total_tests + 1 in
  ok <- test ;;
  ret (if ok : bool then tests_passed + 1 else tests_passed, total_tests).

(** [for x in l: body] with the variables the body assigns. *)
Fixpoint for_each {A S : Type} (l : list A) (body : A -> S -> T S) (vars : S) : T S :=
  match l with
  | [] => ret vars
  | x :: rest => vars' <- body x vars ;; for_each rest body vars'
  end.

Definition main (w : world) : T bool :=
  print (times "=" 60) [] ;;
  print "Voice Wake Linux - Setup Test" [] ;;
  print (times "=" 60) [] ;;
  let counters := (0, 0) in
  (* Test Python version *)
  counters <- counted (test_python_version w) counters ;;
  print (nl ++ "Testing Python modules...")%string [] ;;
  counters <- for_each required_modules
                (fun module => counted (test_python_module w module)) counters ;;
  print (nl ++ "Testing system commands...")%string [] ;;
  counters <- for_each required_commands
                (fun command => counted (test_system_command w command)) counters ;;
  print (nl ++ "Testing optional commands...")%string [] ;;
  for_each optional_commands
    (fun command (_ : unit) =>
       ok <- test_system_command w command ;;
       if ok : bool then
         print "✅ {} is available (good for enhanced functionality)" [AStr command]
       else
         print "ℹ️  {} not found (optional, can enhance functionality)" [AStr command])
    tt ;;
  (* Test audio devices *)
  counters <- counted (test_audio_devices w) counters ;;
  (* Test internet connection *)
  counters <- counted (test_internet_connection w) counters ;;
  let '(tests_passed, total_tests) := counters in
  print (nl ++ times "=" 60)%string [] ;;
  print "Test Results" [] ;;
  print (times "=" 60) [] ;;
  print "Passed: {}/{} tests" [AInt tests_passed; AInt total_tests] ;;
  if tests_passed =? total_tests then
    print "🎉 All tests passed! Your system is ready for Voice Wake Linux." [] ;;
    print (nl ++ "Next steps:")%string [] ;;
    print "1. Edit config.py to customize settings" [] ;;
    print "2. Run: ./scripts/voice_wake.py" [] ;;
    print "3. Say 'Hey Jarvis' to test wake word detection" [] ;;
    ret true
  else
    print "⚠️  Some tests failed. Please install missing dependencies." [] ;;
    print (nl ++ "To install missing dependencies:")%string [] ;;
    print "- Run the install script: ./install.sh" [] ;;
    print "- Or install manually using your package manager" [] ;;
    print "- Check the README.md for detailed instructions" [] ;;
    ret false.

(** [success = main(); sys.exit(0 if success else 1)] *)
Definition script (w : world) : T unit :=
  success <- main w ;;
  ([], Raise (SystemExit (if success : bool then 0 else 1))).

(** ** The tests, read off the answers of the world *)

Definition python_ok (w : world) : bool :=
  let '(major, minor, _) := version_info w in (major =? 3) && (minor >=? 8).

Definition module_ok (w : world) (module_name : pystr) : bool :=
  match find_spec w module_name with
  | Returns found => found
  | Throws _ _ => false
  end.

Definition command_ok (w : world) (command : pystr) : bool :=
  played (which w command).

Definition devices_listed (w : world) (o : outcome completed) : bool :=
  match o with
  | Returns result =>
      (returncode result =? 0) && contains (py "card") (lower w (stdout result))
  | Throws _ _ => false
  end.

Definition audio_ok (w : world) : bool :=
  devices_listed w (arecord w) && devices_listed w (aplay w).

Definition internet_ok (w : world) : bool := returned (urlopen w).

(** The required tests that pass, of ten. *)
Definition passing (w : world) : Z :=
  let one (b : bool) : Z := if b then 1 else 0 in
  one (python_ok w)
  + fold_right (fun m n => one (module_ok w m) + n) 0 required_modules
  + fold_right (fun c n => one (command_ok w c) + n) 0 required_commands
  + one (audio_ok w) + one (internet_ok w).

(** The commands run, in order. *)
Fixpoint commands_run (t : list output) : list (list pystr) :=
  match t with
  | [] => []
  | RunCommand argv :: t' => argv :: commands_run t'
  | _ :: t' => commands_run t'
  end.

Definition tally (o : output) : option (Z * Z) :=
  match o with
  | Print fmt [AInt tests_passed; AInt total_tests] =>
      if String.eqb fmt "Passed: {}/{} tests" then Some (tests_passed, total_tests) else None
  | _ => None
  end.

(** The tallies printed, in order. *)
Fixpoint tallies (t : list output) : list (Z * Z) :=
  match t with
  | [] => []
  | o :: t' =>
      match tally o with
      | Some c => c :: tallies t'
      | None => tallies t'
      end
  end.

End TestSetup.

(** * Reasoning about runs *)

Section Runs.
Context {A B : Type}.
Variable P : event -> bool.

Lemma bind_run (c : M A) (f : A -> M B) s :
  (x <- c ;; f x) s =
  match c s with
  | (t1, s1, Ok a) => let '(t2, s2, r) := f a s1 in (t1 ++ t2, s2, r)
  | (t1, s1, Raise e) => (t1, s1, Raise e)
  end.
Proof. reflexivity. Qed.

Lemma tame_ret (a : A) : tame P (ret a).
Proof. intros s. cbn. auto. Qed.

Lemma tame_bind (c : M A) (f : A -> M B) :
  tame P c -> (forall a, tame P (f a)) -> tame P (x <- c ;; f x).
Proof.
  intros Hc Hf s. specialize (Hc s). rewrite bind_run.
  destruct (c s) as [[t1 s1] [a|e]]; cbn in *.
  - destruct Hc as (Ht & Hs & _). subst s1.
    specialize (Hf a s). destruct (f a s) as [[t2 s2] r]. cbn in *.
    rewrite forallb_app, Ht. exact Hf.
  - exact Hc.
Qed.

Lemma tame_call (ev : event) (o : outcome A) : P ev = true -> tame P (call ev o).
Proof. intros H s. destruct o; cbn; rewrite H; auto. Qed.

Lemma tame_raise k text : tame P (raise (A := A) (Exc k text)).
Proof. intros s. cbn. auto. Qed.

Lemma tame_try_except (c : M A) (cs : list (clause A)) :
  tame P c ->
  (forall e, match first_clause cs e with Some h => tame P h | None => True end) ->
  tame P (try_except c cs).
Proof.
  intros Hc Hh s. specialize (Hc s). unfold try_except.
  destruct (c s) as [[t1 s1] [a|e]]; cbn in *; [exact Hc|].
  specialize (Hh e). destruct (first_clause cs e) as [h|]; [|exact Hc].
  destruct Hc as (Ht & Hs & _). subst s1.
  specialize (Hh s). destruct (h s) as [[t2 s2] r]. cbn in *.
  rewrite forallb_app, Ht. exact Hh.
Qed.

Lemma tame_finally (c : M A) (f : M unit) :
  tame P c -> tame P f -> tame P (finally c f).
Proof.
  intros Hc Hf s. specialize (Hc s). unfold finally.
  destruct (c s) as [[t1 s1] r1]; cbn in *.
  destruct Hc as (Ht & Hs & Hr). subst s1.
  specialize (Hf s). destruct (f s) as [[t2 s2] [[]|e]]; cbn in *;
    rewrite forallb_app, Ht; tauto.
Qed.

Lemma returns_ret (a : A) : returns (ret a).
Proof. intros s. reflexivity. Qed.

Lemma returns_bind (c : M A) (f : A -> M B) :
  returns c -> (forall a, returns (f a)) -> returns (x <- c ;; f x).
Proof.
  intros Hc Hf s. specialize (Hc s). rewrite bind_run.
  destruct (c s) as [[t1 s1] [a|e]]; cbn in *; [|discriminate].
  specialize (Hf a s1). destruct (f a s1) as [[t2 s2] r]. exact Hf.
Qed.

(** A [try] whose last clause is [except Exception] returns when its body
    raises only [Exception]s and the clauses return. *)
Lemma returns_try_except (c : M A) (cs : list (clause A)) :
  (forall s, ok_or_exception (result_of (c s)) = true) ->
  (forall e, is_Exception e = true ->
             match first_clause cs e with Some h => returns h | None => False end) ->
  returns (try_except c cs).
Proof.
  intros Hc Hh s. specialize (Hc s). unfold try_except.
  destruct (c s) as [[t1 s1] [a|e]]; cbn in *; [reflexivity|].
  specialize (Hh e Hc). destruct (first_clause cs e) as [h|]; [|contradiction].
  specialize (Hh s1). destruct (h s1) as [[t2 s2] r]. exact Hh.
Qed.

Lemma returns_finally (c : M A) (f : M unit) :
  returns c -> returns f -> returns (finally c f).
Proof.
  intros Hc Hf s. specialize (Hc s). unfold finally.
  destruct (c s) as [[t1 s1] r1]; cbn in *.
  specialize (Hf s1). destruct (f s1) as [[t2 s2] [[]|e]]; cbn in *;
    [assumption|discriminate].
Qed.

End Runs.

Lemma tame_log P lvl fmt args : P (Log lvl fmt args) = true -> tame P (log lvl fmt args).
Proof. intros H s. cbn. rewrite H. auto. Qed.

Lemma tame_emit P ev : P ev = true -> tame P (emit ev).
Proof. intros H s. cbn. rewrite H. auto. Qed.

Lemma tame_get P : tame P get.
Proof. intros s. cbn. auto. Qed.

Lemma returns_log lvl fmt args : returns (log lvl fmt args).
Proof. intros s. reflexivity. Qed.

Lemma returns_emit ev : returns (emit ev).
Proof. intros s. reflexivity. Qed.

Lemma returns_get : returns get.
Proof. intros s. reflexivity. Qed.

Lemma returns_assign f : returns (assign f).
Proof. intros s. reflexivity. Qed.

Lemma returns_call_Returns {A} ev (a : A) : returns (call ev (Returns a)).
Proof. intros s. reflexivity. Qed.

Lemma tame_weaken {A} (P Q : event -> bool) (c : M A) :
  (forall ev, P ev = true -> Q ev = true) -> tame P c -> tame Q c.
Proof.
  intros HPQ Hc s. destruct (Hc s) as (Ht & Hs & Hr). repeat split; auto.
  rewrite forallb_forall in *. auto.
Qed.

(** Case analysis on the tests a method body makes, after the rules of
    the combinators. *)
Ltac split_tests :=
  match goal with
  | |- context [match ?x with _ => _ end] =>
      lazymatch x with
      | context [match _ with _ => _ end] => fail
      | _ => destruct x eqn:?
      end
  end.

Ltac tame_step :=
  first
    [ apply tame_ret | apply tame_raise | apply tame_get
    | apply tame_log; reflexivity | apply tame_emit; reflexivity
    | apply tame_call; reflexivity
    | apply tame_bind; [|intros]
    | apply tame_finally
    | apply tame_try_except; [|intros [[] ?|?]; cbn]
    | exact I
    | assumption ].

Ltac returns_step :=
  first
    [ apply returns_ret | apply returns_log | apply returns_emit
    | apply returns_get | apply returns_assign | apply returns_call_Returns
    | apply returns_bind; [|intros]
    | apply returns_finally
    | exact I
    | assumption ].

(** ** Counting in a trace *)

Lemma count_app p t1 t2 : count p (t1 ++ t2) = (count p t1 + count p t2)%nat.
Proof. unfold count. now rewrite filter_app, length_app. Qed.

Lemma count_zero_not_in p t ev : count p t = 0%nat -> In ev t -> p ev = false.
Proof.
  unfold count. induction t as [|x t IH]; cbn; [tauto|].
  destruct (p x) eqn:E; cbn; [discriminate|].
  intros H [->|Hin]; auto.
Qed.

Lemma count_zero_split p t pre ev post :
  count p t = 0%nat -> t = pre ++ ev :: post -> p ev = false.
Proof.
  intros H ->. eapply count_zero_not_in; [exact H|apply in_elt].
Qed.

Lemma count_zero_forallb p t : forallb (fun ev => negb (p ev)) t = true -> count p t = 0%nat.
Proof.
  unfold count. induction t as [|x t IH]; cbn; [reflexivity|].
  destruct (p x); cbn; [discriminate|exact IH].
Qed.

Lemma dispatches_app t1 t2 : dispatches (t1 ++ t2) = dispatches t1 ++ dispatches t2.
Proof.
  induction t1 as [|ev t1 IH]; cbn; [reflexivity|].
  destruct (dispatch_message ev); cbn; now rewrite IH.
Qed.

Lemma dispatches_helper t : forallb helper_event t = true -> dispatches t = [].
Proof.
  induction t as [|ev t IH]; cbn; [reflexivity|].
  intros H. apply andb_prop in H as [Hev Ht]. rewrite (IH Ht).
  destruct (dispatch_message ev) eqn:E; [exfalso|reflexivity].
  destruct ev; try discriminate E.
  cbv beta iota delta [helper_event] in Hev. rewrite E in Hev. discriminate.
Qed.

(** * play_wake_feedback *)

(** The runs of [play_wake_feedback], by what the world answers: either no
    player was run, or the tone file was written, the player run on it and
    the file unlinked. *)
Lemma play_wake_feedback_runs w s :
  exists t, play_wake_feedback w s = (t, s, Ok tt)
  /\ (count is_run t = 0%nat
      \/ exists f mid tail,
           t = [TempFile (py ".wav"); WriteWav f; Run [py "aplay"; py "-q"; f] 2]
                 ++ mid ++ Unlink f :: tail
           /\ count is_run mid = 0%nat /\ count is_run tail = 0%nat).
Proof.
  destruct w as [[n|k t] [[]|k2 t2] [[rc out err]|k3 t3] [[]|k4 t4]];
    try destruct k3; cbv -[Z.eqb]; try destruct (rc =? 0).
  all: try (eexists; split; [reflexivity|left; reflexivity]).
  all: eexists; (split; [reflexivity|]); right.
  all: first [ exists n, [], []; repeat split; reflexivity
             | eexists n, [_], []; repeat split; reflexivity
             | eexists n, [], [_]; repeat split; reflexivity ].
Qed.

Lemma play_wake_feedback_returns w : returns (play_wake_feedback w).
Proof.
  intros s. destruct (play_wake_feedback_runs w s) as (t & -> & _). reflexivity.
Qed.

Lemma play_wake_feedback_tame w : tame helper_event (play_wake_feedback w).
Proof.
  unfold play_wake_feedback, subprocess_run.
  repeat (tame_step || split_tests).
Qed.

(** The runs of [play_wake_feedback]: it returns, the object is as it
    was, one temporary file is asked for, and with the tone in its file
    the events are those of [tone_events]. *)
Lemma feedback_tone_runs (w : feedback_world) (s : service) :
  result_of (play_wake_feedback w s) = Ok tt
  /\ service_of (play_wake_feedback w s) = s
  /\ (forall f,
        fb_tempfile w = Returns f -> fb_wave w = Returns tt ->
        trace_of (play_wake_feedback w s) = tone_events f (fb_aplay w))
  /\ count is_tempfile (trace_of (play_wake_feedback w s)) = 1%nat.
Proof.
  destruct w as [[n|k t] [[]|k2 t2] [[rc out err]|k3 t3] [[]|k4 t4]]; try destruct k3.
  all: unfold tone_events, aplay_logged, aplay_escaped.
  all: cbv -[Z.eqb]; try destruct (rc =? 0).
  all: split; [reflexivity|]; split; [reflexivity|]; split; [|reflexivity].
  all: intros f Hf Hw; first [discriminate | injection Hf as <-; reflexivity].
Qed.

(** C8.  Once the tone is in its file, aplay is run on the file and the
    file is unlinked after that run, whatever the run did: a time-out, an
    exit status other than 0, no binary, or any other exception, each
    with its one line of the log before or after the unlink.  The unlink
    is the last call: what [os.unlink] itself raises is dropped, and in
    every world [play_wake_feedback] returns and leaves the object alone.
    Without the tone in its file there is no attempt to play and nothing
    to unlink after one. *)
Theorem feedback_tone_file_always_unlinked (w : feedback_world) (s : service) :
  let run := play_wake_feedback w s in
  result_of run = Ok tt
  /\ service_of run = s
  /\ (forall f,
        fb_tempfile w = Returns f -> fb_wave w = Returns tt ->
        trace_of run = tone_events f (fb_aplay w))
  /\ (tone_written w = false ->
      count is_run (trace_of run) = 0%nat /\ count is_unlink (trace_of run) = 0%nat).
Proof.
  destruct w as [[n|k t] [[]|k2 t2] [[rc out err]|k3 t3] [[]|k4 t4]]; try destruct k3.
  all: unfold tone_events, aplay_logged, aplay_escaped, tone_written, returned.
  all: cbv -[Z.eqb]; try destruct (rc =? 0).
  all: split; [reflexivity|]; split; [reflexivity|]; split.
  all: first [ intros f Hf Hw; first [discriminate | injection Hf as <-; reflexivity]
             | intros H; first [discriminate | split; reflexivity] ].
Qed.

(** * The methods are tame, and those that end in [except Exception] return *)

Create HintDb tame.

Lemma returns_try_except_tame {A} P (c : M A) (cs : list (clause A)) :
  tame P c ->
  (forall e, is_Exception e = true ->
             match first_clause cs e with Some h => returns h | None => False end) ->
  returns (try_except c cs).
Proof.
  intros Hc Hh. apply returns_try_except; [|exact Hh].
  intros s. apply (Hc s).
Qed.

Lemma tame_any {A} P (c : M A) : tame P c -> tame any_event c.
Proof. apply tame_weaken. reflexivity. Qed.

Section JsonOperations.
Variable P : event -> bool.

Lemma py_in_tame key v : tame P (py_in key v).
Proof. unfold py_in, type_error. repeat (tame_step || split_tests). Qed.

Lemma py_getitem_tame key v : tame P (py_getitem key v).
Proof. unfold py_getitem, type_error. repeat (tame_step || split_tests). Qed.

Lemma py_len_tame v : tame P (py_len v).
Proof. unfold py_len, type_error. repeat (tame_step || split_tests). Qed.

Lemma py_getitem_0_tame v : tame P (py_getitem_0 v).
Proof. unfold py_getitem_0, type_error. repeat (tame_step || split_tests). Qed.

Lemma py_get_tame key d v : tame P (py_get key d v).
Proof. unfold py_get. repeat (tame_step || split_tests). Qed.

End JsonOperations.

#[local] Hint Resolve py_in_tame py_getitem_tame py_len_tame py_getitem_0_tame
  py_get_tame : tame.

(** The clauses of a [try]: one goal for each class of [Exception]. *)
Ltac each_exception :=
  let k := fresh "k" in
  let text := fresh "text" in
  intros [k text|?] ?; [destruct k; cbn|discriminate].

Section MethodsAreTame.
Context {cfg : Config}.

Lemma send_to_openclaw_tame w text : tame any_event (send_to_openclaw w text).
Proof.
  unfold send_to_openclaw, subprocess_run.
  repeat (tame_step || solve [auto with tame] || split_tests).
Qed.

Lemma send_to_openclaw_returns w text : returns (send_to_openclaw w text).
Proof.
  unfold send_to_openclaw, subprocess_run.
  apply returns_try_except_tame with (P := any_event).
  - repeat (tame_step || solve [auto with tame] || split_tests).
  - each_exception; repeat returns_step.
Qed.

Lemma text_to_speech_tame w text : tame helper_event (text_to_speech w text).
Proof.
  unfold text_to_speech, subprocess_run.
  repeat (tame_step || split_tests).
Qed.

Lemma play_audio_tame o p : tame helper_event (play_audio o p).
Proof.
  unfold play_audio, subprocess_run.
  repeat (tame_step || split_tests).
Qed.

Lemma play_mp3_tame o p : tame helper_event (play_mp3 o p).
Proof.
  unfold play_mp3, subprocess_run.
  repeat (tame_step || split_tests).
Qed.

Lemma speak_response_tame w reply : tame helper_event (speak_response w reply).
Proof.
  unfold speak_response.
  repeat (apply text_to_speech_tame || apply play_audio_tame
          || apply play_mp3_tame || tame_step || split_tests).
Qed.

Lemma speak_response_returns w reply : returns (speak_response w reply).
Proof.
  unfold speak_response. destruct (negb ENABLE_TTS); [apply returns_log|].
  apply returns_try_except_tame with (P := helper_event).
  - repeat (apply text_to_speech_tame || apply play_audio_tame
            || apply play_mp3_tame || tame_step || split_tests).
  - each_exception; repeat returns_step.
Qed.

(** The body of a cycle, the [try] with its [except Exception]. *)
Lemma record_and_transcribe_try_tame w : tame any_event (record_and_transcribe_try w).
Proof.
  unfold record_and_transcribe_try.
  repeat (apply (tame_any (play_wake_feedback_tame _))
          || apply send_to_openclaw_tame
          || apply (tame_any (speak_response_tame _ _))
          || tame_step || split_tests).
Qed.

Lemma record_and_transcribe_try_returns w : returns (record_and_transcribe_try w).
Proof.
  unfold record_and_transcribe_try.
  apply returns_try_except_tame with (P := any_event).
  - repeat (apply (tame_any (play_wake_feedback_tame _))
            || apply send_to_openclaw_tame
            || apply (tame_any (speak_response_tame _ _))
            || tame_step || split_tests).
  - each_exception; repeat returns_step.
Qed.

End MethodsAreTame.

(** ** Traces of sequences *)

Lemma count_cons p ev t : count p (ev :: t) = ((if p ev then 1 else 0) + count p t)%nat.
Proof. unfold count. cbn. destruct (p ev); reflexivity. Qed.

Lemma tame_count {A} P p (c : M A) s :
  tame P c -> (forall ev, P ev = true -> p ev = false) ->
  count p (trace_of (c s)) = 0%nat.
Proof.
  intros Hc Hp. destruct (Hc s) as (Ht & _). apply count_zero_forallb.
  rewrite forallb_forall in *. intros ev Hin. rewrite (Hp ev); auto.
Qed.

(** A [try] whose body starts with a computation that returns. *)
Lemma try_except_bind_ok {A B} (c : M A) (f : A -> M B) cs s t1 s1 a :
  c s = (t1, s1, Ok a) ->
  trace_of (try_except (x <- c ;; f x) cs s) = t1 ++ trace_of (try_except (f a) cs s1).
Proof.
  intros E. unfold try_except. rewrite bind_run, E.
  destruct (f a s1) as [[t2 s2] [b|e]]; cbn; [reflexivity|].
  destruct (first_clause cs e) as [h|]; [|reflexivity].
  destruct (h s2) as [[t3 s3] r]. cbn. now rewrite app_assoc.
Qed.

(** * record_and_transcribe: the guard, the cycle and its [finally] *)

Section Cycle.
Context {cfg : Config}.

Lemma record_and_transcribe_try_run w s :
  exists t, record_and_transcribe_try w s = (t, s, Ok tt).
Proof.
  pose proof (record_and_transcribe_try_tame w s) as (_ & Hs & _).
  pose proof (record_and_transcribe_try_returns w s) as Hr.
  destruct (record_and_transcribe_try w s) as [[t s1] [[]|e]]; cbn in *;
    [subst; eauto|discriminate].
Qed.

Lemma recording_cycle_run w s :
  recording_cycle w s =
  (trace_of (record_and_transcribe_try w s) ++ [Log INFO "Ready for next wake word..." []],
   with_recording false s, Ok tt).
Proof.
  unfold recording_cycle, finally.
  destruct (record_and_transcribe_try_run w s) as (t & ->). reflexivity.
Qed.

Lemma record_and_transcribe_run w s :
  record_and_transcribe w s =
  if recording s then ([], s, Ok tt)
  else (Log INFO "🎙️  Wake word detected! Recording for 10 seconds..." []
          :: trace_of (record_and_transcribe_try w (with_recording true s))
          ++ [Log INFO "Ready for next wake word..." []],
        with_recording false s, Ok tt).
Proof.
  unfold record_and_transcribe. rewrite bind_run. cbn [get].
  destruct (recording s) eqn:E; [reflexivity|].
  rewrite bind_run. cbn. rewrite recording_cycle_run. reflexivity.
Qed.

(** The three steps of a worker make one call of [record_and_transcribe]. *)
Lemma advance_thrice w s :
  let '(wk1, s1) := advance (Started w) s in
  let '(wk2, s2) := advance wk1 s1 in
  let '(wk3, s3) := advance wk2 s2 in
  s3 = service_of (record_and_transcribe w s) /\ wk3 = Finished.
Proof.
  rewrite record_and_transcribe_run. cbn. destruct (recording s); cbn; [auto|].
  rewrite recording_cycle_run. auto.
Qed.

Lemma filter_cycling_replace i wk wk' l :
  nth_error l i = Some wk ->
  (List.length (filter cycling (replace_nth i wk' l)) + (if cycling wk then 1 else 0)
   = List.length (filter cycling l) + (if cycling wk' then 1 else 0))%nat.
Proof.
  revert i. induction l as [|x l IH]; intros [|i] H; cbn in *; try discriminate.
  - injection H as ->. destruct (cycling wk), (cycling wk'); cbn; lia.
  - specialize (IH i H). destruct (cycling x); cbn; lia.
Qed.


(** C7.  When the recogniser raises, the cycle ends right there with one
    log line and the line of the [finally]: at info level for
    [UnknownValueError] (no speech understood), at error level for
    [RequestError] (the recognition service), the two classes the inner
    [try] names; any other exception reaches the outer [except Exception]
    and is logged as an error.  In every world [record_and_transcribe]
    returns: nothing is raised out of the cycle, and the [running] flag of
    the poll loop is as it was. *)
Theorem transcription_failures_end_the_cycle
    (fb : feedback_world) (d : dispatch_world) (sp : speak_world)
    (k : exn_kind) (text : pystr) (w : cycle_world) (s : service) :
  trace_of (record_and_transcribe (hears fb (Throws k text) d sp) (with_recording false s))
  = Log INFO "🎙️  Wake word detected! Recording for 10 seconds..." []
    :: up_to_recognize fb (with_recording true s)
    ++ [match k with
        | UnknownValueError => Log INFO "Could not understand audio" []
        | RequestError => Log ERROR "Speech recognition error: {}" [AExn (Exc k text)]
        | _ => Log ERROR "Error during recording/transcription: {}" [AExn (Exc k text)]
        end;
        Log INFO "Ready for next wake word..." []]
  /\ result_of (record_and_transcribe w s) = Ok tt
  /\ running (service_of (record_and_transcribe w s)) = running s.
Proof.
  split.
  { rewrite record_and_transcribe_run.
    change (recording (with_recording false s)) with false. cbv iota.
    change (with_recording true (with_recording false s)) with (with_recording true s).
    cbn [trace_of fst]. f_equal. generalize (with_recording true s). intros s'.
    unfold record_and_transcribe_try, hears, up_to_recognize.
    cbv -[play_wake_feedback send_to_openclaw speak_response strip app].
    destruct (play_wake_feedback_runs fb s') as (t & -> & _).
    destruct k; cbv -[app]; repeat (rewrite <- app_assoc; cbn [app]); reflexivity. }
  split; rewrite record_and_transcribe_run; destruct (recording s); reflexivity.
Qed.

End Cycle.

(** * The response renderer *)

Ltac each_kind :=
  repeat match goal with
    | |- context [match ?x with TimeoutExpired => _ | _ => _ end] =>
        is_var x; destruct x
    end.

Section Renderer.
Context {cfg : Config}.

(** C3.  With TTS enabled, a reply that starts with the marker [MEDIA:]
    leads to one run at most, that of the MP3 player on the file named
    after the marker, and to that one only when the file exists: no
    synthesiser is run, no temporary file made, no audio player started,
    whether the file is missing or the player fails.  When the file is
    missing the trace is the line that announces the reply, the test of
    the file and the warning; nothing is raised. *)
Theorem media_reference_is_never_synthesized
    (w : speak_world) (text : pystr) (s : service) :
  ENABLE_TTS = true ->
  startswith (py "MEDIA:") text = true ->
  let mp3_path := strip (skipn 6 text) in
  let t := trace_of (speak_response w (JStr text) s) in
  result_of (speak_response w (JStr text) s) = Ok tt
  /\ filter is_run t
     = (if sp_mp3_exists w
        then [Run [MP3_PLAYER; py "-nodisp"; py "-autoexit"; mp3_path] 120]
        else [])
  /\ count is_tempfile t = 0%nat
  /\ (sp_mp3_exists w = false ->
      t = [Log INFO "🎵 Detected MP3 response: {}" [AStr mp3_path];
           Exists mp3_path;
           Log WARNING "MP3 file not found: {}" [AStr mp3_path]]).
Proof.
  intros Htts Hpre. unfold speak_response. rewrite Htts, Hpre.
  destruct w as [found [[rc out err]|k ktext] tts afound play unl].
  all: try destruct k.
  all: destruct found.
  all: cbv -[strip skipn Z.eqb MP3_PLAYER]; try destruct (rc =? 0).
  all: repeat split; try reflexivity; try discriminate.
Qed.

Lemma play_audio_tame_no_synthesis o p : tame no_synthesis (play_audio o p).
Proof.
  unfold play_audio, subprocess_run.
  repeat (tame_step || split_tests).
Qed.

(** The runs of [text_to_speech]: the primary run comes first and once;
    the temporary file and espeak follow only when it yields no media
    reference. *)
Lemma text_to_speech_runs (w : tts_world) (text : pystr) (s : service) :
  exists t r,
    text_to_speech w text s
    = (Run [OPENCLAW_CLI; py "tts"; py "--text"; text] 30 :: t, s, Ok r)
    /\ count is_primary_synthesis t = 0%nat
    /\ count is_tempfile t
       = (if primary_yields_media (tts_openclaw w) then 0 else 1)%nat
    /\ count is_fallback_synthesis t
       = (if primary_yields_media (tts_openclaw w) then 0
          else match tts_tempfile w with Returns _ => 1 | Throws _ _ => 0 end)%nat.
Proof.
  destruct w as [[[rc out err]|k ktext] [f|k' ktext'] [[rc' out' err']|k'' ktext'']].
  all: unfold text_to_speech, subprocess_run, primary_yields_media, contains, split_1.
  all: cbv -[Z.eqb strip after_first before_first OPENCLAW_CLI].
  all: try destruct (rc =? 0).
  all: try destruct (after_first _ out).
  all: try destruct (rc' =? 0).
  all: each_kind.
  all: do 2 eexists; (split; [reflexivity|]); repeat split; reflexivity.
Qed.

(** C4.  With TTS enabled, a reply that does not start with the marker is
    synthesised through the agent's [tts] sub-command first and once; the
    fallback (the temporary file, then espeak on it) is entered exactly
    when that run does not yield a media reference, because the command
    is missing, raises, exits non-zero or prints no marker. *)
Theorem plain_text_is_synthesized_once
    (w : speak_world) (text : pystr) (s : service) :
  ENABLE_TTS = true ->
  startswith (py "MEDIA:") text = false ->
  let t := trace_of (speak_response w (JStr text) s) in
  let primary := tts_openclaw (sp_tts w) in
  (exists rest, t = Run [OPENCLAW_CLI; py "tts"; py "--text"; text] 30 :: rest)
  /\ count is_primary_synthesis t = 1%nat
  /\ count is_tempfile t = (if primary_yields_media primary then 0 else 1)%nat
  /\ count is_fallback_synthesis t
     = (if primary_yields_media primary then 0
        else match tts_tempfile (sp_tts w) with Returns _ => 1 | Throws _ _ => 0 end)%nat.
Proof.
  intros Htts Hpre. unfold speak_response. rewrite Htts, Hpre. cbn [negb].
  destruct (text_to_speech_runs (sp_tts w) text s) as (t & r & E & H1 & H2 & H3).
  cbv zeta. erewrite try_except_bind_ok by exact E. rewrite <- H2, <- H3.
  match goal with
  | |- context [trace_of (try_except ?c ?cs s)] =>
      assert (Hrest : forall p, (forall ev, no_synthesis ev = true -> p ev = false) ->
                                count p (trace_of (try_except c cs s)) = 0%nat)
  end.
  { intros p. apply tame_count.
    repeat (apply play_audio_tame_no_synthesis || tame_step || split_tests). }
  split; [eexists; reflexivity|].
  rewrite !count_app, !count_cons, !Hrest, H1.
  - cbn. repeat split; lia.
  - intros ev. unfold no_synthesis.
    destruct (is_primary_synthesis ev), (is_fallback_synthesis ev), (is_tempfile ev);
      cbn; congruence.
  - intros ev. unfold no_synthesis.
    destruct (is_primary_synthesis ev), (is_fallback_synthesis ev), (is_tempfile ev);
      cbn; congruence.
  - intros ev. unfold no_synthesis.
    destruct (is_primary_synthesis ev), (is_fallback_synthesis ev), (is_tempfile ev);
      cbn; congruence.
Qed.

End Renderer.

(** The reply [MEDIA:/tmp/x.mp3] with no such file, under the
    configuration of the source. *)
Lemma media_reference_missing_file :
  @ENABLE_TTS source_config = true
  /\ startswith (py "MEDIA:") (py "MEDIA:/tmp/x.mp3") = true
  /\ filter is_run
       (trace_of (@speak_response source_config file_missing
                    (JStr (py "MEDIA:/tmp/x.mp3")) init)) = [].
Proof.
  split; [reflexivity|]. split; [reflexivity|].
  exact (proj1 (proj2
    (@media_reference_is_never_synthesized source_config file_missing
       (py "MEDIA:/tmp/x.mp3") init eq_refl eq_refl))).
Defined.

(** The reply [hello] when the agent has no tts sub-command. *)
Lemma plain_text_falls_back_to_espeak :
  @ENABLE_TTS source_config = true
  /\ startswith (py "MEDIA:") (py "hello") = false
  /\ count is_primary_synthesis
       (trace_of (@speak_response source_config file_missing (JStr (py "hello")) init))
     = 1%nat.
Proof.
  split; [reflexivity|]. split; [reflexivity|].
  exact (proj1 (proj2
    (@plain_text_is_synthesized_once source_config file_missing
       (py "hello") init eq_refl eq_refl))).
Defined.

(** * The agent dispatcher *)

Ltac json_tame :=
  first [ apply py_in_tame | apply py_getitem_tame | apply py_len_tame
        | apply py_getitem_0_tame | apply py_get_tame ].

Ltac dispatches_norm :=
  repeat first [rewrite dispatches_app | progress cbn [dispatches dispatch_message]].

(** What a tame computation that returns does from [s]. *)
Lemma run_parts {A} P (c : M A) s :
  tame P c -> returns c ->
  exists t a, c s = (t, s, Ok a) /\ forallb P t = true.
Proof.
  intros Ht Hr. specialize (Ht s). specialize (Hr s).
  destruct (c s) as [[t s'] [a|e]]; cbn in *; [|discriminate].
  destruct Ht as (Ht & -> & _). eauto.
Qed.

Section Dispatcher.
Context {cfg : Config}.

Ltac run_dispatch :=
  unfold send_to_openclaw, subprocess_run, agent_says, exited, dispatch_start;
  cbv -[Z.eqb lookup truthy py OPENCLAW_CLI SESSION_ID].

(** C5, as the code has it.  [send_to_openclaw] never raises, and it
    returns [None] in each of the failure modes; what it logs is an error
    for a non-zero exit status, for the time-out of 120 seconds and for
    output that does not decode, and a warning, not an error, when the
    decoded object has no [result] field, no [payloads] in it, or an empty
    list of payloads.  When the first payload has a [text] that is not
    empty, that text is returned. *)
Theorem dispatch_failures_return_none (text : pystr) (s : service) :
  (forall w, is_ok (result_of (send_to_openclaw w text s)) = true)
  /\ (forall rc out err decoded, rc <> 0 ->
     send_to_openclaw {| dw_run := exited rc out err; dw_loads := decoded |} text s
     = (dispatch_start text ++ [Log ERROR "OpenClaw CLI failed: {}" [AStr err]],
        s, Ok None))
  /\ (forall etext decoded,
     send_to_openclaw {| dw_run := Throws TimeoutExpired etext; dw_loads := decoded |} text s
     = (dispatch_start text ++ [Log ERROR "OpenClaw command timed out" []], s, Ok None))
  /\ (forall out etext,
     send_to_openclaw (agent_says out (Throws JSONDecodeError etext)) text s
     = (dispatch_start text
        ++ [Loads out;
            Log ERROR "Failed to parse OpenClaw JSON response: {}"
              [AExn (Exc JSONDecodeError etext)]],
        s, Ok None))
  /\ (forall out response,
     lookup (py "result") response = None ->
     send_to_openclaw (agent_says out (Returns (JDict response))) text s
     = (dispatch_start text
        ++ [Loads out; Log WARNING "No response text found in OpenClaw output" []],
        s, Ok None))
  /\ (forall out response result,
     lookup (py "result") response = Some (JDict result) ->
     lookup (py "payloads") result = None \/ lookup (py "payloads") result = Some (JList []) ->
     send_to_openclaw (agent_says out (Returns (JDict response))) text s
     = (dispatch_start text
        ++ [Loads out; Log WARNING "No response text found in OpenClaw output" []],
        s, Ok None))
  /\ (forall out response result first others response_text,
     lookup (py "result") response = Some (JDict result) ->
     lookup (py "payloads") result = Some (JList (JDict first :: others)) ->
     lookup (py "text") first = Some response_text ->
     truthy response_text = true ->
     send_to_openclaw (agent_says out (Returns (JDict response))) text s
     = (dispatch_start text
        ++ [Loads out; Log INFO "✅ OpenClaw response: {}" [AJson response_text]],
        s, Ok (Some response_text))).
Proof.
  split. { intros w. apply send_to_openclaw_returns. }
  split.
  { intros rc out err decoded Hrc. run_dispatch.
    destruct (rc =? 0) eqn:E; [apply Z.eqb_eq in E; contradiction|reflexivity]. }
  split. { intros. reflexivity. }
  split. { intros. reflexivity. }
  split. { intros out response H. run_dispatch. rewrite H. reflexivity. }
  split.
  { intros out response result H [H'|H']; run_dispatch; rewrite H; cbv -[lookup py];
      rewrite H'; reflexivity. }
  intros out response result first others response_text H H1 H2 H3.
  run_dispatch. rewrite H. cbv -[lookup py truthy]. rewrite H1.
  cbv -[lookup py truthy]. rewrite H2, H3. reflexivity.
Qed.

(** Every call of [send_to_openclaw] dispatches its message, once. *)
Lemma send_to_openclaw_dispatches w text s :
  dispatches (trace_of (send_to_openclaw w text s)) = [text].
Proof.
  unfold send_to_openclaw.
  erewrite try_except_bind_ok by reflexivity.
  destruct w as [[c|k ktext] decoded]; cbn [dw_run dw_loads].
  - erewrite try_except_bind_ok by reflexivity.
    rewrite !dispatches_app.
    match goal with
    | |- context [trace_of (try_except ?c ?cs s)] =>
        assert (Hrest : tame helper_event (try_except c cs))
    end.
    { repeat (tame_step || json_tame || split_tests). }
    rewrite (dispatches_helper _ (proj1 (Hrest s))). reflexivity.
  - destruct k; reflexivity.
Qed.

(** C6, as the code has it.  In every cycle the agent is dispatched to at
    most once, and exactly when the recording succeeded and the recogniser
    returned a text that is not empty once trimmed; the message is the
    trimmed text followed by [. Reply in voice mode.].  A transcript of
    white space only is not dispatched. *)
Theorem dispatch_iff_trimmed_transcript_nonempty (w : cycle_world) (s : service) :
  dispatches (trace_of (record_and_transcribe w s))
  = if recording s then []
    else match cw_enter w, cw_listen w, cw_recognize w with
         | Returns _, Returns _, Returns text =>
             match strip text with
             | [] => []
             | _ :: _ => [strip text ++ py ". Reply in voice mode."]
             end
         | _, _, _ => []
         end.
Proof.
  rewrite record_and_transcribe_run. destruct (recording s); [reflexivity|].
  cbn [trace_of fst dispatches dispatch_message]. rewrite dispatches_app, app_nil_r.
  generalize (with_recording true s). clear s. intros s.
  destruct w as [enter listen fb heard d sp]. cbn [cw_enter cw_listen cw_recognize].
  unfold record_and_transcribe_try.
  cbn [cw_enter cw_listen cw_recognize cw_feedback cw_dispatch cw_speak].
  destruct enter as [[]|k ktext]; [|reflexivity].
  destruct listen as [[]|k ktext]; [|reflexivity].
  destruct (run_parts s (play_wake_feedback_tame fb) (play_wake_feedback_returns fb))
    as (tf & [] & Ef & Hf).
  apply dispatches_helper in Hf.
  destruct heard as [text|k ktext].
  - destruct (strip text) as [|c rest] eqn:Estrip.
    + cbv -[play_wake_feedback send_to_openclaw speak_response strip app dispatches].
      rewrite Ef. destruct text; rewrite ?Estrip; cbn; dispatches_norm;
        rewrite Hf; reflexivity.
    + assert (text <> []) as Hne by (intros ->; discriminate).
      destruct text as [|c0 text0]; [contradiction|].
      set (msg := (c :: rest) ++ py ". Reply in voice mode.").
      pose proof (send_to_openclaw_dispatches d msg s) as Hd.
      destruct (run_parts s (send_to_openclaw_tame d msg) (send_to_openclaw_returns d msg))
        as (td & reply & Ed & _).
      rewrite Ed in Hd. cbn [trace_of fst] in Hd.
      cbv -[play_wake_feedback send_to_openclaw speak_response strip app dispatches msg py].
      rewrite Ef, Estrip. fold msg. rewrite Ed.
      destruct reply as [reply|].
      * destruct (run_parts s (speak_response_tame sp reply) (speak_response_returns sp reply))
          as (ts & [] & Es & Hs).
        apply dispatches_helper in Hs. rewrite Es. cbn. dispatches_norm.
        rewrite Hf, Hd, Hs. reflexivity.
      * cbn. dispatches_norm. rewrite Hf, Hd. reflexivity.
  - cbv -[play_wake_feedback send_to_openclaw speak_response strip app dispatches].
    rewrite Ef. destruct k; cbn; dispatches_norm; rewrite Hf; reflexivity.
Qed.

End Dispatcher.

(** A reply without the field [result], and one with an empty list of
    payloads: [None] is returned and no error is logged. *)
Lemma missing_reply_field_logs_no_error :
  let missing := @send_to_openclaw source_config reply_without_result (py "lights on") init in
  let empty := @send_to_openclaw source_config reply_without_payload (py "lights on") init in
  result_of missing = Ok None
  /\ count (is_log_at ERROR) (trace_of missing) = 0%nat
  /\ result_of empty = Ok None
  /\ count (is_log_at ERROR) (trace_of empty) = 0%nat.
Proof. repeat split; reflexivity. Qed.

(** The agent answers [It is sunny.]. *)
Lemma dispatch_returns_first_payload_text :
  @send_to_openclaw source_config reply_sunny (py "weather") init
  = (@dispatch_start source_config (py "weather")
     ++ [Loads sunny_output;
         Log INFO "✅ OpenClaw response: {}" [AJson (JStr (py "It is sunny."))]],
     init, Ok (Some (JStr (py "It is sunny.")))).
Proof.
  destruct (@dispatch_failures_return_none source_config (py "weather") init)
    as (_ & _ & _ & _ & _ & _ & H).
  eapply H; reflexivity.
Defined.

(** The recogniser returns one space: a text that is not empty, and
    nothing is dispatched. *)
Lemma blank_transcript_is_not_dispatched :
  py " " <> []
  /\ dispatches
       (trace_of (@record_and_transcribe source_config
                    (hears tone_played (Returns (py " ")) reply_sunny file_missing)
                    init)) = [].
Proof. split; [discriminate|reflexivity]. Qed.

(** The recogniser returns [ lights on ]. *)
Lemma transcript_is_dispatched_trimmed :
  dispatches
    (trace_of (@record_and_transcribe source_config
                 (hears tone_played (Returns (py " lights on "))
                    reply_without_result file_missing)
                 init))
  = [py "lights on. Reply in voice mode."].
Proof.
  rewrite (@dispatch_iff_trimmed_transcript_nonempty source_config). reflexivity.
Defined.

(** * The wake loop *)



Section PollLoop.
Context {cfg : Config}.

Lemma play_wake_feedback_no_spawn fb s :
  count is_spawn (trace_of (play_wake_feedback fb s)) = 0%nat.
Proof.
  apply tame_count with (P := helper_event); [apply play_wake_feedback_tame|].
  intros [] H; try reflexivity; discriminate.
Qed.

Lemma poll_turn_frame (w : frame_world) predictions confidence last_run s :
  fw_read w = Returns tt ->
  fw_predict w = Returns predictions ->
  lookup WAKE_WORD predictions = Some confidence ->
  poll_turn (Frame w) last_run s
  = if score_gt confidence DETECTION_THRESHOLD
    then if float_gt (float_sub (fw_now w) last_run) WAKE_WORD_COOLDOWN
         then (frame_trace w confidence s, s, Ok (fw_stamp w))
         else ([ReadFrame CHUNK_SIZE; Predict;
                Log INFO "🎯 Wake word '{}' detected (confidence: {})"
                  [AStr WAKE_WORD; AFloat (score_value confidence)];
                Clock], s, Ok last_run)
    else ([ReadFrame CHUNK_SIZE; Predict], s, Ok last_run).
Proof.
  intros Hread Hpredict Hlookup.
  destruct w as [read predict now fb stamp]. cbn in Hread, Hpredict. subst read predict.
  unfold poll_turn, loop_except, poll_frame, frame_trace. cbn [fw_read fw_predict fw_now fw_feedback fw_stamp].
  destruct (play_wake_feedback_runs fb s) as (tf & Ef & _).
  cbv -[lookup float float_gt float_sub score_gt score_value play_wake_feedback app
        WAKE_WORD DETECTION_THRESHOLD CHUNK_SIZE WAKE_WORD_COOLDOWN].
  rewrite Hlookup.
  destruct (score_gt confidence DETECTION_THRESHOLD); [|reflexivity].
  destruct (float_gt _ WAKE_WORD_COOLDOWN); [|reflexivity].
  rewrite Ef. cbn. reflexivity.
Qed.



Lemma poll_turn_frame_tame w last_run : tame any_event (poll_turn (Frame w) last_run).
Proof.
  unfold poll_turn, loop_except, poll_frame.
  repeat (apply (tame_any (play_wake_feedback_tame _)) || tame_step || split_tests).
Qed.

Lemma poll_turn_frame_returns w last_run : returns (poll_turn (Frame w) last_run).
Proof.
  unfold poll_turn, loop_except, poll_frame.
  apply returns_try_except_tame with (P := any_event).
  - repeat (apply (tame_any (play_wake_feedback_tame _)) || tame_step || split_tests).
  - each_exception; repeat (returns_step || split_tests).
Qed.

Lemma poll_turn_frame_reads_once w last_run s :
  exists t last_run',
    poll_turn (Frame w) last_run s = (ReadFrame CHUNK_SIZE :: t, s, Ok last_run')
    /\ count is_read_frame t = 0%nat.
Proof.
  destruct (run_parts s (poll_turn_frame_tame w last_run) (poll_turn_frame_returns w last_run))
    as (t & lr & E & _).
  assert (Ht : exists t', t = ReadFrame CHUNK_SIZE :: t' /\ count is_read_frame t' = 0%nat).
  { replace t with (trace_of (poll_turn (Frame w) last_run s)) by now rewrite E.
    unfold poll_turn, loop_except, poll_frame. destruct (fw_read w) as [[]|k ktext].
    - erewrite try_except_bind_ok by reflexivity. eexists. split; [reflexivity|].
      apply tame_count with (P := fun ev => negb (is_read_frame ev)).
      + repeat (apply (tame_weaken _ (play_wake_feedback_tame _)) || tame_step || split_tests).
        all: try (intros [] H; try reflexivity; discriminate).
      + intros ev H. now destruct (is_read_frame ev).
    - destruct k; cbv -[CHUNK_SIZE running]; destruct (running s); eexists; split; reflexivity. }
  destruct Ht as (t' & -> & Ht'). eauto.
Qed.

Lemma poll_loop_stopped ticks last_run s :
  running s = false -> poll_loop ticks last_run s = ([], s, Ok LoopLeft).
Proof. intros H. destruct ticks; cbn; unfold M_bind; cbn; rewrite H; reflexivity. Qed.

Lemma poll_loop_cons t ticks last_run s :
  running s = true ->
  poll_loop (t :: ticks) last_run s
  = (last_run' <- poll_turn t last_run ;; poll_loop ticks last_run') s.
Proof.
  intros H. cbn. unfold M_bind at 1. cbn. rewrite H. unfold M_bind.
  destruct (poll_turn t last_run s) as [[t1 s1] [a|e]]; [|reflexivity].
  destruct (poll_loop ticks a s1) as [[t2 s2] r]. reflexivity.
Qed.

Lemma poll_loop_frames ticks : forall last_run s,
  running s = true -> forallb is_frame ticks = true ->
  exists t last_run',
    poll_loop ticks last_run s = (t, s, Ok (StillPolling last_run'))
    /\ count is_read_frame t = List.length ticks.
Proof.
  induction ticks as [|[w|sig sw|w p sig sw|sig sw] ticks IH]; intros last_run s Hrun Hframes.
  - exists [], last_run. cbn. unfold M_bind. cbn. rewrite Hrun. auto.
  - rewrite poll_loop_cons by exact Hrun. rewrite bind_run.
    destruct (poll_turn_frame_reads_once w last_run s) as (t1 & lr1 & -> & H1).
    destruct (IH lr1 s Hrun Hframes) as (t2 & lr2 & -> & H2).
    exists (ReadFrame CHUNK_SIZE :: t1 ++ t2), lr2. split; [reflexivity|].
    rewrite count_cons, count_app, H1, H2. reflexivity.
  - discriminate.
  - discriminate.
  - discriminate.
Qed.

Lemma log_devices_run devices : forall i s,
  exists t, log_devices i devices s = (t, s, Ok tt).
Proof.
  induction devices as [|[name channels] devices IH]; intros i s.
  - exists []. reflexivity.
  - destruct (IH (i + 1) s) as (t & E). cbn. unfold M_bind. cbn. rewrite E. eauto.
Qed.

Lemma initialize_wake_word_detection_ready names devices s :
  exists t,
    initialize_wake_word_detection (all_ready names devices) s
    = (t, with_wake_word_model true s, Ok true).
Proof. destruct names; eexists; reflexivity. Qed.

Lemma initialize_speech_recognition_ready names devices s :
  exists t,
    initialize_speech_recognition (all_ready names devices) s
    = (t, with_microphone true s, Ok true).
Proof. eexists; reflexivity. Qed.

Lemma initialize_audio_stream_ready names devices s :
  exists t,
    initialize_audio_stream (all_ready names devices) s
    = (t, with_audio_stream true (with_pyaudio_instance true s), Ok true).
Proof.
  destruct (log_devices_run devices 0 (with_pyaudio_instance true s)) as (td & Ed).
  unfold initialize_audio_stream, all_ready.
  cbv -[log_devices app with_pyaudio_instance with_audio_stream py].
  rewrite Ed. eexists; reflexivity.
Qed.

(** A sequence whose first computation returns. *)
Lemma bind_ok {A B} (c : M A) (f : A -> M B) s t1 s1 a :
  c s = (t1, s1, Ok a) ->
  (x <- c ;; f x) s = (let '(t2, s2, r) := f a s1 in (t1 ++ t2, s2, r)).
Proof. intros E. rewrite bind_run, E. reflexivity. Qed.

(** [start] once the initialisers have succeeded: the lines of the start,
    then the loop. *)
Lemma start_run names devices ticks s :
  exists t0,
    start (all_ready names devices) ticks s
    = match poll_loop ticks float_0 (ready s) with
      | (t, s', Ok LoopLeft) =>
          (t0 ++ t ++ [Log INFO "Voice Wake Service stopped" []], s', Ok (Some true))
      | (t, s', Ok (StillPolling _)) => (t0 ++ t, s', Ok None)
      | (t, s', Raise e) =>
          if is_Exception e
          then (t0 ++ t ++ [Log ERROR "Fatal error in main loop: {}" [AExn e]], s',
                Ok (Some false))
          else (t0 ++ t, s', Raise e)
      end.
Proof.
  destruct (initialize_wake_word_detection_ready names devices s) as (t1 & E1).
  destruct (initialize_speech_recognition_ready names devices (with_wake_word_model true s))
    as (t2 & E2).
  destruct (initialize_audio_stream_ready names devices
              (with_microphone true (with_wake_word_model true s))) as (t3 & E3).
  unfold start.
  erewrite bind_ok by reflexivity.
  erewrite bind_ok by exact E1. cbn [negb].
  erewrite bind_ok by exact E2. cbn [negb].
  erewrite bind_ok by exact E3. cbn [negb].
  do 4 (erewrite bind_ok by reflexivity).
  unfold try_except. rewrite bind_run. fold (ready s).
  exists ([Log INFO "🚀 Starting Voice Wake Service with TTS..." []] ++ t1 ++ t2 ++ t3
          ++ [Log INFO "✅ All components initialized successfully" [];
              Log INFO "🎯 Say '{}' to wake up, then speak your command" [AStr WAKE_WORD];
              Log INFO "🔊 TTS is {}"
                [AStr (if ENABLE_TTS then py "enabled" else py "disabled")]]).
  destruct (poll_loop ticks float_0 (ready s)) as [[t s'] [[|lr]|[k text|code]]];
    cbn -[py]; repeat rewrite <- app_assoc; cbn -[py]; rewrite ?app_nil_r; reflexivity.
Qed.

(** C9.  A frame that cannot be read while the service runs costs one
    error line and one sleep; [last_run] and the object are as before and
    the loop goes on with the next turn.  Over turns that are all frames
    the loop is still polling at the end, having read once per turn,
    whatever the frames raised, and [start] has not returned; a turn in
    which the signal handler runs ends the polling: nothing more is read. *)
Theorem read_errors_never_stop_polling
    (w : frame_world) (k : exn_kind) (text : pystr) (ticks : list tick)
    (last_run : float) (s : service) :
  fw_read w = Throws k text ->
  running s = true ->
  let failed := [ReadFrame CHUNK_SIZE;
                 Log ERROR "Error in main loop: {}" [AExn (Exc k text)];
                 Sleep] in
  poll_turn (Frame w) last_run s = (failed, s, Ok last_run)
  /\ poll_loop (Frame w :: ticks) last_run s
     = (let '(t, s', r) := poll_loop ticks last_run s in (failed ++ t, s', r))
  /\ (forallb is_frame ticks = true ->
      still_polling (result_of (poll_loop ticks last_run s)) = true
      /\ count is_read_frame (trace_of (poll_loop ticks last_run s)) = List.length ticks)
  /\ (forall sig sw,
      still_polling (result_of (poll_loop (Signal sig sw :: ticks) last_run s)) = false
      /\ count is_read_frame (trace_of (poll_loop (Signal sig sw :: ticks) last_run s)) = 0%nat)
  /\ (forall names devices s0,
      forallb is_frame ticks = true ->
      result_of (start (all_ready names devices) ticks s0) = Ok None).
Proof.
  intros Hread Hrun failed.
  assert (Hturn : poll_turn (Frame w) last_run s = (failed, s, Ok last_run)).
  { unfold poll_turn, loop_except, poll_frame. rewrite Hread. destruct k; cbv -[CHUNK_SIZE running]; rewrite Hrun; reflexivity. }
  split; [exact Hturn|].
  split. { rewrite poll_loop_cons by exact Hrun. rewrite bind_run, Hturn. reflexivity. }
  split.
  { intros Hframes. destruct (@poll_loop_frames ticks last_run s Hrun Hframes) as (t & lr & -> & Ht).
    split; [reflexivity|exact Ht]. }
  split.
  { intros sig sw. rewrite poll_loop_cons by exact Hrun. rewrite bind_run.
    destruct s as [m mic run rec stream pa], sw as [[[]|k1 t1] [[]|k2 t2]];
      cbn in Hrun; subst run.
    all: destruct stream, pa, m.
    all: unfold poll_turn, loop_except, _signal_handler, stop.
    all: cbv -[poll_loop count is_read_frame still_polling].
    all: rewrite ?poll_loop_stopped by reflexivity.
    all: split; reflexivity. }
  intros names devices s0 Hframes.
  destruct (start_run names devices ticks s0) as (t0 & ->).
  destruct (@poll_loop_frames ticks float_0 (ready s0) eq_refl Hframes)
    as (t & lr & -> & _).
  reflexivity.
Qed.

(** C10.  A qualifying frame met while a cycle is active is handled as
    any other: the tone is played (with the tone in its file, aplay is
    run on it and the file unlinked), a thread is started and [last_run]
    takes the new time; the thread's [record_and_transcribe] then returns
    at once, without an event. *)
Theorem suppressed_trigger_still_resets_cooldown
    (w : frame_world) (predictions : list (pystr * score)) (confidence : score)
    (last_run : float) (s : service) (cw : cycle_world) :
  fw_read w = Returns tt ->
  fw_predict w = Returns predictions ->
  lookup WAKE_WORD predictions = Some confidence ->
  score_gt confidence DETECTION_THRESHOLD = true ->
  float_gt (float_sub (fw_now w) last_run) WAKE_WORD_COOLDOWN = true ->
  recording s = true ->
  result_of (poll_turn (Frame w) last_run s) = Ok (fw_stamp w)
  /\ service_of (poll_turn (Frame w) last_run s) = s
  /\ count is_spawn (trace_of (poll_turn (Frame w) last_run s)) = 1%nat
  /\ count is_tempfile (trace_of (poll_turn (Frame w) last_run s)) = 1%nat
  /\ (forall f,
      fb_tempfile (fw_feedback w) = Returns f -> fb_wave (fw_feedback w) = Returns tt ->
      trace_of (poll_turn (Frame w) last_run s)
      = [ReadFrame CHUNK_SIZE; Predict;
         Log INFO "🎯 Wake word '{}' detected (confidence: {})"
           [AStr WAKE_WORD; AFloat (score_value confidence)];
         Clock]
        ++ tone_events f (fb_aplay (fw_feedback w))
        ++ [Spawn; Clock])
  /\ record_and_transcribe cw s = ([], s, Ok tt).
Proof.
  intros Hread Hpredict Hlookup Hconf Hcool Hrec.
  rewrite (poll_turn_frame _ _ _ Hread Hpredict Hlookup), Hconf, Hcool.
  cbn [result_of service_of trace_of fst snd]. unfold frame_trace.
  destruct (feedback_tone_runs (fw_feedback w) s) as (Hr & Hs & Ht & Hone).
  split; [reflexivity|]. split; [reflexivity|]. split.
  { rewrite !count_app, play_wake_feedback_no_spawn. reflexivity. }
  split.
  { rewrite !count_app, Hone. reflexivity. }
  split.
  { intros f Hf Hw. rewrite (Ht f Hf Hw). reflexivity. }
  rewrite record_and_transcribe_run, Hrec. reflexivity.
Qed.

End PollLoop.



(** The tone when aplay times out and the unlink fails: the file is
    made, written, played and unlinked, in that order, with the one
    warning of the timeout; the failure of the unlink leaves no line. *)
Lemma timed_out_tone_is_unlinked :
  fb_tempfile tone_timed_out = Returns (py "/tmp/tmpa1.wav")
  /\ fb_wave tone_timed_out = Returns tt
  /\ play_wake_feedback tone_timed_out init
     = ([TempFile (py ".wav"); WriteWav (py "/tmp/tmpa1.wav");
         Run [py "aplay"; py "-q"; py "/tmp/tmpa1.wav"] 2;
         Log WARNING "Audio feedback playback timed out" [];
         Unlink (py "/tmp/tmpa1.wav")],
        init, Ok tt).
Proof.
  split; [reflexivity|]. split; [reflexivity|].
  destruct (feedback_tone_file_always_unlinked tone_timed_out init) as (Hr & Hs & Ht & _).
  specialize (Ht _ eq_refl eq_refl).
  destruct (play_wake_feedback tone_timed_out init) as [[t s] r].
  cbn [result_of service_of trace_of fst snd] in Hr, Hs, Ht.
  rewrite Hr, Hs, Ht. reflexivity.
Defined.

(** A read error while the service runs. *)
Lemma lost_frame_is_retried :
  running (with_running true init) = true
  /\ @poll_turn source_config (Frame frame_lost) float_1_7e9 (with_running true init)
     = ([ReadFrame 1280;
         Log ERROR "Error in main loop: {}" [AExn (Exc OtherError (py "Stream closed"))];
         Sleep],
        with_running true init, Ok float_1_7e9).
Proof.
  split; [reflexivity|].
  exact (proj1 (@read_errors_never_stop_polling source_config frame_lost _ _ []
                  float_1_7e9 (with_running true init) eq_refl eq_refl)).
Defined.

(** The wake word is heard while a cycle is active: the tone is played,
    a thread is started, and [last_run] is the new reading of the clock. *)
Lemma detection_during_a_cycle :
  recording (with_recording true init) = true
  /\ @poll_turn source_config (Frame frame_heard) float_0 (with_recording true init)
     = ([ReadFrame 1280; Predict;
         Log INFO "🎯 Wake word '{}' detected (confidence: {})"
           [AStr (py "hey_jarvis"); AFloat float32_0_45];
         Clock;
         TempFile (py ".wav"); WriteWav (py "/tmp/tmpa1.wav");
         Run [py "aplay"; py "-q"; py "/tmp/tmpa1.wav"] 2;
         Log DEBUG "✅ Audio feedback played successfully" [];
         Unlink (py "/tmp/tmpa1.wav");
         Spawn; Clock],
        with_recording true init, Ok float_1_7e9).
Proof.
  split; [reflexivity|].
  destruct (@suppressed_trigger_still_resets_cooldown source_config frame_heard _ _
              float_0 (with_recording true init)
              (hears tone_played (Returns []) reply_sunny file_missing)
              eq_refl eq_refl eq_refl eq_refl eq_refl eq_refl)
    as (Hr & Hs & _ & _ & Ht & _).
  specialize (Ht _ eq_refl eq_refl).
  destruct (@poll_turn source_config (Frame frame_heard) float_0 (with_recording true init))
    as [[t s'] r].
  cbn [result_of service_of trace_of fst snd] in Hr, Hs, Ht. subst t s' r. reflexivity.
Defined.

(** * The scenarios of the specification, run *)

Example strip_trims_both_ends :
  strip (py "  lights on ") = py "lights on" /\ strip (py "   ") = [].
Proof. split; reflexivity. Qed.

Example the_floats_are_binary64 :
  forallb (valid_binary prec emax)
    [float_0; float_0_25; float_0_3; float_0_45; float_3; float_1_7e9] = true.
Proof. reflexivity. Qed.

Example the_scores_are_binary32 :
  forallb (valid_binary 24 128) [float_0; float32_0_25; float32_0_3; float32_0_45] = true
  /\ to_float32 float_0_25 = float32_0_25
  /\ to_float32 float_0_3 = float32_0_3
  /\ to_float32 float_0_45 = float32_0_45.
Proof. repeat split; reflexivity. Qed.

Example threshold_is_below_0_45_and_above_0_25 :
  float_gt float_0_45 float_0_3 = true
  /\ float_gt float_0_25 float_0_3 = false
  /\ float_gt float_0_3 float_0_3 = false
  /\ float_gt (float_sub float_1_7e9 float_0) WAKE_WORD_COOLDOWN = true.
Proof. repeat split; reflexivity. Qed.

(** The float32 nearest to 0.3 is above the double nearest to 0.3: NumPy 1
    finds it greater than the threshold, NumPy 2 equal to it. *)
Example the_float32_nearest_to_the_threshold :
  float_gt float32_0_3 float_0_3 = true
  /\ score_gt (Float32Legacy float32_0_3) float_0_3 = true
  /\ score_gt (Float32 float32_0_3) float_0_3 = false
  /\ score_eq (Float32 float32_0_3) float_0_3 = true
  /\ score_gt (Float32 float32_0_45) float_0_3 = true
  /\ score_gt (PyFloat float_0_3) float_0_3 = false.
Proof. repeat split; reflexivity. Qed.

Example faint_detection_starts_no_cycle :
  trace_of (@poll_turn source_config (Frame frame_faint) float_0 init)
  = [ReadFrame 1280; Predict].
Proof. reflexivity. Qed.

Example empty_transcript_is_not_dispatched :
  dispatches
    (trace_of (@record_and_transcribe source_config
                 (hears tone_played (Returns []) reply_sunny file_present) init))
  = [].
Proof. reflexivity. Qed.

Example media_reply_goes_to_the_mp3_player :
  filter is_run
    (trace_of (@speak_response source_config file_present
                 (JStr (py "MEDIA:/tmp/x.mp3")) init))
  = [Run [py "ffplay"; py "-nodisp"; py "-autoexit"; py "/tmp/x.mp3"] 120].
Proof. reflexivity. Qed.

Example timed_out_synthesis_falls_back :
  filter is_run_or_unlink
    (trace_of (@speak_response source_config tts_times_out (JStr (py "hello")) init))
  = [Run [py "openclaw"; py "tts"; py "--text"; py "hello"] 30;
     Run [py "espeak"; py "-v"; py "en-us"; py "-w"; py "/tmp/tmpb2.wav"; py "hello"] 30;
     Run [py "aplay"; py "/tmp/tmpb2.wav"] 10;
     Unlink (py "/tmp/tmpb2.wav")].
Proof. reflexivity. Qed.

Example full_cycle :
  filter is_run_or_unlink
    (trace_of (@record_and_transcribe source_config
                 (hears tone_played (Returns (py "what is the weather"))
                    reply_sunny tts_times_out)
                 init))
  = [Run [py "aplay"; py "-q"; py "/tmp/tmpa1.wav"] 2;
     Unlink (py "/tmp/tmpa1.wav");
     Run [py "openclaw"; py "agent"; py "--session-id"; py "voice:wake:main";
          py "--message"; py "what is the weather. Reply in voice mode."; py "--json"] 120;
     Run [py "openclaw"; py "tts"; py "--text"; py "It is sunny."] 30;
     Run [py "espeak"; py "-v"; py "en-us"; py "-w"; py "/tmp/tmpb2.wav";
          py "It is sunny."] 30;
     Run [py "aplay"; py "/tmp/tmpb2.wav"] 10;
     Unlink (py "/tmp/tmpb2.wav")].
Proof. reflexivity. Qed.

(** * The players and the synthesiser *)

Lemma count_zero_of_forallb P p (t : list event) :
  forallb P t = true -> (forall ev, P ev = true -> p ev = false) -> count p t = 0%nat.
Proof.
  intros Ht Hp. apply count_zero_forallb. rewrite forallb_forall in *.
  intros ev Hin. rewrite (Hp ev); auto.
Qed.

Lemma forallb_weaken (P Q : event -> bool) (t : list event) :
  (forall ev, P ev = true -> Q ev = true) -> forallb P t = true -> forallb Q t = true.
Proof. intros H. rewrite !forallb_forall. auto. Qed.

(** A fact about every event, by cases on the event and its level. *)
Ltac by_event :=
  let ev := fresh "ev" in
  let H := fresh "H" in
  intros ev H; destruct ev;
  try match goal with l : level |- _ => destruct l end;
  cbn in *; first [reflexivity | discriminate].

Section Players.
Context {cfg : Config}.

(** X1.  [play_audio] and [play_mp3] return in every world, with [True]
    exactly when the player exits with status 0; they run the configured
    player once, on the path given (the MP3 player with [-nodisp
    -autoexit]), within 10 and 120 seconds, leave the object alone, and
    log one error when they return [False] and none otherwise. *)
Theorem players_report_exit_status (o : outcome completed) (path : pystr) (s : service) :
  (exists t, play_audio o path s = (t, s, Ok (played o))
             /\ filter is_run t = [Run [AUDIO_PLAYER; path] 10]
             /\ count (is_log_at ERROR) t = (if played o then 0 else 1)%nat)
  /\ (exists t, play_mp3 o path s = (t, s, Ok (played o))
             /\ filter is_run t = [Run [MP3_PLAYER; py "-nodisp"; py "-autoexit"; path] 120]
             /\ count (is_log_at ERROR) t = (if played o then 0 else 1)%nat).
Proof.
  destruct o as [[rc out err]|k ktext]; cbn [played returncode].
  - split; unfold play_audio, play_mp3, subprocess_run;
      cbv -[Z.eqb AUDIO_PLAYER MP3_PLAYER]; destruct (rc =? 0);
      eexists; repeat split; reflexivity.
  - split; destruct k; eexists; repeat split; reflexivity.
Qed.

Lemma text_to_speech_result (w : tts_world) (text : pystr) (s : service) :
  result_of (text_to_speech w text s) = Ok (synthesized w)
  /\ service_of (text_to_speech w text s) = s.
Proof.
  destruct w as [[[rc out err]|k ktext] [f|k' ktext'] [[rc' out' err']|k'' ktext'']].
  all: unfold text_to_speech, subprocess_run, synthesized, espeak_file,
         contains, split_1.
  all: cbv -[Z.eqb strip after_first before_first OPENCLAW_CLI].
  all: try destruct (rc =? 0).
  all: try destruct (after_first _ out).
  all: try destruct (rc' =? 0).
  all: each_kind.
  all: split; reflexivity.
Qed.

Lemma text_to_speech_plays_nothing w text :
  tame (fun ev => negb (is_play_or_unlink ev)) (text_to_speech w text).
Proof.
  unfold text_to_speech, subprocess_run.
  repeat (tame_step || split_tests).
Qed.

(** X2.  [text_to_speech] returns in every world and leaves the object
    alone.  It returns the trimmed text after the [MEDIA:] marker when the
    agent's [tts] sub-command exits with status 0 and prints one; else
    the temporary file when that file is made and espeak exits with status
    0 on it; else [None].  It unlinks nothing: a temporary file made for
    an espeak that then fails is left behind. *)
Theorem text_to_speech_returns_the_synthesized_file
    (w : tts_world) (text : pystr) (s : service) :
  result_of (text_to_speech w text s) = Ok (synthesized w)
  /\ service_of (text_to_speech w text s) = s
  /\ count is_unlink (trace_of (text_to_speech w text s)) = 0%nat.
Proof.
  destruct (text_to_speech_result w text s) as (Hr & Hs).
  split; [exact Hr|]. split; [exact Hs|].
  apply tame_count with (P := fun ev => negb (is_play_or_unlink ev)).
  - apply text_to_speech_plays_nothing.
  - intros [] H; try reflexivity; discriminate.
Qed.

(** X3.  With TTS enabled and a reply that is no media reference, the
    audio player is run at most once, on the file [text_to_speech]
    returned, and only when that path is not empty and the file exists;
    the file is unlinked after the run, whatever the player did, unless
    its path starts with [/tmp/tts-]; nothing else is played or
    unlinked. *)
Theorem synthesized_file_is_played_then_unlinked
    (w : speak_world) (text : pystr) (s : service) :
  ENABLE_TTS = true ->
  startswith (py "MEDIA:") text = false ->
  filter is_play_or_unlink (trace_of (speak_response w (JStr text) s))
  = match synthesized (sp_tts w) with
    | Some (c :: p) =>
        if sp_audio_exists w
        then Run [AUDIO_PLAYER; c :: p] 10
             :: (if startswith (py "/tmp/tts-") (c :: p) then [] else [Unlink (c :: p)])
        else []
    | _ => []
    end.
Proof.
  intros Htts Hpre. unfold speak_response. rewrite Htts, Hpre. cbn [negb].
  destruct (text_to_speech_result (sp_tts w) text s) as (Hr & Hs).
  pose proof (text_to_speech_plays_nothing (sp_tts w) text s) as (Ht & _).
  destruct (text_to_speech (sp_tts w) text s) as [[t1 s1] r] eqn:E.
  cbn in Hr, Hs, Ht. subst r s1.
  erewrite try_except_bind_ok by exact E. rewrite filter_app.
  assert (Hnone : filter is_play_or_unlink t1 = []).
  { clear E. induction t1 as [|ev t1 IH]; [reflexivity|]. cbn in *.
    apply andb_prop in Ht as [Hev Ht]. destruct (is_play_or_unlink ev); [discriminate|auto]. }
  rewrite Hnone. cbn [app]. clear.
  destruct w as [mfound mp3 tts afound play unl].
  cbn [sp_audio_exists sp_play sp_unlink sp_tts].
  destruct (synthesized tts) as [[|c p]|]; [reflexivity| |reflexivity].
  destruct afound; [|reflexivity].
  destruct play as [[rc out err]|k ktext], unl as [[]|k' ktext'].
  all: unfold play_audio, subprocess_run.
  all: cbv -[Z.eqb startswith AUDIO_PLAYER py].
  all: try destruct (rc =? 0).
  all: try destruct (startswith _ _).
  all: each_kind.
  all: reflexivity.
Qed.

End Players.

(** The reply [hello] when the agent's [tts] sub-command times out: the
    file of espeak is played by aplay and unlinked. *)
Lemma espeak_file_is_played_and_unlinked :
  @ENABLE_TTS source_config = true
  /\ startswith (py "MEDIA:") (py "hello") = false
  /\ filter is_play_or_unlink
       (trace_of (@speak_response source_config tts_times_out (JStr (py "hello")) init))
     = [Run [py "aplay"; py "/tmp/tmpb2.wav"] 10; Unlink (py "/tmp/tmpb2.wav")].
Proof.
  split; [reflexivity|]. split; [reflexivity|].
  rewrite (@synthesized_file_is_played_then_unlinked source_config tts_times_out
             (py "hello") init eq_refl eq_refl).
  reflexivity.
Defined.

Section RendererReturns.
Context {cfg : Config}.

(** X18.  [speak_response] returns in every world and for every reply,
    and leaves the object alone; it never calls the agent.  With TTS
    disabled it logs the reply and does nothing else.  A reply that is no
    string (the dispatcher returns whatever true value the agent put at
    [text]) is not rendered: one error line, no player and no synthesiser
    is run. *)
Theorem speak_response_never_raises (w : speak_world) (reply : json) (s : service) :
  let run := speak_response w reply s in
  result_of run = Ok tt
  /\ service_of run = s
  /\ dispatches (trace_of run) = []
  /\ (ENABLE_TTS = false ->
      trace_of run = [Log INFO "Response (not spoken): {}" [AJson reply]])
  /\ (ENABLE_TTS = true -> is_str reply = false ->
      count is_run (trace_of run) = 0%nat
      /\ count (is_log_at ERROR) (trace_of run) = 1%nat).
Proof.
  cbv zeta.
  destruct (run_parts s (speak_response_tame w reply) (speak_response_returns w reply))
    as (t & [] & E & Ht).
  rewrite E. cbn [result_of service_of trace_of fst snd].
  split; [reflexivity|]. split; [reflexivity|].
  split; [apply dispatches_helper; exact Ht|].
  split.
  - intros Hoff. replace t with (trace_of (speak_response w reply s)) by now rewrite E.
    unfold speak_response. rewrite Hoff. reflexivity.
  - intros Hon Hstr. replace t with (trace_of (speak_response w reply s)) by now rewrite E.
    unfold speak_response. rewrite Hon.
    destruct reply; try discriminate; split; reflexivity.
Qed.

End RendererReturns.

(** * The reply of the agent *)

Section Replies.
Context {cfg : Config}.

Ltac crunch :=
  cbv -[Z.eqb lookup py OPENCLAW_CLI SESSION_ID existsb contains pystr_eqb
        count is_log is_log_at].

Lemma send_to_openclaw_result (w : dispatch_world) (text : pystr) (s : service) :
  let t := trace_of (send_to_openclaw w text s) in
  result_of (send_to_openclaw w text s) = Ok (reply_text w)
  /\ count is_log t = 2%nat
  /\ count (is_log_at INFO) t = (match reply_text w with Some _ => 2 | None => 1 end)%nat.
Proof.
  destruct w as [[[rc out err]|k ktext] decoded].
  - unfold send_to_openclaw, subprocess_run, reply_text, reply_in.
    cbn [dw_run dw_loads returncode stdout stderr].
    destruct (rc =? 0) eqn:Hrc.
    + destruct decoded as [response|k ktext].
      * crunch. rewrite Hrc. clear Hrc.
        repeat (crunch;
                first [ split_tests
                      | match goal with
                        | |- context [existsb ?f ?l] => destruct (existsb f l)
                        end ]).
        all: crunch; repeat split; reflexivity.
      * crunch. rewrite Hrc. destruct k; repeat split; reflexivity.
    + crunch. rewrite Hrc. destruct decoded; repeat split; reflexivity.
  - destruct k, decoded; repeat split; reflexivity.
Qed.

(** X4.  [send_to_openclaw] returns a reply exactly when the agent exits
    with status 0, its output decodes, and the decoded value is an object
    whose [result] is an object whose [payloads] is a list starting with
    an object that holds a true value at [text]; that value is the reply.
    In every other world, also when the decoded value has another shape
    (a list, a number, [payloads] that is no list, a payload that is no
    object), it returns [None].  Every call logs two lines: the message
    sent, then the reply at info level or the reason at a higher one. *)
Theorem dispatch_returns_only_a_well_shaped_reply
    (w : dispatch_world) (text : pystr) (s : service) :
  let t := trace_of (send_to_openclaw w text s) in
  result_of (send_to_openclaw w text s) = Ok (reply_text w)
  /\ count is_log t = 2%nat
  /\ count (is_log_at INFO) t = (match reply_text w with Some _ => 2 | None => 1 end)%nat.
Proof. exact (send_to_openclaw_result w text s). Qed.

End Replies.

(** * The whole cycle *)

Section WholeCycle.
Context {cfg : Config}.

(** X5.  When the microphone cannot be entered, or the recording raises,
    the cycle ends there: one error line, then the [finally]; no tone is
    played, the recogniser is not called, nothing is dispatched, and the
    flag is clear again. *)
Theorem failed_recording_ends_the_cycle
    (fb : feedback_world) (heard : outcome pystr) (d : dispatch_world) (sp : speak_world)
    (listen : outcome unit) (k : exn_kind) (text : pystr) (s : service) :
  let announced := Log INFO "🎙️  Wake word detected! Recording for 10 seconds..." [] in
  let failed := [Log ERROR "Error during recording/transcription: {}" [AExn (Exc k text)];
                 Log INFO "Ready for next wake word..." []] in
  record_and_transcribe
    {| cw_enter := Throws k text; cw_listen := listen; cw_feedback := fb;
       cw_recognize := heard; cw_dispatch := d; cw_speak := sp |}
    (with_recording false s)
  = (announced :: EnterMicrophone :: failed, with_recording false s, Ok tt)
  /\ record_and_transcribe
       {| cw_enter := Returns tt; cw_listen := Throws k text; cw_feedback := fb;
          cw_recognize := heard; cw_dispatch := d; cw_speak := sp |}
       (with_recording false s)
     = (announced :: EnterMicrophone
          :: Log INFO "Recording... You have 10 seconds to speak your command" []
          :: Listen 10 :: failed,
        with_recording false s, Ok tt).
Proof.
  split; rewrite record_and_transcribe_run;
    change (recording (with_recording false s)) with false; cbv iota;
    destruct k; reflexivity.
Qed.

(** X6.  A cycle whose transcript is not blank is the sequence of its
    parts: the recording and the tone, the line of the transcript, the
    dispatch of the trimmed transcript with the directive appended, then
    the rendering of the reply when the dispatcher returned one and a
    warning when it returned none, and the line of the [finally]. *)
Theorem cycle_is_the_sequence_of_its_parts
    (fb : feedback_world) (text : pystr) (d : dispatch_world) (sp : speak_world)
    (s : service) :
  strip text <> [] ->
  let s' := with_recording true s in
  let message := strip text ++ py ". Reply in voice mode." in
  trace_of (record_and_transcribe (hears fb (Returns text) d sp) (with_recording false s))
  = Log INFO "🎙️  Wake word detected! Recording for 10 seconds..." []
    :: up_to_recognize fb s'
    ++ [Log INFO "Transcribed: '{}'" [AStr text]]
    ++ trace_of (send_to_openclaw d message s')
    ++ match reply_text d with
       | Some reply =>
           Log INFO "✅ Command processed successfully" []
           :: trace_of (speak_response sp reply s')
       | None => [Log WARNING "⚠️  No response from OpenClaw" []]
       end
    ++ [Log INFO "Ready for next wake word..." []].
Proof.
  intros Hne s' message. rewrite record_and_transcribe_run.
  change (recording (with_recording false s)) with false. cbv iota.
  change (with_recording true (with_recording false s)) with s'.
  cbn [trace_of fst]. f_equal. generalize s'. clear s'. intros s'.
  unfold record_and_transcribe_try, hears, up_to_recognize.
  cbn [cw_enter cw_listen cw_recognize cw_feedback cw_dispatch cw_speak].
  destruct (run_parts s' (play_wake_feedback_tame fb) (play_wake_feedback_returns fb))
    as (tf & [] & Ef & _).
  destruct (send_to_openclaw_result d message s') as (Hd & _).
  destruct (run_parts s' (send_to_openclaw_tame d message) (send_to_openclaw_returns d message))
    as (td & reply & Ed & _).
  rewrite Ed in Hd. cbn in Hd. injection Hd as Hd. rewrite <- Hd.
  destruct (strip text) as [|c rest] eqn:Estrip; [contradiction|].
  assert (text <> []) as Htext by (intros ->; discriminate).
  destruct text as [|c0 text0]; [contradiction|].
  subst message.
  cbv -[play_wake_feedback send_to_openclaw speak_response strip app py].
  rewrite Ef, Estrip, Ed.
  destruct reply as [reply|].
  - destruct (run_parts s' (speak_response_tame sp reply) (speak_response_returns sp reply))
      as (ts & [] & Es & _).
    rewrite Es. cbn -[py]. repeat (rewrite <- app_assoc; cbn [app]). reflexivity.
  - cbn -[py]. repeat (rewrite <- app_assoc; cbn [app]). reflexivity.
Qed.

End WholeCycle.

(** The transcript [ lights on ] when the agent's answer has no [result]:
    the dispatch is followed by the warning. *)
Lemma unanswered_command_cycle :
  strip (py " lights on ") <> []
  /\ trace_of (@record_and_transcribe source_config
                 (hears tone_played (Returns (py " lights on ")) reply_without_result
                    file_missing)
                 (with_recording false init))
     = Log INFO "🎙️  Wake word detected! Recording for 10 seconds..." []
       :: up_to_recognize tone_played (with_recording true init)
       ++ [Log INFO "Transcribed: '{}'" [AStr (py " lights on ")]]
       ++ trace_of (@send_to_openclaw source_config reply_without_result
                      (py "lights on. Reply in voice mode.") (with_recording true init))
       ++ [Log WARNING "⚠️  No response from OpenClaw" []]
       ++ [Log INFO "Ready for next wake word..." []].
Proof.
  split; [discriminate|].
  apply (@cycle_is_the_sequence_of_its_parts source_config tone_played (py " lights on ")
           reply_without_result file_missing init).
  discriminate.
Defined.

(** * The tone *)

(** X7.  [play_wake_feedback] makes one temporary file in every world; it
    runs aplay once and unlinks the file once exactly when the file was
    made and the tone written into it, so that a file made but not
    written is left behind; it logs one warning when the tone was not
    heard (the file not made or not written, aplay raising or exiting
    with another status than 0) and none when it was, and never an
    error. *)
Theorem tone_file_is_unlinked_once_written (w : feedback_world) (s : service) :
  let t := trace_of (play_wake_feedback w s) in
  count is_tempfile t = 1%nat
  /\ count is_run t = (if tone_written w then 1 else 0)%nat
  /\ count is_unlink t = (if tone_written w then 1 else 0)%nat
  /\ count (is_log_at WARNING) t = (if tone_heard w then 0 else 1)%nat
  /\ count (is_log_at ERROR) t = 0%nat.
Proof.
  destruct w as [[n|k t] [[]|k2 t2] [[rc out err]|k3 t3] [[]|k4 t4]];
    try destruct k3;
    cbv -[Z.eqb]; try destruct (rc =? 0); repeat split; reflexivity.
Qed.

(** * The flag and the cycle *)

Section Flag.
Context {cfg : Config}.

Lemma step_flag_has_a_cycle sys a :
  flag_has_a_cycle sys -> flag_has_a_cycle (step sys a).
Proof.
  unfold flag_has_a_cycle, active_cycles. intros H. destruct a as [w|i|s']; cbn.
  - rewrite filter_app, length_app. cbn. intros R. specialize (H R). lia.
  - destruct (nth_error (workers sys) i) as [wk|] eqn:E; [|exact H].
    destruct (advance wk (self sys)) as [wk' s'] eqn:A. cbn.
    pose proof (@filter_cycling_replace i wk wk' _ E) as Hc.
    destruct wk as [w|w|w|]; cbn in A.
    + destruct (recording (self sys)) eqn:R; injection A as <- <-; cbn in *.
      * intros _. specialize (H eq_refl). lia.
      * rewrite R. discriminate.
    + injection A as <- <-. cbn in *. intros _. lia.
    + rewrite recording_cycle_run in A. injection A as <- <-. cbn. discriminate.
    + injection A as <- <-. cbn in *. intros R. specialize (H R). lia.
  - destruct s'; exact H.
Qed.

Lemma nth_error_replace_nth {A} i (x y : A) l :
  nth_error l i = Some x -> nth_error (replace_nth i y l) i = Some y.
Proof.
  revert i. induction l as [|z l IH]; intros [|i] H; cbn in *; try discriminate; auto.
Qed.

Lemma replace_nth_again {A} i (y z : A) l :
  replace_nth i z (replace_nth i y l) = replace_nth i z l.
Proof.
  revert i. induction l as [|x l IH]; intros [|i]; cbn; try reflexivity.
  rewrite IH. reflexivity.
Qed.

Lemma not_tested_replace_nth i wk l :
  forallb (fun wk => negb (tested wk)) l = true -> tested wk = false ->
  forallb (fun wk => negb (tested wk)) (replace_nth i wk l) = true.
Proof.
  revert i. induction l as [|x l IH]; intros [|i] H Hwk; cbn in *; try reflexivity.
  - apply andb_prop in H as [_ H]. rewrite Hwk, H. reflexivity.
  - apply andb_prop in H as [Hx H]. rewrite Hx, (IH i H Hwk). reflexivity.
Qed.

Lemma not_tested_nth_error i wk l :
  forallb (fun wk => negb (tested wk)) l = true -> nth_error l i = Some wk ->
  tested wk = false.
Proof.
  intros H E. apply nth_error_In in E. rewrite forallb_forall in H.
  specialize (H wk E). now destruct (tested wk).
Qed.

Lemma cycling_nth_error i w l :
  nth_error l i = Some (Cycling w) -> (1 <= List.length (filter cycling l))%nat.
Proof.
  revert i. induction l as [|x l IH]; intros [|i] E; cbn in *; try discriminate.
  - injection E as ->. cbn. lia.
  - specialize (IH i E). destruct (cycling x); cbn; lia.
Qed.

(** A turn of an unbroken schedule keeps the flag and the cycle together. *)
Lemma unbroken_turn sys t :
  none_tested sys /\ active_cycles sys = (if recording (self sys) then 1 else 0)%nat ->
  let sys' := run_system (unbroken t) sys in
  none_tested sys' /\ active_cycles sys' = (if recording (self sys') then 1 else 0)%nat.
Proof.
  unfold none_tested, active_cycles. intros [Hn Hf]. destruct t as [w|i|s']; cbn.
  - split.
    + rewrite forallb_app, Hn. reflexivity.
    + rewrite filter_app, length_app. cbn. lia.
  - destruct (nth_error (workers sys) i) as [wk|] eqn:E; cbn; [|rewrite E; auto].
    pose proof (not_tested_nth_error _ _ Hn E) as Hwk.
    destruct wk as [w|w|w|]; try discriminate; cbn.
    + destruct (recording (self sys)) eqn:R; cbn.
      * rewrite (nth_error_replace_nth _ _ _ E). cbn. rewrite replace_nth_again, R.
        pose proof (@filter_cycling_replace i _ Finished _ E) as Hc. cbn in Hc.
        split; [apply not_tested_replace_nth; auto|lia].
      * rewrite (nth_error_replace_nth _ _ _ E). cbn. rewrite replace_nth_again.
        pose proof (@filter_cycling_replace i _ (Cycling w) _ E) as Hc. cbn in Hc.
        split; [apply not_tested_replace_nth; auto|lia].
    + rewrite (nth_error_replace_nth _ _ _ E). cbn. rewrite replace_nth_again.
      rewrite recording_cycle_run. cbn.
      pose proof (@filter_cycling_replace i _ Finished _ E) as Hc. cbn in Hc.
      pose proof (cycling_nth_error _ _ E) as H1.
      split; [apply not_tested_replace_nth; auto|].
      destruct (recording (self sys)); lia.
    + rewrite (nth_error_replace_nth _ _ _ E). cbn. rewrite replace_nth_again.
      pose proof (@filter_cycling_replace i _ Finished _ E) as Hc. cbn in Hc.
      split; [apply not_tested_replace_nth; auto|lia].
  - split; [exact Hn|]. destruct s'; exact Hf.
Qed.

Lemma run_system_app acts1 acts2 sys :
  run_system (acts1 ++ acts2) sys = run_system acts2 (run_system acts1 sys).
Proof. apply fold_left_app. Qed.

(** X8.  Under every interleaving of triggers, worker steps (the test of
    the guard, its assignment, the cycle) and main-thread assignments, a
    set flag has its cycle: [recording] is never left set with no worker
    inside a cycle, so that no trigger is dropped for a cycle that is not
    there.  And the flag does its work whenever no guard is broken: under
    every schedule in which a worker runs the two statements of its guard
    back to back, the flag is set exactly while one worker is inside a
    cycle, and never more than one is. *)
Theorem flag_is_never_left_set (acts : list action) (turns : list turn) :
  let sys := run_system acts idle in
  let sys' := run_system (flat_map unbroken turns) idle in
  (recording (self sys) = true -> (1 <= active_cycles sys)%nat)
  /\ active_cycles sys' = (if recording (self sys') then 1 else 0)%nat
  /\ (active_cycles sys' <= 1)%nat.
Proof.
  cbv zeta. split.
  - assert (H : forall sys, flag_has_a_cycle sys -> flag_has_a_cycle (run_system acts sys)).
    { induction acts as [|a acts IH]; intros sys Hsys; cbn; [exact Hsys|].
      apply IH, step_flag_has_a_cycle, Hsys. }
    apply H. intros R. discriminate.
  - assert (H : forall sys,
               none_tested sys
               /\ active_cycles sys = (if recording (self sys) then 1 else 0)%nat ->
               let sys' := run_system (flat_map unbroken turns) sys in
               none_tested sys'
               /\ active_cycles sys' = (if recording (self sys') then 1 else 0)%nat).
    { induction turns as [|t turns IH]; intros sys Hsys; cbn [flat_map]; [exact Hsys|].
      cbv zeta. rewrite run_system_app. apply IH, unbroken_turn, Hsys. }
    destruct (H idle) as [_ Hf]; [split; reflexivity|].
    split; [exact Hf|]. rewrite Hf. destruct (recording _); lia.
Qed.

End Flag.

(** * The turn of the loop in every world *)

Lemma play_wake_feedback_counts (w : feedback_world) (s : service) :
  let t := trace_of (play_wake_feedback w s) in
  count is_tempfile t = 1%nat
  /\ count (is_log_at ERROR) t = 0%nat
  /\ count is_sleep t = 0%nat.
Proof.
  destruct w as [[n|k t] [[]|k2 t2] [[rc out err]|k3 t3] [[]|k4 t4]];
    try destruct k3;
    cbv -[Z.eqb]; try destruct (rc =? 0); repeat split; reflexivity.
Qed.

Section Turn.
Context {cfg : Config}.

Lemma poll_turn_frame_run (w : frame_world) (last_run : float) (s : service) :
  let run := poll_turn (Frame w) last_run s in
  result_of run = Ok (if triggers w last_run then fw_stamp w else last_run)
  /\ service_of run = s
  /\ count is_spawn (trace_of run) = (if triggers w last_run then 1 else 0)%nat
  /\ count is_tempfile (trace_of run) = (if triggers w last_run then 1 else 0)%nat
  /\ count (is_log_at ERROR) (trace_of run) = (if running s && frame_fails w then 1 else 0)%nat
  /\ count is_sleep (trace_of run) = (if running s && frame_fails w then 1 else 0)%nat.
Proof.
  destruct w as [[[]|k ktext] [predictions|k2 ktext2] now fb stamp];
    unfold triggers, frame_fails; cbn [fw_read fw_predict fw_now fw_stamp returned negb orb].
  - rewrite andb_false_r.
    destruct (lookup WAKE_WORD predictions) as [confidence|] eqn:Hlookup.
    + cbv zeta.
      rewrite (@poll_turn_frame _ {| fw_read := Returns tt; fw_predict := Returns predictions;
                                    fw_now := now; fw_feedback := fb; fw_stamp := stamp |}
                 predictions confidence last_run s eq_refl eq_refl Hlookup).
      cbn [fw_now fw_stamp].
      destruct (score_gt confidence DETECTION_THRESHOLD); [|repeat split; reflexivity].
      destruct (float_gt _ WAKE_WORD_COOLDOWN); [|repeat split; reflexivity].
      cbn [andb result_of service_of trace_of fst snd]. unfold frame_trace.
      destruct (play_wake_feedback_counts fb s) as (Ht & He & Hs).
      pose proof (play_wake_feedback_no_spawn fb s) as Hn.
      cbn [fw_feedback].
      rewrite !count_app, Ht, He, Hs, Hn. repeat split; reflexivity.
    + unfold poll_turn, loop_except, poll_frame. cbn [fw_read fw_predict].
      cbv -[lookup float float_gt float_sub score_gt score_value play_wake_feedback app
            WAKE_WORD DETECTION_THRESHOLD CHUNK_SIZE WAKE_WORD_COOLDOWN count].
      rewrite Hlookup.
      repeat split; reflexivity.
  - rewrite andb_true_r. unfold poll_turn, loop_except, poll_frame. cbn [fw_read fw_predict].
    destruct k2; cbv -[CHUNK_SIZE running]; destruct (running s); repeat split; reflexivity.
  - rewrite andb_true_r. unfold poll_turn, loop_except, poll_frame. cbn [fw_read fw_predict].
    destruct k; cbv -[CHUNK_SIZE running]; destruct (running s); repeat split; reflexivity.
  - rewrite andb_true_r. unfold poll_turn, loop_except, poll_frame. cbn [fw_read fw_predict].
    destruct k; cbv -[CHUNK_SIZE running]; destruct (running s); repeat split; reflexivity.
Qed.

(** X9.  In every world a turn of the loop over a frame returns and
    leaves the object alone; it starts a thread, plays the tone and moves
    [last_run] to the new clock reading exactly when the frame triggers,
    and leaves [last_run] as it was otherwise: when the read or the
    detector raises, when the predictions lack the configured wake word,
    when the confidence is not above the threshold, when the cooldown has
    not passed.  A raising read or detector costs one error line and one
    sleep while the service runs, and nothing once it has been stopped. *)
Theorem last_run_moves_only_with_a_trigger
    (w : frame_world) (last_run : float) (s : service) :
  let run := poll_turn (Frame w) last_run s in
  result_of run = Ok (if triggers w last_run then fw_stamp w else last_run)
  /\ service_of run = s
  /\ count is_spawn (trace_of run) = (if triggers w last_run then 1 else 0)%nat
  /\ count is_tempfile (trace_of run) = (if triggers w last_run then 1 else 0)%nat
  /\ count (is_log_at ERROR) (trace_of run) = (if running s && frame_fails w then 1 else 0)%nat
  /\ count is_sleep (trace_of run) = (if running s && frame_fails w then 1 else 0)%nat.
Proof. exact (poll_turn_frame_run w last_run s). Qed.

(** The loop from the stamp of [w] over frames inside its cooldown. *)
Lemma poll_loop_inside_the_cooldown (w : frame_world) (s : service) :
  running s = true ->
  forall burst,
    forallb (fun w' => negb (float_gt (float_sub (fw_now w') (fw_stamp w)) WAKE_WORD_COOLDOWN))
            burst = true ->
    let run := poll_loop (map Frame burst) (fw_stamp w) s in
    result_of run = Ok (StillPolling (fw_stamp w))
    /\ count is_spawn (trace_of run) = 0%nat.
Proof.
  intros Hrun. induction burst as [|w' burst IH]; intros Hburst.
  - cbn. unfold M_bind. cbn. rewrite Hrun. split; reflexivity.
  - cbn [forallb] in Hburst. apply andb_prop in Hburst as [Hw' Hburst].
    specialize (IH Hburst). cbn zeta in IH. cbn [map]. cbv zeta.
    rewrite poll_loop_cons by exact Hrun. rewrite bind_run.
    destruct (poll_turn_frame_run w' (fw_stamp w) s) as (Hr & Hs & Hn & _).
    assert (Hno : triggers w' (fw_stamp w) = false).
    { unfold triggers. destruct (fw_read w'); [|reflexivity].
      destruct (fw_predict w'); [|reflexivity].
      destruct (lookup _ _); [|reflexivity].
      apply negb_true_iff in Hw'. rewrite Hw'. apply andb_false_r. }
    rewrite Hno in Hr, Hn.
    destruct (poll_turn (Frame w') (fw_stamp w) s) as [[t1 s1] r1].
    cbn [trace_of result_of service_of fst snd] in Hr, Hs, Hn. subst r1 s1.
    destruct IH as (IHr & IHn).
    destruct (poll_loop (map Frame burst) (fw_stamp w) s) as [[t2 s2] r2].
    cbn [trace_of result_of service_of fst snd] in IHr, IHn. subst r2.
    cbn [trace_of result_of fst snd]. split; [reflexivity|].
    rewrite count_app, Hn, IHn. reflexivity.
Qed.

(** X10.  A burst of frames inside the cooldown of a trigger starts no
    further thread and does not extend the cooldown: after the frame
    that triggers, frames whose clock reading is not more than the
    cooldown past its stamp leave [last_run] at that stamp, whatever
    they hold, and one thread has been started in all. *)
Theorem burst_inside_the_cooldown_starts_one_thread
    (w : frame_world) (burst : list frame_world) (last_run : float) (s : service) :
  running s = true ->
  triggers w last_run = true ->
  forallb (fun w' => negb (float_gt (float_sub (fw_now w') (fw_stamp w)) WAKE_WORD_COOLDOWN))
          burst = true ->
  let run := poll_loop (Frame w :: map Frame burst) last_run s in
  result_of run = Ok (StillPolling (fw_stamp w))
  /\ count is_spawn (trace_of run) = 1%nat.
Proof.
  intros Hrun Htrig Hburst.
  cbv zeta. rewrite poll_loop_cons by exact Hrun. rewrite bind_run.
  destruct (poll_turn_frame_run w last_run s) as (Hr & Hs & Hn & _).
  rewrite Htrig in Hr, Hn.
  destruct (poll_turn (Frame w) last_run s) as [[t1 s1] r1].
  cbn [trace_of result_of service_of fst snd] in Hr, Hs, Hn. subst r1 s1.
  destruct (@poll_loop_inside_the_cooldown w s Hrun burst Hburst) as (Qr & Qn).
  destruct (poll_loop (map Frame burst) (fw_stamp w) s) as [[t2 s2] r2].
  cbn [trace_of result_of service_of fst snd] in Qr, Qn. subst r2.
  cbn [trace_of result_of fst snd]. split; [reflexivity|].
  rewrite count_app, Hn, Qn. reflexivity.
Qed.

End Turn.

(** The wake word heard in three frames in a row, all at the same clock
    reading: one thread. *)
Lemma three_detections_in_a_row :
  running (with_running true init) = true
  /\ @triggers source_config frame_heard float_0 = true
  /\ count is_spawn
       (trace_of (@poll_loop source_config
                    [Frame frame_heard; Frame frame_heard; Frame frame_heard]
                    float_0 (with_running true init))) = 1%nat.
Proof.
  split; [reflexivity|]. split; [reflexivity|].
  exact (proj2 (@burst_inside_the_cooldown_starts_one_thread source_config frame_heard
                  [frame_heard; frame_heard] float_0 (with_running true init)
                  eq_refl eq_refl eq_refl)).
Defined.

(** * stop *)

(** X11.  When every call of the clean-up returns, [stop] closes the
    stream if there is one, terminates PyAudio if there is one, in that
    order and once each, and leaves the object with every handle cleared
    and [running] false.  A second [stop] on that object calls nothing,
    whatever the calls would do: it logs its two lines. *)
Theorem stop_releases_each_handle_once (s : service) (again : stop_world) :
  stop clean s
  = ([Log INFO "Stopping Voice Wake Service..." []]
     ++ (if audio_stream s then [CloseStream] else [])
     ++ (if pyaudio_instance s then [Terminate] else [])
     ++ [Log INFO "✅ Voice Wake Service stopped successfully" []],
     released s, Ok tt)
  /\ stop again (released s)
     = ([Log INFO "Stopping Voice Wake Service..." [];
         Log INFO "✅ Voice Wake Service stopped successfully" []],
        released s, Ok tt).
Proof.
  destruct s as [m mic run rec [|] [|]], m; split; reflexivity.
Qed.

(** X12.  [stop] has no [try]: when closing the stream raises, the
    exception leaves [stop] with [running] false and the stream, PyAudio
    and the model still set, PyAudio not terminated; when terminating
    PyAudio raises, PyAudio and the model are still set.  In every world
    and from every object [running] is false after [stop]. *)
Theorem failed_close_skips_the_rest_of_stop
    (s : service) (k : exn_kind) (text : pystr) (close terminate : outcome unit) :
  stop {| sw_close := Throws k text; sw_terminate := terminate |} (with_audio_stream true s)
  = ([Log INFO "Stopping Voice Wake Service..." []; CloseStream],
     with_running false (with_audio_stream true s), Raise (Exc k text))
  /\ stop {| sw_close := close; sw_terminate := Throws k text |}
       (with_pyaudio_instance true (with_audio_stream false s))
     = ([Log INFO "Stopping Voice Wake Service..." []; Terminate],
        with_running false (with_pyaudio_instance true (with_audio_stream false s)),
        Raise (Exc k text))
  /\ forall w s0, running (service_of (stop w s0)) = false.
Proof.
  split; [reflexivity|]. split; [reflexivity|].
  intros [[[]|k1 t1] [[]|k2 t2]] [m mic run rec [|] [|]]; destruct m; reflexivity.
Qed.

(** * start: the initialisers and the way out of the loop *)

Section Shutdown.
Context {cfg : Config}.

Lemma log_devices_logs devices : forall i s,
  exists t, log_devices i devices s = (t, s, Ok tt)
            /\ forallb (is_log_at INFO) t = true.
Proof.
  induction devices as [|[name channels] devices IH]; intros i s.
  - exists []. split; reflexivity.
  - destruct (IH (i + 1) s) as (t & E & Ht). cbn. unfold M_bind. cbn. rewrite E.
    eexists. split; [reflexivity|]. cbn. exact Ht.
Qed.

(** [start] when an initialiser fails. *)
Lemma start_fails_run (iw : init_world) (ticks : list tick) (s : service) :
  init_ok iw = false ->
  let run := start iw ticks s in
  let t := trace_of run in
  result_of run = Ok (Some false)
  /\ running (service_of run) = running s
  /\ audio_stream (service_of run) = audio_stream s
  /\ pyaudio_instance (service_of run) = pyaudio_created iw || pyaudio_instance s
  /\ count is_read_frame t = 0%nat
  /\ count (is_log_at ERROR) t = 2%nat
  /\ count is_new_microphone t = (if returned (iw_model iw) then 1 else 0)%nat
  /\ count is_new_pyaudio t
     = (if returned (iw_model iw) && returned (iw_microphone iw) && returned (iw_adjust iw)
        then 1 else 0)%nat
  /\ count is_close_stream t = 0%nat
  /\ count is_terminate t = 0%nat.
Proof.
  destruct s as [m mic run rec stream pa].
  destruct iw as [[names|k1 t1] [[]|k2 t2] [[]|k3 t3] [[]|k4 t4] [devices|k5 t5] [[]|k6 t6]];
    cbn; try discriminate; intros _.
  all: try destruct names.
  all: try (destruct (log_devices_logs devices 0
              (with_pyaudio_instance true
                 (with_microphone true
                    (with_wake_word_model true
                       {| wake_word_model := m; microphone := mic; running := run;
                          recording := rec; audio_stream := stream;
                          pyaudio_instance := pa |})))) as (td & Ed & Hd);
            assert (Hcount : forall q, (forall ev, is_log_at INFO ev = true -> q ev = false) ->
                                       count q td = 0%nat)
              by (intros q; apply count_zero_of_forallb; exact Hd);
            assert (C1 : count is_read_frame td = 0%nat) by (apply Hcount; by_event);
            assert (C2 : count (is_log_at ERROR) td = 0%nat) by (apply Hcount; by_event);
            assert (C3 : count is_new_microphone td = 0%nat) by (apply Hcount; by_event);
            assert (C4 : count is_new_pyaudio td = 0%nat) by (apply Hcount; by_event);
            assert (C5 : count is_close_stream td = 0%nat) by (apply Hcount; by_event);
            assert (C6 : count is_terminate td = 0%nat) by (apply Hcount; by_event);
            clear Hcount Hd).
  all: unfold start, initialize_wake_word_detection, initialize_speech_recognition,
         initialize_audio_stream.
  all: cbv -[poll_loop log_devices app count with_pyaudio_instance with_microphone
             with_wake_word_model with_running with_audio_stream py
             ENABLE_TTS WAKE_WORD is_read_frame is_log_at is_new_microphone
             is_new_pyaudio is_close_stream is_terminate].
  all: rewrite ?Ed.
  all: cbv -[poll_loop app count py ENABLE_TTS WAKE_WORD is_read_frame is_log_at
             is_new_microphone is_new_pyaudio is_close_stream is_terminate].
  all: repeat split; try reflexivity.
  all: repeat first [rewrite count_cons | rewrite count_app].
  all: rewrite ?C1, ?C2, ?C3, ?C4, ?C5, ?C6; reflexivity.
Qed.

(** X13.  When one of the three initialisers fails, [start] returns
    [False] without raising, whatever the exception: it logs two errors
    (the initialiser's and its own), calls no later initialiser (no
    microphone is made once the model has failed, no PyAudio once the
    speech recognition has), reads no frame, and leaves [running] and the
    stream as they were. *)
Theorem start_fails_fast (iw : init_world) (ticks : list tick) (s : service) :
  init_ok iw = false ->
  let run := start iw ticks s in
  let t := trace_of run in
  result_of run = Ok (Some false)
  /\ running (service_of run) = running s
  /\ audio_stream (service_of run) = audio_stream s
  /\ count is_read_frame t = 0%nat
  /\ count (is_log_at ERROR) t = 2%nat
  /\ count is_new_microphone t = (if returned (iw_model iw) then 1 else 0)%nat
  /\ count is_new_pyaudio t
     = (if returned (iw_model iw) && returned (iw_microphone iw) && returned (iw_adjust iw)
        then 1 else 0)%nat.
Proof.
  intros Hinit.
  destruct (start_fails_run iw ticks s Hinit)
    as (Hr & Hrun & Hstream & _ & C1 & C2 & C3 & C4 & _).
  cbv zeta. repeat split; assumption.
Qed.

Lemma poll_turn_frame_events w last_run : tame no_cleanup (poll_turn (Frame w) last_run).
Proof.
  unfold poll_turn, loop_except, poll_frame.
  repeat (tame_step || split_tests).
Qed.

(** The loop over frames, then the rest of the ticks. *)
Lemma poll_loop_frames_then frames : forall last_run s,
  running s = true -> forallb is_frame frames = true ->
  exists t last_run',
    (forall rest,
       poll_loop (frames ++ rest) last_run s
       = let '(t2, s2, r) := poll_loop rest last_run' s in (t ++ t2, s2, r))
    /\ count is_read_frame t = List.length frames
    /\ forallb no_cleanup t = true.
Proof.
  induction frames as [|[w|sig sw|w p sig sw|sig sw] frames IH]; intros last_run s Hrun Hframes.
  - exists [], last_run. split; [|split; reflexivity].
    intros rest. cbn [app]. destruct (poll_loop rest last_run s) as [[t2 s2] r]. reflexivity.
  - destruct (poll_turn_frame_reads_once w last_run s) as (t1 & lr1 & E1 & H1).
    pose proof (poll_turn_frame_events w last_run s) as (Hev & _).
    rewrite E1 in Hev. cbn [trace_of fst] in Hev.
    destruct (IH lr1 s Hrun Hframes) as (t2 & lr2 & E2 & H2 & Hev2).
    exists ((ReadFrame CHUNK_SIZE :: t1) ++ t2), lr2. split; [|split].
    + intros rest. cbn [app]. rewrite poll_loop_cons by exact Hrun.
      rewrite bind_run, E1, E2.
      destruct (poll_loop rest lr2 s) as [[t3 s3] r]. rewrite <- app_assoc. reflexivity.
    + rewrite count_app, count_cons, H1, H2. reflexivity.
    + rewrite forallb_app, Hev. exact Hev2.
  - discriminate.
  - discriminate.
  - discriminate.
Qed.

Lemma initialize_wake_word_detection_events names devices s :
  exists t,
    initialize_wake_word_detection (all_ready names devices) s
    = (t, with_wake_word_model true s, Ok true)
    /\ forallb init_event t = true.
Proof. destruct names; eexists; split; reflexivity. Qed.

Lemma initialize_speech_recognition_events names devices s :
  exists t,
    initialize_speech_recognition (all_ready names devices) s
    = (t, with_microphone true s, Ok true)
    /\ forallb init_event t = true.
Proof. eexists; split; reflexivity. Qed.

Lemma initialize_audio_stream_events names devices s :
  exists t,
    initialize_audio_stream (all_ready names devices) s
    = (t, with_audio_stream true (with_pyaudio_instance true s), Ok true)
    /\ forallb init_event t = true.
Proof.
  destruct (log_devices_logs devices 0 (with_pyaudio_instance true s)) as (td & Ed & Hd).
  unfold initialize_audio_stream, all_ready.
  cbv -[log_devices app with_pyaudio_instance with_audio_stream py forallb init_event].
  rewrite Ed. eexists; split; [reflexivity|].
  rewrite !forallb_app.
  rewrite (@forallb_weaken (is_log_at INFO) init_event td) by (by_event || exact Hd).
  reflexivity.
Qed.

(** [start] once the initialisers have succeeded, on every list of
    ticks: what comes before the loop reads no frame and cleans nothing
    up. *)
Lemma start_prefix names devices s :
  exists t0,
    (forall ticks,
       start (all_ready names devices) ticks s
       = match poll_loop ticks float_0 (ready s) with
         | (t, s', Ok LoopLeft) =>
             (t0 ++ t ++ [Log INFO "Voice Wake Service stopped" []], s', Ok (Some true))
         | (t, s', Ok (StillPolling _)) => (t0 ++ t, s', Ok None)
         | (t, s', Raise e) =>
             if is_Exception e
             then (t0 ++ t ++ [Log ERROR "Fatal error in main loop: {}" [AExn e]], s',
                   Ok (Some false))
             else (t0 ++ t, s', Raise e)
         end)
    /\ forallb init_event t0 = true.
Proof.
  destruct (initialize_wake_word_detection_events names devices s) as (t1 & E1 & H1).
  destruct (initialize_speech_recognition_events names devices (with_wake_word_model true s))
    as (t2 & E2 & H2).
  destruct (initialize_audio_stream_events names devices
              (with_microphone true (with_wake_word_model true s))) as (t3 & E3 & H3).
  exists ([Log INFO "🚀 Starting Voice Wake Service with TTS..." []] ++ t1 ++ t2 ++ t3
          ++ [Log INFO "✅ All components initialized successfully" [];
              Log INFO "🎯 Say '{}' to wake up, then speak your command" [AStr WAKE_WORD];
              Log INFO "🔊 TTS is {}"
                [AStr (if ENABLE_TTS then py "enabled" else py "disabled")]]).
  split.
  - intros ticks. unfold start.
    erewrite bind_ok by reflexivity.
    erewrite bind_ok by exact E1. cbn [negb].
    erewrite bind_ok by exact E2. cbn [negb].
    erewrite bind_ok by exact E3. cbn [negb].
    do 4 (erewrite bind_ok by reflexivity).
    unfold try_except. rewrite bind_run. fold (ready s).
    destruct (poll_loop ticks float_0 (ready s)) as [[t s'] [[|lr]|[k text|code]]];
      cbn -[py]; repeat rewrite <- app_assoc; cbn -[py]; rewrite ?app_nil_r; reflexivity.
  - rewrite !forallb_app, H1, H2, H3. reflexivity.
Qed.

(** ** A signal in the loop *)

(** With no signal, the methods with their points are the methods. *)
Lemma play_wake_feedback_at_quiet w s :
  play_wake_feedback_at quiet w s = play_wake_feedback w s.
Proof.
  destruct w as [[f|k1 x1] [[]|k2 x2] [[rc out err]|k3 x3] [[]|k4 x4]]; try destruct k3.
  all: cbv -[Z.eqb]; try destruct (rc =? 0); reflexivity.
Qed.

(** With no signal the turn with its points is the turn. *)
Lemma poll_turn_quiet w last_run s :
  try_except (poll_frame_at quiet w last_run) (loop_except_at quiet last_run) s
  = poll_turn (Frame w) last_run s.
Proof.
  pose proof (play_wake_feedback_at_quiet (fw_feedback w) s) as Hq.
  destruct w as [[[]|k ktext] [predictions|k2 ktext2] now fb stamp]; cbn [fw_feedback] in Hq.
  all: unfold poll_turn, loop_except, loop_except_at, poll_frame, poll_frame_at.
  all: cbn [fw_read fw_predict fw_now fw_feedback fw_stamp].
  all: remember (play_wake_feedback_at quiet fb) as tone eqn:Etone.
  all: cbv -[lookup float float_gt float_sub score_gt score_value play_wake_feedback
             app running WAKE_WORD DETECTION_THRESHOLD CHUNK_SIZE WAKE_WORD_COOLDOWN py].
  2-4: destruct (running s); reflexivity.
  destruct (lookup WAKE_WORD predictions) as [confidence|]; [|reflexivity].
  destruct (score_gt confidence DETECTION_THRESHOLD); [|reflexivity].
  destruct (float_gt _ WAKE_WORD_COOLDOWN); [|reflexivity].
  subst tone. rewrite Hq. destruct (play_wake_feedback fb s) as [[t1 s1] [[]|e]]; [reflexivity|].
  destruct e; [|reflexivity]. destruct (running s1); reflexivity.
Qed.

(** Runs a method to the next test that is stuck, and decides it. *)
Ltac run_tone H :=
  repeat first
    [ rewrite H
    | progress cbv -[_signal_handler app filter Z.eqb py reads_or_cleans]
    | match goal with
      | |- context [if ?rc =? 0 then _ else _] => destruct (rc =? 0)
      | |- context [match ?k with TimeoutExpired => _ | _ => _ end] => is_var k; destruct k
      | |- context [match ?e with Exc _ _ => _ | SystemExit _ => _ end] => is_var e; destruct e
      end ].

(** The handler in [play_wake_feedback]: when the run passes the point,
    what leaves the method is what its [except] clauses let through, and
    the object is as the handler left it; otherwise the run is that of
    the method. *)
Lemma tone_interrupted (sig : Z) (sw : stop_world) (s s' : service) (th : list event) (e : exn)
    (w : feedback_world) (p : point) :
  _signal_handler sw sig s = (th, s', Raise e) ->
  let run := play_wake_feedback_at (delivered p sig sw) w s in
  if tone_passes w p then
    raised (result_of run) = leaves_tone p e
    /\ service_of run = s'
    /\ filter reads_or_cleans (trace_of run) = filter reads_or_cleans th
  else run = play_wake_feedback w s.
Proof.
  intros Hh.
  destruct w as [[f|k1 x1] [[]|k2 x2] [[rc out err]|k3 x3] [[]|k4 x4]].
  all: destruct p.
  all: cbv -[_signal_handler app filter Z.eqb py reads_or_cleans].
  all: try reflexivity.
  all: run_tone Hh.
  all: try reflexivity.
  all: repeat split; try reflexivity.
  all: rewrite ?filter_app; cbn; rewrite ?app_nil_r; reflexivity.
Qed.

Lemma play_wake_feedback_reads_nothing w s :
  filter reads_or_cleans (trace_of (play_wake_feedback w s)) = [].
Proof.
  destruct w as [[f|k1 x1] [[]|k2 x2] [[rc out err]|k3 x3] [[]|k4 x4]]; try destruct k3.
  all: cbv -[Z.eqb]; try destruct (rc =? 0); reflexivity.
Qed.

Ltac run_turn Hh Hrun Hrun' :=
  repeat first
    [ rewrite Hh
    | rewrite Hrun
    | rewrite Hrun'
    | progress cbv -[lookup float float_gt float_sub score_gt score_value app filter
                     reads_or_cleans _signal_handler running
                     WAKE_WORD DETECTION_THRESHOLD CHUNK_SIZE WAKE_WORD_COOLDOWN py]
    | match goal with
      | |- context [match ?e with Exc _ _ => _ | SystemExit _ => _ end] => is_var e; destruct e
      end ].

(** The turn in which the handler runs. *)
Lemma turn_interrupted (sig : Z) (sw : stop_world) (s s' : service) (th : list event) (e : exn)
    (w : frame_world) (p : point) (last_run : float) :
  _signal_handler sw sig s = (th, s', Raise e) ->
  running s = true -> running s' = false ->
  let run := poll_turn (Interrupted w p sig sw) last_run s in
  raised (result_of run) = leaves_turn (region_at w last_run p) e
  /\ service_of run = s'
  /\ filter reads_or_cleans (trace_of run)
     = ReadFrame CHUNK_SIZE :: filter reads_or_cleans th.
Proof.
  intros Hh Hrun Hrun'.
  pose proof (@tone_interrupted sig sw s s' th e (fw_feedback w) p Hh) as Ht.
  pose proof (feedback_tone_runs (fw_feedback w) s) as (Hr & Hs & _).
  pose proof (play_wake_feedback_reads_nothing (fw_feedback w) s) as Hf.
  cbv zeta in Ht.
  destruct w as [[[]|k ktext] [predictions|k2 ktext2] now fb stamp].
  all: cbn [fw_feedback] in Ht, Hr, Hs, Hf.
  all: cbv zeta; unfold region_at, passes, detects, triggers, frame_fails, poll_turn,
         poll_frame_at, loop_except_at.
  all: cbn [fw_read fw_predict fw_now fw_feedback fw_stamp returned negb orb andb].
  all: remember (play_wake_feedback_at (delivered p sig sw) fb) as tone eqn:Etone.
  2-4: clear Ht Hr Hs Hf; destruct p; run_turn Hh Hrun Hrun';
       repeat split; rewrite ?filter_app; cbn; rewrite ?app_nil_r; reflexivity.
  destruct (lookup WAKE_WORD predictions) as [confidence|] eqn:Hlookup.
  2: { clear Ht Hr Hs Hf; destruct p; run_turn Hh Hrun Hrun'; rewrite ?Hlookup;
       run_turn Hh Hrun Hrun'.
       all: repeat split; rewrite ?filter_app; cbn; rewrite ?app_nil_r; reflexivity. }
  destruct (score_gt confidence DETECTION_THRESHOLD) eqn:Hgt.
  2: { clear Ht Hr Hs Hf; destruct p; run_turn Hh Hrun Hrun'; rewrite ?Hlookup;
       run_turn Hh Hrun Hrun'; rewrite ?Hgt; run_turn Hh Hrun Hrun'.
       all: repeat split; rewrite ?filter_app; cbn; rewrite ?app_nil_r; reflexivity. }
  destruct (float_gt (float_sub now last_run) WAKE_WORD_COOLDOWN) eqn:Hcool.
  2: { clear Ht Hr Hs Hf; destruct p; run_turn Hh Hrun Hrun'; rewrite ?Hlookup;
       run_turn Hh Hrun Hrun'; rewrite ?Hgt; run_turn Hh Hrun Hrun'; rewrite ?Hcool;
       run_turn Hh Hrun Hrun'.
       all: repeat split; rewrite ?filter_app; cbn; rewrite ?app_nil_r; reflexivity. }
  destruct p.
  all: cbn [tone_passes andb] in Ht |- *.
  all: try (match type of Ht with (if ?c then _ else _) => destruct c eqn:Hpass end).
  all: run_turn Hh Hrun Hrun'; rewrite ?Hlookup; run_turn Hh Hrun Hrun';
       rewrite ?Hgt; run_turn Hh Hrun Hrun'; rewrite ?Hcool; run_turn Hh Hrun Hrun'.
  all: first
         [ rewrite Ht; destruct (play_wake_feedback fb s) as [[tt ss] rr];
           cbn [result_of service_of trace_of fst snd] in Hr, Hs, Hf; subst rr ss
         | destruct (tone s) as [[tt ss] [[]|e']];
           cbn [result_of service_of trace_of fst snd raised leaves_tone] in Ht;
           destruct Ht as (Hraised & Hss & Hft); subst ss;
           try destruct e as [k text|code]; cbn in Hraised;
           first [discriminate | injection Hraised as -> | idtac]
         | idtac ].
  all: run_turn Hh Hrun Hrun'.
  all: repeat split; rewrite ?filter_app, ?Hf, ?Hft; cbn; rewrite ?app_nil_r; try reflexivity.
Qed.

Lemma handler_run sig sw s :
  _signal_handler sw sig s
  = (Log INFO "Received signal {}, shutting down gracefully..." [AInt sig]
       :: trace_of (stop sw s),
     service_of (stop sw s), Raise (raised_by_handler (result_of (stop sw s)))).
Proof.
  unfold _signal_handler. erewrite bind_ok by reflexivity. rewrite bind_run.
  destruct (stop sw s) as [[t s'] [[]|e]]; cbn; rewrite ?app_nil_r; reflexivity.
Qed.

Lemma stop_clears_running sw s : running (service_of (stop sw s)) = false.
Proof.
  destruct s as [m mic run rec stream pa], sw as [[[]|k1 t1] [[]|k2 t2]].
  all: destruct stream, pa, m; reflexivity.
Qed.

Lemma stop_ready sw s :
  let halt := stop sw (ready s) in
  raised_by_handler (result_of halt)
  = (if cleaned sw then SystemExit 0
     else match sw_close sw, sw_terminate sw with
          | Throws k text, _ | _, Throws k text => Exc k text
          | _, _ => SystemExit 0
          end)
  /\ service_of halt
     = {| wake_word_model := negb (cleaned sw); microphone := true; running := false;
          recording := recording s; audio_stream := negb (returned (sw_close sw));
          pyaudio_instance := negb (cleaned sw) |}
  /\ filter reads_or_cleans (trace_of halt)
     = CloseStream :: (if returned (sw_close sw) then [Terminate] else []).
Proof.
  destruct s as [m mic run rec stream pa], sw as [[[]|k1 t1] [[]|k2 t2]].
  all: repeat split; reflexivity.
Qed.

Lemma poll_loop_signal_tick t rest last_run s :
  running s = true -> is_frame t = false ->
  let run := poll_loop (t :: rest) last_run s in
  let halt := stop (stop_world_of t) s in
  result_of run
  = match leaves_turn (region_of t last_run) (raised_by_handler (result_of halt)) with
    | None => Ok LoopLeft
    | Some e => Raise e
    end
  /\ service_of run = service_of halt
  /\ filter reads_or_cleans (trace_of run)
     = repeat (ReadFrame CHUNK_SIZE) (frames_read t)
       ++ filter reads_or_cleans (trace_of halt).
Proof.
  intros Hrun Ht. cbv zeta. rewrite poll_loop_cons by exact Hrun. rewrite bind_run.
  pose proof (stop_clears_running (stop_world_of t) s) as Hoff.
  destruct t as [w|sig sw|w p sig sw|sig sw]; [discriminate| | |];
    cbn [stop_world_of region_of frames_read repeat app] in *.
  - unfold poll_turn, loop_except. unfold try_except. rewrite bind_run, handler_run.
    destruct (stop sw s) as [[ts s'] [[]|[k text|code]]];
      cbn [trace_of service_of result_of fst snd raised_by_handler] in *.
    all: cbv -[poll_loop app filter reads_or_cleans running]; rewrite ?Hoff.
    all: rewrite ?poll_loop_stopped by exact Hoff.
    all: repeat split; rewrite ?app_nil_r; reflexivity.
  - destruct (@turn_interrupted sig sw s _ _ _ w p last_run (handler_run sig sw s) Hrun Hoff)
      as (Hr & Hs & Hf).
    destruct (poll_turn (Interrupted w p sig sw) last_run s) as [[t1 s1] [a|e1]];
      cbn [trace_of service_of result_of fst snd raised] in *; subst s1; rewrite <- Hr.
    + rewrite poll_loop_stopped by exact Hoff. cbn. rewrite app_nil_r.
      repeat split. exact Hf.
    + cbn. repeat split. exact Hf.
  - unfold poll_turn. rewrite bind_run, handler_run. cbn. repeat split.
Qed.

Lemma filter_reads_or_cleans_nil t :
  count is_read_frame t = 0%nat -> forallb no_cleanup t = true ->
  filter reads_or_cleans t = [].
Proof.
  induction t as [|ev t IH]; [reflexivity|].
  rewrite count_cons. cbn [forallb filter]. intros Hn Hc.
  apply andb_prop in Hc as (Hev & Hc).
  unfold reads_or_cleans, no_cleanup in *.
  destruct (is_read_frame ev); [discriminate|].
  destruct (is_close_stream ev); [discriminate|].
  destruct (is_terminate ev); [discriminate|].
  apply IH; assumption.
Qed.

Lemma init_events_filtered t :
  forallb init_event t = true -> filter reads_or_cleans t = [].
Proof.
  induction t as [|ev t IH]; [reflexivity|].
  cbn [forallb filter]. intros H. apply andb_prop in H as (Hev & H).
  unfold init_event, reads_or_cleans in *.
  destruct (is_read_frame ev || is_close_stream ev || is_terminate ev); [discriminate|].
  apply IH, H.
Qed.

Lemma count_filtered (P : event -> bool) t :
  (forall ev, P ev = true -> reads_or_cleans ev = true) ->
  count P t = count P (filter reads_or_cleans t).
Proof.
  intros H. induction t as [|ev t IH]; [reflexivity|].
  cbn [filter]. rewrite count_cons, IH.
  destruct (reads_or_cleans ev) eqn:E.
  - rewrite count_cons. reflexivity.
  - destruct (P ev) eqn:E'; [|reflexivity]. rewrite (H _ E') in E. discriminate.
Qed.

Lemma count_repeat_reads n :
  count is_read_frame (repeat (ReadFrame CHUNK_SIZE) n) = n
  /\ count is_close_stream (repeat (ReadFrame CHUNK_SIZE) n) = 0%nat
  /\ count is_terminate (repeat (ReadFrame CHUNK_SIZE) n) = 0%nat.
Proof.
  induction n as [|n (H1 & H2 & H3)]; [repeat split|].
  cbn [repeat]. rewrite !count_cons, H1, H2, H3. repeat split.
Qed.

(** The loop over frames, then the rest of the ticks. *)
Lemma poll_loop_frames_until frames : forall last_run s,
  running s = true -> forallb is_frame frames = true ->
  exists t,
    (forall rest,
       poll_loop (frames ++ rest) last_run s
       = let '(t2, s2, r) := poll_loop rest (last_run_after frames last_run) s in
         (t ++ t2, s2, r))
    /\ filter reads_or_cleans t = repeat (ReadFrame CHUNK_SIZE) (List.length frames).
Proof.
  induction frames as [|[w|sig sw|w p sig sw|sig sw] frames IH]; intros last_run s Hrun Hframes;
    try discriminate.
  - exists []. split; [|reflexivity].
    intros rest. cbn [app last_run_after].
    destruct (poll_loop rest last_run s) as [[t2 s2] r]. reflexivity.
  - destruct (poll_turn_frame_reads_once w last_run s) as (t1 & lr1 & E1 & H1).
    pose proof (poll_turn_frame_events w last_run s) as (Hev & _).
    pose proof (poll_turn_frame_run w last_run s) as (Hr & _).
    cbv zeta in Hr. rewrite E1 in Hev, Hr. cbn [trace_of result_of fst snd forallb] in Hev, Hr.
    injection Hr as ->.
    destruct (IH (if triggers w last_run then fw_stamp w else last_run) s Hrun Hframes)
      as (t2 & E2 & H2).
    exists ((ReadFrame CHUNK_SIZE :: t1) ++ t2). split.
    + intros rest. cbn [app last_run_after]. rewrite poll_loop_cons by exact Hrun.
      rewrite bind_run, E1, E2.
      destruct (poll_loop rest _ s) as [[t3 s3] r]. rewrite <- app_assoc. reflexivity.
    + rewrite filter_app. cbn [filter reads_or_cleans is_read_frame orb length repeat app].
      rewrite (filter_reads_or_cleans_nil t1 H1 Hev), H2. reflexivity.
Qed.

(** [start] over frames and then a signal. *)
Lemma start_signal_tick names devices frames t rest s :
  forallb is_frame frames = true -> is_frame t = false ->
  let run := start (all_ready names devices) (frames ++ t :: rest) s in
  let sw := stop_world_of t in
  result_of run = ending (region_of t (last_run_after frames float_0)) (cleaned sw)
  /\ service_of run = service_of (stop sw (ready s))
  /\ filter reads_or_cleans (trace_of run)
     = repeat (ReadFrame CHUNK_SIZE) (List.length frames + frames_read t)
       ++ CloseStream :: (if returned (sw_close sw) then [Terminate] else []).
Proof.
  intros Hframes Ht. cbv zeta.
  destruct (start_prefix names devices s) as (t0 & -> & H0).
  destruct (@poll_loop_frames_until frames float_0 (ready s) eq_refl Hframes) as (t1 & -> & H1).
  destruct (@poll_loop_signal_tick t rest (last_run_after frames float_0) (ready s)
              eq_refl Ht) as (Hr & Hs & Hf).
  destruct (stop_ready (stop_world_of t) s) as (He & _ & Hc).
  cbv zeta in Hr, Hs, Hf, He, Hc. rewrite He in Hr. rewrite Hc in Hf. clear He Hc.
  apply init_events_filtered in H0.
  destruct (poll_loop (t :: rest) _ (ready s)) as [[t2 s2] r2].
  cbn [trace_of service_of result_of fst snd] in Hr, Hs, Hf. subst r2 s2.
  destruct (region_of t _), (stop_world_of t) as [[[]|k1 x1] [[]|k2 x2]].
  all: cbn [leaves_turn cleaned returned sw_close sw_terminate andb is_Exception ending
            trace_of service_of result_of fst snd] in Hf |- *.
  all: repeat split.
  all: rewrite ?filter_app, H0, H1, Hf, repeat_app; cbn [filter app];
       rewrite ?app_nil_r, <- ?app_assoc; reflexivity.
Qed.

(** X14.  A signal in the loop ends it; how [start] is left depends on
    where the main thread is when the handler runs.  After frames and
    with the initialisers done, let the handler run at the start of a
    turn, at any point of a turn over a frame, or at the test of the
    [while], with any clean-up.  When [stop] goes through, [start] is
    left by [SystemExit] with status 0, unless the handler ran in the
    [try] around [os.unlink], whose bare [except] drops the exit: then
    [start] returns [True].  When a step of the clean-up raises, [start]
    returns [True] if the handler ran inside the [try] of the turn, and
    [False], through the [except] around the loop, if it ran in the
    [except] clause of the turn or at the test.  Either way the service
    no longer runs, the stream is closed once, PyAudio is terminated
    exactly when the close returned, a handle whose release was not
    reached is still set, and no frame is read after the turn of the
    signal. *)
Theorem signal_ends_the_loop
    (names : option pystr) (devices : list (pystr * Z)) (frames rest : list tick)
    (t : tick) (s : service) :
  forallb is_frame frames = true ->
  is_frame t = false ->
  let run := start (all_ready names devices) (frames ++ t :: rest) s in
  let closed := returned (sw_close (stop_world_of t)) in
  result_of run
  = ending (region_of t (last_run_after frames float_0)) (cleaned (stop_world_of t))
  /\ running (service_of run) = false
  /\ audio_stream (service_of run) = negb closed
  /\ pyaudio_instance (service_of run) = negb (cleaned (stop_world_of t))
  /\ count is_read_frame (trace_of run) = (List.length frames + frames_read t)%nat
  /\ count is_close_stream (trace_of run) = 1%nat
  /\ count is_terminate (trace_of run) = (if closed then 1 else 0)%nat.
Proof.
  intros Hframes Ht. cbv zeta.
  destruct (@start_signal_tick names devices frames t rest s Hframes Ht) as (Hr & Hs & Hf).
  destruct (stop_ready (stop_world_of t) s) as (_ & Hs' & _).
  cbv zeta in Hr, Hs, Hf, Hs'. rewrite Hs' in Hs.
  destruct (count_repeat_reads (List.length frames + frames_read t)) as (C1 & C2 & C3).
  rewrite Hr, Hs.
  rewrite (@count_filtered is_read_frame), (@count_filtered is_close_stream),
    (@count_filtered is_terminate), Hf, !count_app, C1, C2, C3
    by (intros ev H; unfold reads_or_cleans; rewrite H, ?orb_true_r; reflexivity).
  destruct (returned (sw_close (stop_world_of t))); cbn; repeat split; lia.
Qed.

Lemma first_signal ticks :
  forallb is_frame ticks = false ->
  exists frames t rest,
    ticks = frames ++ t :: rest /\ forallb is_frame frames = true /\ is_frame t = false.
Proof.
  induction ticks as [|t ticks IH]; intros H; [discriminate|].
  cbn [forallb] in H. destruct (is_frame t) eqn:Ht.
  - destruct (IH H) as (frames & t' & rest & -> & Hf & Ht').
    exists (t :: frames), t', rest. cbn [forallb]. rewrite Ht. repeat split; assumption.
  - exists [], t, ticks. repeat split. exact Ht.
Qed.

(** X15.  Once the initialisers have succeeded, only a signal ends
    [start]: over frames alone it has not returned, whatever the frames
    raise; with a signal among the ticks it is left by [SystemExit] with
    status 0 or it returns, with [running] false.  It returns [False]
    from the loop only when a step of the handler's clean-up raised while
    the main thread was outside the [try] of a turn; it never raises an
    [Exception] and never exits with another status. *)
Theorem start_is_left_only_by_a_signal
    (names : option pystr) (devices : list (pystr * Z)) (ticks : list tick) (s : service) :
  let run := start (all_ready names devices) ticks s in
  match result_of run with
  | Ok None => forallb is_frame ticks = true
  | Ok (Some true) | Raise (SystemExit 0) =>
      forallb is_frame ticks = false /\ running (service_of run) = false
  | Ok (Some false) =>
      running (service_of run) = false
      /\ exists frames t rest,
           ticks = frames ++ t :: rest
           /\ forallb is_frame frames = true
           /\ is_frame t = false
           /\ region_of t (last_run_after frames float_0) = OutsideTry
           /\ cleaned (stop_world_of t) = false
  | _ => False
  end.
Proof.
  cbv zeta. destruct (forallb is_frame ticks) eqn:Hticks.
  - destruct (start_prefix names devices s) as (t0 & -> & _).
    destruct (@poll_loop_frames _ ticks float_0 (ready s) eq_refl Hticks) as (t & lr & -> & _).
    reflexivity.
  - destruct (first_signal ticks Hticks) as (frames & t & rest & -> & Hframes & Ht).
    destruct (@start_signal_tick names devices frames t rest s Hframes Ht) as (Hr & Hs & _).
    cbv zeta in Hr, Hs. rewrite Hr.
    assert (Hoff : running (service_of (start (all_ready names devices)
                                          (frames ++ t :: rest) s)) = false)
      by (rewrite Hs; apply stop_clears_running).
    destruct (region_of t _) eqn:Hregion, (cleaned (stop_world_of t)) eqn:Hclean;
      cbn [ending]; try (split; [reflexivity|exact Hoff]).
    split; [exact Hoff|]. exists frames, t, rest. repeat split; assumption.
Qed.

End Shutdown.

(** Without a microphone [start] gives up before the loop. *)
Lemma start_without_a_microphone :
  init_ok no_microphone = false
  /\ result_of (@start source_config no_microphone [Frame frame_heard] init) = Ok (Some false).
Proof.
  split; [reflexivity|].
  exact (proj1 (@start_fails_fast source_config no_microphone [Frame frame_heard] init
                  eq_refl)).
Defined.

(** SIGTERM in the sleep after a frame that could not be read, with a
    stream that cannot be closed: [start] returns [False]. *)
Lemma sigterm_in_the_sleep :
  forallb is_frame [Frame frame_faint] = true
  /\ is_frame (Interrupted frame_lost InSleep 15 close_fails) = false
  /\ result_of (@start source_config (all_ready None [])
                  ([Frame frame_faint] ++ Interrupted frame_lost InSleep 15 close_fails
                                          :: [Frame frame_heard]) init)
     = Ok (Some false).
Proof.
  split; [reflexivity|]. split; [reflexivity|].
  exact (proj1 (@signal_ends_the_loop source_config None [] [Frame frame_faint]
                  [Frame frame_heard] (Interrupted frame_lost InSleep 15 close_fails)
                  init eq_refl eq_refl)).
Defined.

(** SIGTERM by where it finds the main thread: at the start of a turn and
    at the test of the [while] the process exits; inside the [try] around
    [os.unlink] the exit is dropped and [start] returns [True]. *)
Example sigterm_with_a_clean_stop :
  result_of (@start source_config (all_ready None []) [Signal 15 clean] init)
  = Raise (SystemExit 0)
  /\ result_of (@start source_config (all_ready None []) [SignalAtTest 15 clean] init)
     = Raise (SystemExit 0)
  /\ result_of (@start source_config (all_ready None [])
                  [Interrupted frame_heard AfterUnlink 15 clean] init)
     = Ok (Some true)
  /\ result_of (@start source_config (all_ready None [])
                  [Interrupted frame_heard AfterSpawn 15 clean] init)
     = Raise (SystemExit 0).
Proof. repeat split; vm_compute; reflexivity. Qed.

(** The same with a stream that cannot be closed. *)
Example sigterm_with_a_failing_stop :
  result_of (@start source_config (all_ready None []) [Signal 15 close_fails] init)
  = Ok (Some true)
  /\ result_of (@start source_config (all_ready None []) [SignalAtTest 15 close_fails] init)
     = Ok (Some false)
  /\ result_of (@start source_config (all_ready None [])
                  [Interrupted frame_heard AfterUnlink 15 close_fails] init)
     = Ok (Some true)
  /\ result_of (@start source_config (all_ready None [])
                  [Interrupted frame_lost InExcept 15 close_fails] init)
     = Ok (Some false).
Proof. repeat split; vm_compute; reflexivity. Qed.

(** * main *)

Section MainRuns.
Context {cfg : Config}.

(** [main] by the way [start] ends. *)
Lemma main_run (iw : init_world) (ticks : list tick) (final : stop_world) (s : service) :
  main {| mw_logging := Returns tt; mw_init := iw; mw_ticks := ticks; mw_stop := final |} s
  = let '(t, s', r) := start iw ticks init in
    let '(t2, s2, r2) := stop final s' in
    let ending (between : list event) (r : res (option unit)) :=
      (banner ++ t ++ between ++ t2, s2,
       match r2 with Ok _ => r | Raise e => Raise e end) in
    match r with
    | Ok None => (banner ++ t, s', Ok None)
    | Ok (Some true) => ending [] (Ok (Some tt))
    | Ok (Some false) =>
        ending [Log ERROR "Service failed to start properly" []] (Raise (SystemExit 1))
    | Raise (Exc k text) =>
        ending [Log ERROR "Unexpected error: {}" [AExn (Exc k text)]] (Raise (SystemExit 1))
    | Raise (SystemExit code) => ending [] (Raise (SystemExit code))
    end.
Proof.
  unfold main, setup_logging. cbn [mw_logging].
  do 5 (erewrite bind_ok by reflexivity).
  unfold main_try, finally, try_except. cbn [mw_init mw_ticks mw_stop].
  rewrite bind_run.
  destruct (start iw ticks init) as [[t s'] [[[|]|]|[k text|code]]];
    cbn -[stop times]; destruct (stop final s') as [[t2 s2] [[]|e2]];
    cbn -[times]; rewrite ?app_nil_r; repeat (rewrite <- app_assoc; cbn [app]); reflexivity.
Qed.

(** X16.  When an initialiser fails, [main] exits with status 1 whatever
    the clean-up of its [finally] does, from whatever object it was
    called: [stop] runs on the way out, no frame was read, no stream is
    closed since none was opened, and PyAudio is terminated exactly when
    it had been created. *)
Theorem failed_start_exits_with_status_1
    (iw : init_world) (ticks : list tick) (final : stop_world) (s : service) :
  init_ok iw = false ->
  let run := main {| mw_logging := Returns tt; mw_init := iw; mw_ticks := ticks;
                     mw_stop := final |} s in
  exit_status (result_of run) = Some 1
  /\ running (service_of run) = false
  /\ count is_read_frame (trace_of run) = 0%nat
  /\ count is_close_stream (trace_of run) = 0%nat
  /\ count is_terminate (trace_of run) = (if pyaudio_created iw then 1 else 0)%nat.
Proof.
  intros Hinit run. subst run. rewrite main_run.
  destruct (start_fails_run iw ticks init Hinit)
    as (Hr & _ & Hstream & Hpa & C1 & _ & _ & _ & C2 & C3).
  cbv zeta in Hr, Hstream, Hpa, C1, C2, C3.
  destruct (start iw ticks init) as [[t [m mic run rec stream pa]] r].
  cbn [result_of service_of trace_of fst snd audio_stream pyaudio_instance init] in *.
  rewrite orb_false_r in Hpa.
  subst r stream. rewrite <- Hpa. clear Hpa.
  destruct final as [[[]|k1 x1] [[]|k2 x2]], pa, m.
  all: cbn -[count app banner]; rewrite !count_app, C1, C2, C3.
  all: repeat split; reflexivity.
Qed.

(** X17.  A signal in the loop and the exit status of [main].  When
    [start] returns [False], that is when a step of the handler's
    clean-up raised while the main thread was outside the [try] of a
    turn, [main] exits with status 1 whatever its own [stop] does.
    Otherwise the handler's [stop] and the [stop] of the [finally] of
    [main] share the clean-up: what the first has released the second
    leaves alone, what the first left behind when it raised the second
    does again, and the status is 0 when the clean-up is completed by one
    or the other and 1 when the second [stop] raises.  The stream is
    closed once or, after a close that raised, twice; with a clean-up
    that goes through in [main] every handle is cleared at the end. *)
Theorem signal_exit_status
    (names : option pystr) (devices : list (pystr * Z)) (frames rest : list tick)
    (t : tick) (final : stop_world) (s : service) :
  forallb is_frame frames = true ->
  is_frame t = false ->
  let run := main {| mw_logging := Returns tt; mw_init := all_ready names devices;
                     mw_ticks := frames ++ t :: rest; mw_stop := final |} s in
  let sw := stop_world_of t in
  let fatal := match region_of t (last_run_after frames float_0) with
               | OutsideTry => negb (cleaned sw)
               | _ => false
               end in
  exit_status (result_of run)
  = Some (if fatal then 1
          else if (if returned (sw_close sw)
                   then returned (sw_terminate sw) || returned (sw_terminate final)
                   else cleaned final)
               then 0 else 1)
  /\ count is_read_frame (trace_of run) = (List.length frames + frames_read t)%nat
  /\ count is_close_stream (trace_of run) = (if returned (sw_close sw) then 1 else 2)%nat
  /\ (final = clean -> service_of run = released (ready init)).
Proof.
  intros Hframes Ht. cbv zeta. rewrite main_run.
  destruct (@start_signal_tick _ names devices frames t rest init Hframes Ht) as (Hr & Hs & Hf).
  destruct (stop_ready (stop_world_of t) init) as (_ & Hs' & _).
  cbv zeta in Hr, Hs, Hf, Hs'. rewrite Hs' in Hs. clear Hs'.
  destruct (count_repeat_reads (List.length frames + frames_read t)) as (C1 & C2 & _).
  assert (R1 : count is_read_frame
                 (trace_of (start (all_ready names devices) (frames ++ t :: rest) init))
               = (List.length frames + frames_read t)%nat).
  { rewrite (@count_filtered is_read_frame), Hf, count_app, C1
      by (intros ev H; unfold reads_or_cleans; rewrite H; reflexivity).
    destruct (returned _); cbn; lia. }
  assert (R2 : count is_close_stream
                 (trace_of (start (all_ready names devices) (frames ++ t :: rest) init))
               = 1%nat).
  { rewrite (@count_filtered is_close_stream), Hf, count_app, C2
      by (intros ev H; unfold reads_or_cleans; rewrite H, ?orb_true_r; reflexivity).
    destruct (returned _); reflexivity. }
  clear Hf C1 C2.
  destruct (start (all_ready names devices) (frames ++ t :: rest) init) as [[t1 s1] r1].
  cbn [trace_of service_of result_of fst snd] in Hr, Hs, R1, R2. subst r1 s1.
  destruct (region_of t _), (stop_world_of t) as [[[]|k1 x1] [[]|k2 x2]],
    final as [[[]|k3 x3] [[]|k4 x4]].
  all: cbn -[count app banner]; rewrite !count_app, R1, R2.
  all: repeat split; try reflexivity; try discriminate; cbn; lia.
Qed.


End MainRuns.

(** Without a microphone the process exits with status 1. *)
Lemma main_without_a_microphone :
  init_ok no_microphone = false
  /\ exit_status
       (result_of (@main source_config
                     {| mw_logging := Returns tt; mw_init := no_microphone;
                        mw_ticks := [Frame frame_heard]; mw_stop := clean |} init))
     = Some 1.
Proof.
  split; [reflexivity|].
  exact (proj1 (@failed_start_exits_with_status_1 source_config no_microphone
                  [Frame frame_heard] clean init eq_refl)).
Defined.

(** SIGTERM in the sleep after a frame that could not be read, with a
    stream that cannot be closed: the process exits with status 1, though
    the clean-up of [main] goes through. *)
Lemma main_after_sigterm_in_the_sleep :
  forallb is_frame [Frame frame_faint] = true
  /\ is_frame (Interrupted frame_lost InSleep 15 close_fails) = false
  /\ exit_status
       (result_of (@main source_config
                     {| mw_logging := Returns tt; mw_init := all_ready None [];
                        mw_ticks := [Frame frame_faint]
                                    ++ Interrupted frame_lost InSleep 15 close_fails :: [];
                        mw_stop := clean |} init))
     = Some 1.
Proof.
  split; [reflexivity|]. split; [reflexivity|].
  exact (proj1 (@signal_exit_status source_config None [] [Frame frame_faint] []
                  (Interrupted frame_lost InSleep 15 close_fails) clean init
                  eq_refl eq_refl)).
Defined.

(** SIGTERM at the start of a turn, with a clean-up that goes through:
    the process exits with status 0. *)
Example main_after_sigterm :
  exit_status
    (result_of (@main source_config
                  {| mw_logging := Returns tt; mw_init := all_ready None [];
                     mw_ticks := [Frame frame_faint; Signal 15 clean];
                     mw_stop := clean |} init))
  = Some 0.
Proof. vm_compute. reflexivity. Qed.

(** * test_setup.py: the verdict *)

Lemma bind_test_ok {A B} (c : TestSetup.T A) (f : A -> TestSetup.T B) t1 a :
  c = (t1, Ok a) ->
  (x <- c ;; f x) = (let '(t2, r) := f a in (t1 ++ t2, r)).
Proof. intros ->. reflexivity. Qed.

Lemma tallies_app t1 t2 :
  TestSetup.tallies (t1 ++ t2) = TestSetup.tallies t1 ++ TestSetup.tallies t2.
Proof.
  induction t1 as [|o t1 IH]; [reflexivity|]. cbn.
  destruct (TestSetup.tally o); cbn; rewrite IH; reflexivity.
Qed.

Lemma commands_run_app t1 t2 :
  TestSetup.commands_run (t1 ++ t2)
  = TestSetup.commands_run t1 ++ TestSetup.commands_run t2.
Proof.
  induction t1 as [|[] t1 IH]; cbn; rewrite ?IH; reflexivity.
Qed.

Lemma test_python_version_run w :
  exists t, TestSetup.test_python_version w = (t, Ok (TestSetup.python_ok w))
            /\ TestSetup.tallies t = []
            /\ TestSetup.commands_run t = [].
Proof.
  unfold TestSetup.test_python_version, TestSetup.python_ok.
  destruct (TestSetup.version_info w) as [[major minor] micro].
  destruct ((major =? 3) && (minor >=? 8)); eexists; repeat split; reflexivity.
Qed.

Lemma test_python_module_run w m :
  exists t, TestSetup.test_python_module w m = (t, Ok (TestSetup.module_ok w m))
            /\ TestSetup.tallies t = []
            /\ TestSetup.commands_run t = [].
Proof.
  unfold TestSetup.test_python_module, TestSetup.module_ok.
  destruct (TestSetup.find_spec w m) as [[|]|k text]; eexists; repeat split; reflexivity.
Qed.

Lemma test_system_command_run w c :
  exists t, TestSetup.test_system_command w c = (t, Ok (TestSetup.command_ok w c))
            /\ TestSetup.tallies t = []
            /\ TestSetup.commands_run t = [[py "which"; c]].
Proof.
  unfold TestSetup.test_system_command, TestSetup.command_ok, played.
  destruct (TestSetup.which w c) as [[rc out err]|k text]; cbn [returncode].
  - cbv -[Z.eqb strip py]. destruct (rc =? 0); eexists; repeat split; reflexivity.
  - eexists; repeat split; reflexivity.
Qed.

Lemma print_cards_run w lines :
  exists t, TestSetup.print_cards w lines = (t, Ok tt)
            /\ TestSetup.tallies t = []
            /\ TestSetup.commands_run t = [].
Proof.
  induction lines as [|line lines (t & E & Ht & Hc)].
  - exists []. repeat split.
  - cbn [TestSetup.print_cards].
    destruct (contains (py "card") (TestSetup.lower w line)).
    + erewrite bind_test_ok by reflexivity. rewrite E. eexists. split; [reflexivity|].
      split; [exact Ht|exact Hc].
    + erewrite bind_test_ok by reflexivity. rewrite E. eexists. split; [reflexivity|].
      split; [exact Ht|exact Hc].
Qed.

Lemma list_devices_run w command o found missing failed error :
  exists t,
    TestSetup.list_devices w command o found missing failed error
    = (t, Ok (if TestSetup.devices_listed w o then None else Some false))
    /\ TestSetup.tallies t = []
    /\ TestSetup.commands_run t = [[command; py "-l"]].
Proof.
  unfold TestSetup.list_devices, TestSetup.devices_listed.
  destruct o as [[rc out err]|k text]; cbn [returncode stdout].
  - destruct (rc =? 0) eqn:Hrc.
    + destruct (contains (py "card") (TestSetup.lower w out)) eqn:Hcard.
      * destruct (print_cards_run w (TestSetup.split_lines out)) as (t & E & Ht & Hc).
        cbv -[Z.eqb contains TestSetup.lower TestSetup.print_cards TestSetup.split_lines
              app py TestSetup.tallies TestSetup.commands_run].
        rewrite Hrc, Hcard, E. eexists. split; [reflexivity|]. split.
        -- cbn. rewrite tallies_app, Ht. reflexivity.
        -- cbn -[py]. rewrite commands_run_app, Hc. reflexivity.
      * cbv -[Z.eqb contains TestSetup.lower py TestSetup.tallies TestSetup.commands_run].
        rewrite Hrc, Hcard. eexists. repeat split; reflexivity.
    + cbv -[Z.eqb contains TestSetup.lower py TestSetup.tallies TestSetup.commands_run].
      rewrite Hrc. eexists. repeat split; reflexivity.
  - eexists. repeat split; reflexivity.
Qed.

Lemma test_audio_devices_run w :
  exists t, TestSetup.test_audio_devices w = (t, Ok (TestSetup.audio_ok w))
            /\ TestSetup.tallies t = []
            /\ TestSetup.commands_run t
               = [py "arecord"; py "-l"]
                 :: (if TestSetup.devices_listed w (TestSetup.arecord w)
                     then [[py "aplay"; py "-l"]] else []).
Proof.
  unfold TestSetup.test_audio_devices, TestSetup.audio_ok.
  destruct (list_devices_run w (py "arecord") (TestSetup.arecord w)
              "✅ Microphone devices found:" "⚠️  No microphone devices found"
              "❌ Could not list microphone devices" "❌ Error testing microphones: {}")
    as (t1 & E1 & H1 & C1).
  destruct (list_devices_run w (py "aplay") (TestSetup.aplay w)
              "✅ Speaker devices found:" "⚠️  No speaker devices found"
              "❌ Could not list speaker devices" "❌ Error testing speakers: {}")
    as (t2 & E2 & H2 & C2).
  erewrite bind_test_ok by reflexivity.
  erewrite bind_test_ok by exact E1.
  destruct (TestSetup.devices_listed w (TestSetup.arecord w)).
  - erewrite bind_test_ok by exact E2.
    destruct (TestSetup.devices_listed w (TestSetup.aplay w)).
    all: eexists; split; [reflexivity|].
    all: cbn [app andb TestSetup.tallies TestSetup.tally TestSetup.commands_run].
    all: rewrite !tallies_app, !commands_run_app, H1, H2, C1, C2; split; reflexivity.
  - eexists. split; [reflexivity|].
    cbn [app andb TestSetup.tallies TestSetup.tally TestSetup.commands_run].
    rewrite !tallies_app, !commands_run_app, H1, C1. split; reflexivity.
Qed.

Lemma test_internet_connection_run w :
  exists t, TestSetup.test_internet_connection w = (t, Ok (TestSetup.internet_ok w))
            /\ TestSetup.tallies t = []
            /\ TestSetup.commands_run t = [].
Proof.
  unfold TestSetup.test_internet_connection, TestSetup.internet_ok, returned.
  destruct (TestSetup.urlopen w) as [[]|k text]; eexists; repeat split; reflexivity.
Qed.

Lemma counted_run (test : TestSetup.T bool) t b tests_passed total_tests :
  test = (t, Ok b) ->
  TestSetup.counted test (tests_passed, total_tests)
  = (t, Ok (tests_passed + (if b then 1 else 0), total_tests + 1)).
Proof.
  intros ->. unfold TestSetup.counted. cbn. rewrite app_nil_r.
  destruct b; [reflexivity|]. rewrite Z.add_0_r. reflexivity.
Qed.

(** A loop of [main] over required tests: the counters afterwards. *)
Lemma for_each_counted {A} (test : A -> TestSetup.T bool) (ok : A -> bool)
    (commands : A -> list (list pystr)) (l : list A) :
  (forall x, exists t, test x = (t, Ok (ok x))
                       /\ TestSetup.tallies t = []
                       /\ TestSetup.commands_run t = commands x) ->
  forall tests_passed total_tests,
  exists t,
    TestSetup.for_each l (fun x => TestSetup.counted (test x)) (tests_passed, total_tests)
    = (t, Ok (tests_passed + fold_right (fun x n => (if ok x then 1 else 0) + n) 0 l,
              total_tests + Z.of_nat (List.length l)))
    /\ TestSetup.tallies t = []
    /\ TestSetup.commands_run t = flat_map commands l.
Proof.
  intros Htest. induction l as [|x l IH]; intros tests_passed total_tests.
  - exists []. cbn. rewrite !Z.add_0_r. repeat split.
  - destruct (Htest x) as (t1 & E1 & H1 & C1).
    destruct (IH (tests_passed + (if ok x then 1 else 0)) (total_tests + 1))
      as (t2 & E2 & H2 & C2).
    exists (t1 ++ t2). cbn [TestSetup.for_each].
    erewrite bind_test_ok by (apply counted_run; exact E1). rewrite E2.
    split; [|split].
    + f_equal. f_equal. f_equal; cbn [fold_right List.length]; lia.
    + rewrite tallies_app, H1, H2. reflexivity.
    + rewrite commands_run_app, C1, C2. reflexivity.
Qed.

(** The body of the loop over the optional commands. *)
Lemma optional_command_run w command :
  exists t,
    (ok <- TestSetup.test_system_command w command ;;
     if ok : bool then
       TestSetup.print "✅ {} is available (good for enhanced functionality)" [AStr command]
     else
       TestSetup.print "ℹ️  {} not found (optional, can enhance functionality)"
         [AStr command])
    = (t, Ok tt)
    /\ TestSetup.tallies t = []
    /\ TestSetup.commands_run t = [[py "which"; command]].
Proof.
  destruct (test_system_command_run w command) as (t & E & H & C).
  erewrite bind_test_ok by exact E.
  destruct (TestSetup.command_ok w command); eexists; (split; [reflexivity|]);
    rewrite tallies_app, commands_run_app, H, C; split; reflexivity.
Qed.

(** [main] by what the twelve tests return. *)
Lemma setup_main_run (w : TestSetup.world) :
  exists t,
    TestSetup.main w = (t, Ok (TestSetup.passing w =? 10))
    /\ TestSetup.tallies t = [(TestSetup.passing w, 10)]
    /\ TestSetup.commands_run t
       = map (fun command => [py "which"; command])
           (TestSetup.required_commands ++ TestSetup.optional_commands)
         ++ [py "arecord"; py "-l"]
            :: (if TestSetup.devices_listed w (TestSetup.arecord w)
                then [[py "aplay"; py "-l"]] else []).
Proof.
  destruct (test_python_version_run w) as (t1 & E1 & H1 & C1).
  destruct (for_each_counted (TestSetup.test_python_module w) (TestSetup.module_ok w)
              (fun _ => []) TestSetup.required_modules (test_python_module_run w)
              (0 + (if TestSetup.python_ok w then 1 else 0)) (0 + 1))
    as (t2 & E2 & H2 & C2).
  destruct (for_each_counted (TestSetup.test_system_command w) (TestSetup.command_ok w)
              (fun command => [[py "which"; command]]) TestSetup.required_commands
              (test_system_command_run w)
              (0 + (if TestSetup.python_ok w then 1 else 0)
               + fold_right (fun x n => (if TestSetup.module_ok w x then 1 else 0) + n) 0
                   TestSetup.required_modules)
              (0 + 1 + Z.of_nat (List.length TestSetup.required_modules)))
    as (t3 & E3 & H3 & C3).
  destruct (optional_command_run w (py "ffplay")) as (t4 & E4 & H4 & C4).
  destruct (optional_command_run w (py "paplay")) as (t5 & E5 & H5 & C5).
  destruct (test_audio_devices_run w) as (t6 & E6 & H6 & C6).
  destruct (test_internet_connection_run w) as (t7 & E7 & H7 & C7).
  unfold TestSetup.main.
  do 3 (erewrite bind_test_ok by reflexivity).
  erewrite bind_test_ok by (apply counted_run; exact E1).
  erewrite bind_test_ok by reflexivity.
  erewrite bind_test_ok by exact E2.
  erewrite bind_test_ok by reflexivity.
  erewrite bind_test_ok by exact E3.
  erewrite bind_test_ok by reflexivity.
  erewrite bind_test_ok
    by (cbn [TestSetup.for_each TestSetup.optional_commands];
        erewrite bind_test_ok by exact E4; erewrite bind_test_ok by exact E5; reflexivity).
  erewrite bind_test_ok by (apply counted_run; exact E6).
  erewrite bind_test_ok by (apply counted_run; exact E7).
  cbv beta iota zeta.
  match goal with
  | |- context [TestSetup.print "Passed: {}/{} tests" [AInt ?a; AInt ?b]] =>
      replace a with (TestSetup.passing w)
        by (unfold TestSetup.passing; cbv beta zeta; lia);
      change b with 10
  end.
  do 4 (erewrite bind_test_ok by reflexivity).
  destruct (TestSetup.passing w =? 10).
  all: do 5 (erewrite bind_test_ok by reflexivity).
  all: eexists; split; [reflexivity|].
  all: rewrite !tallies_app, !commands_run_app, H1, H2, H3, H4, H5, H6, H7,
         C1, C2, C3, C4, C5, C6, C7.
  all: destruct (TestSetup.devices_listed w (TestSetup.arecord w)); split; reflexivity.
Qed.

(** X19.  The script's [main] returns [True] exactly when all ten
    required tests pass: Python 3 with a minor version of 8 or more, the
    four modules found, [which] finding aplay, arecord and espeak, the
    two listings of devices, and the request to google.com.  It prints
    the tally once, as the number of those that pass out of 10.  The
    optional commands ffplay and paplay are looked up too, after the
    required ones, and are not counted.  The script exits with status 0
    when [main] returns [True] and with status 1 otherwise; no test
    raises, whatever the system answers. *)
Theorem setup_verdict (w : TestSetup.world) :
  let t := fst (TestSetup.main w) in
  snd (TestSetup.main w) = Ok (TestSetup.passing w =? 10)
  /\ TestSetup.tallies t = [(TestSetup.passing w, 10)]
  /\ TestSetup.commands_run t
     = map (fun command => [py "which"; command])
         (TestSetup.required_commands ++ TestSetup.optional_commands)
       ++ [py "arecord"; py "-l"]
          :: (if TestSetup.devices_listed w (TestSetup.arecord w)
              then [[py "aplay"; py "-l"]] else [])
  /\ snd (TestSetup.script w)
     = Raise (SystemExit (if TestSetup.passing w =? 10 then 0 else 1)).
Proof.
  destruct (setup_main_run w) as (t & E & Ht & Hc).
  unfold TestSetup.script. rewrite E. split; [reflexivity|]. split; [exact Ht|].
  split; [exact Hc|].
  cbn. destruct (TestSetup.passing w =? 10); reflexivity.
Qed.

(** X20.  [test_audio_devices] returns in every world, [True] exactly
    when arecord and aplay both exit with status 0 on [-l] and print a
    text that holds [card] once in lower case.  It lists the microphones
    first and does not list the speakers when that listing fails. *)
Theorem speakers_are_listed_after_microphones (w : TestSetup.world) :
  snd (TestSetup.test_audio_devices w) = Ok (TestSetup.audio_ok w)
  /\ TestSetup.commands_run (fst (TestSetup.test_audio_devices w))
     = [py "arecord"; py "-l"]
       :: (if TestSetup.devices_listed w (TestSetup.arecord w)
           then [[py "aplay"; py "-l"]] else []).
Proof.
  destruct (test_audio_devices_run w) as (t & -> & _ & Hc).
  split; [reflexivity|exact Hc].
Qed.
